(** * Ecosystem: submission parser and registry maintenance operations

    A shallow embedding of
    - [ecosystem/utils/submission_parser.py]
      ([_clean_section], [_section_titles_to_ids], [parse_submission_issue]),
    - [ecosystem/manager.py] ([Manager.update_badges], [Manager.update_stars],
      [Manager.add_results_from_artifacts], [Manager.list_repos_for_testing]),
    - [ecosystem/cli/ci.py] ([CliCI.add_member_from_issue]),
    followed by the properties of the specification that concern them.

    Python exceptions are values of [exn]; a computation that can raise
    returns a [result]; code that touches the record store, the badge files
    or the logger runs in the state-and-exception monad [M], in which the
    effects made before an exception is raised stay made. *)

From Stdlib Require Import String Ascii List ZArith Lia Bool.
From stdpp Require Import base option list strings gmap.

Local Open Scope string_scope.
Local Open Scope list_scope.

(** ** Exceptions and results *)

(** The exception classes the modelled code can raise.  [Exception cls]
    stands for any other class, named by [cls]: the errors of the
    collaborators (store, HTTP client) and the error names of the
    specification, none of which is defined in the sources. *)
Inductive exn : Type :=
| KeyError (key : string)
| IndexError
| TypeError
| AttributeError
| NameError (name : string)
| FileNotFoundError (path : string)
| IsADirectoryError (path : string)
| PermissionError (path : string)
| UnicodeDecodeError
| YAMLError
| JSONDecodeError
| Exception (cls : string).

Inductive result (A : Type) : Type :=
| Ok (a : A)
| Raise (e : exn).
Arguments Ok {A} a.
Arguments Raise {A} e.

Definition is_ok {A} (r : result A) : bool :=
  match r with Ok _ => true | Raise _ => false end.

Definition TemplateFormatError : exn := Exception "TemplateFormatError".

Global Instance result_ret : MRet result := fun _ a => Ok a.
Global Instance result_bind : MBind result := fun _ _ f r =>
  match r with Ok a => f a | Raise e => Raise e end.

(** [for x in xs: body] inside a comprehension that can raise: the elements
    are visited in order and the first exception ends the traversal. *)
Fixpoint map_result {A B} (f : A -> result B) (xs : list A) : result (list B) :=
  match xs with
  | [] => Ok []
  | x :: xs' =>
      match f x with
      | Raise e => Raise e
      | Ok y => match map_result f xs' with
                | Raise e => Raise e
                | Ok ys => Ok (y :: ys)
                end
      end
  end.

(** ** Python strings

    A [str] is a [string]; its characters are the code points 0..255. *)
Module Py.

Definition nl : string := String "010" "".
Definition dquote : ascii := "034"%char.

(** [str.isspace] on one character: U+0009..U+000D, U+001C..U+0020,
    U+0085 and U+00A0 are the white-space code points below 256. *)
Definition is_space (c : ascii) : bool :=
  let n := nat_of_ascii c in
  (((9 <=? n) && (n <=? 13)) || ((28 <=? n) && (n <=? 32))
   || (n =? 133) || (n =? 160))%nat.

Fixpoint lstrip (s : string) : string :=
  match s with
  | "" => ""
  | String c s' => if is_space c then lstrip s' else s
  end.

Fixpoint rstrip (s : string) : string :=
  match s with
  | "" => ""
  | String c s' =>
      match rstrip s' with
      | "" => if is_space c then "" else String c ""
      | r => String c r
      end
  end.

(** [s.strip()] *)
Definition strip (s : string) : string := rstrip (lstrip s).

(** [s.split(sep)] for a non-empty [sep] (every call site passes a
    non-empty literal; Python raises [ValueError] on an empty one).
    Occurrences of [sep] are found left to right and do not overlap:
    [skip] counts the characters of the current occurrence still to be
    passed over. *)
Fixpoint split_go (sep : string) (skip : nat) (s : string) : list string :=
  match s with
  | "" => [""]
  | String c s' =>
      match skip with
      | S k => split_go sep k s'
      | O =>
          if String.prefix sep s
          then "" :: split_go sep (String.length sep - 1) s'
          else match split_go sep 0 s' with
               | piece :: rest => String c piece :: rest
               | [] => [String c ""]
               end
      end
  end.

Definition split (sep s : string) : list string := split_go sep 0 s.

(** [sep.join(pieces)] *)
Fixpoint join (sep : string) (pieces : list string) : string :=
  match pieces with
  | [] => ""
  | [p] => p
  | p :: rest => p +:+ sep +:+ join sep rest
  end.

(** [s[-1]], raising [IndexError] on the empty string. *)
Fixpoint last_char (s : string) : result ascii :=
  match s with
  | "" => Raise IndexError
  | String c "" => Ok c
  | String _ s' => last_char s'
  end.

(** [s[:-1]] *)
Fixpoint drop_last (s : string) : string :=
  match s with
  | "" => ""
  | String c "" => ""
  | String c s' => String c (drop_last s')
  end.

(** [l[-k]] for [k >= 1], raising [IndexError] when [l] is too short. *)
Definition neg_index {A} (l : list A) (k : nat) : result A :=
  match k with
  | O => Raise IndexError
  | S k' => match nth_error (rev l) k' with
            | Some x => Ok x
            | None => Raise IndexError
            end
  end.

(** [l[i:j]] for non-negative [i <= j]. *)
Definition slice {A} (i j : nat) (l : list A) : list A :=
  take (j - i) (drop i l).

(** [c not in s] *)
Fixpoint free_of (c : ascii) (s : string) : bool :=
  match s with
  | "" => true
  | String c' s' => negb (Ascii.eqb c' c) && free_of c s'
  end.

End Py.

(** A [dict] with [str] keys: the keys in insertion order, a key stored
    again keeps its place and takes the new value. *)
Module Dict.

Definition t (V : Type) : Type := list (string * V).

Fixpoint get {V} (k : string) (d : t V) : option V :=
  match d with
  | [] => None
  | (k', v) :: d' => if String.eqb k k' then Some v else get k d'
  end.

Fixpoint set {V} (k : string) (v : V) (d : t V) : t V :=
  match d with
  | [] => [(k, v)]
  | (k', v') :: d' =>
      if String.eqb k k' then (k', v) :: d' else (k', v') :: set k v d'
  end.

(** [dict(pairs)] *)
Definition of_pairs {V} (pairs : list (string * V)) : t V :=
  fold_left (fun d kv => set (fst kv) (snd kv) d) pairs [].

(** [d[k]] *)
Definition subscript {V} (d : t V) (k : string) : result V :=
  match get k d with
  | Some v => Ok v
  | None => Raise (KeyError k)
  end.

Definition values {V} (d : t V) : list V := map snd d.

End Dict.

(** A key of a [dict] that is read from a document: [None], a number, or a
    [str].  [True] and [1], [False] and [0] are one key to a [dict], so a
    boolean is the number it equals; a [str] equals no number and not
    [None]. *)
Inductive key : Type :=
| KNone
| KNum (n : Z)
| KStr (s : string).

(** A [dict] with such keys, in insertion order; a key stored again keeps
    its place and takes the new value. *)
Module PyDict.

Definition key_eqb (a b : key) : bool :=
  match a, b with
  | KNone, KNone => true
  | KNum n, KNum m => Z.eqb n m
  | KStr s, KStr s' => String.eqb s s'
  | _, _ => false
  end.

Definition t (V : Type) : Type := list (key * V).

Fixpoint get {V} (k : key) (d : t V) : option V :=
  match d with
  | [] => None
  | (k', v) :: d' => if key_eqb k k' then Some v else get k d'
  end.

Fixpoint set {V} (k : key) (v : V) (d : t V) : t V :=
  match d with
  | [] => [(k, v)]
  | (k', v') :: d' =>
      if key_eqb k k' then (k', v) :: d' else (k', v') :: set k v d'
  end.

(** [d[k]] for a [str] [k] *)
Definition subscript {V} (d : t V) (k : string) : result V :=
  match get (KStr k) d with
  | Some v => Ok v
  | None => Raise (KeyError k)
  end.

(** The value of the last pair of [pairs] whose key is [k]. *)
Fixpoint last_value {V} (k : key) (pairs : list (key * V)) : option V :=
  match pairs with
  | [] => None
  | (k', v) :: pairs' =>
      match last_value k pairs' with
      | Some v' => Some v'
      | None => if key_eqb k k' then Some v else None
      end
  end.

(** A call with [d] unpacked into keyword arguments: the keywords must be
    strings. *)
Definition keywords {V} (d : t V) : result (Dict.t V) :=
  map_result
    (fun kv => match fst kv with
               | KStr s => Ok (s, snd kv)
               | _ => Raise TypeError
               end)
    d.

End PyDict.

(** ** Documents *)

(** What [yaml.load] returns for the issue template: [None], a boolean,
    an integer, a string, a list, or a dictionary.  The keys of the
    dictionaries are strings, as the keys of an issue form are; floats and
    timestamps are left out. *)
#[warnings="-register-all"]
Inductive yaml : Type :=
| YNull
| YBool (b : bool)
| YInt (n : Z)
| YStr (s : string)
| YSeq (items : list yaml)
| YMap (entries : list (string * yaml)).

(** What [json.loads] returns; [JNull] is [None].  Numbers are integers. *)
#[warnings="-register-all"]
Inductive json : Type :=
| JNull
| JBool (b : bool)
| JNum (n : Z)
| JStr (s : string)
| JArr (items : list json)
| JObj (entries : list (string * json)).

Module Yaml.

(** [y[key]] with a [str] key: only a dictionary can be indexed by one. *)
Definition subscript (y : yaml) (key : string) : result yaml :=
  match y with
  | YMap entries => Dict.subscript entries key
  | YNull | YBool _ | YInt _ | YStr _ | YSeq _ => Raise TypeError
  end.

(** [for x in y]: the items of a list, the keys of a dictionary, the
    characters of a string; the other values are not iterable. *)
Definition iterate (y : yaml) : result (list yaml) :=
  match y with
  | YSeq items => Ok items
  | YMap entries => Ok (map (fun kv => YStr (fst kv)) entries)
  | YStr s => Ok (map (fun c => YStr (String c "")) (list_ascii_of_string s))
  | YNull | YBool _ | YInt _ => Raise TypeError
  end.

(** [y] as the key of a dictionary: lists and dictionaries are
    unhashable. *)
Definition as_key (y : yaml) : result key :=
  match y with
  | YNull => Ok KNone
  | YBool b => Ok (KNum (if b then 1 else 0))
  | YInt n => Ok (KNum n)
  | YStr s => Ok (KStr s)
  | YSeq _ | YMap _ => Raise TypeError
  end.

Definition is_markdown (y : yaml) : bool :=
  match y with
  | YStr s => String.eqb s "markdown"
  | _ => false
  end.

End Yaml.

(** ** Data model *)

(** Modelled from the spec: [ecosystem.models.TestResult] is not part of the
    sources; section 3 gives it a [test_type] and a boolean [passed], and
    passes the rest through opaquely. *)
Record TestResult : Type := mkTestResult {
  test_type : string;
  passed : bool;
  metadata : list (string * json)
}.

(** Modelled from the spec: [ecosystem.models.repository.Repository] is not
    part of the sources; the fields are those of section 3.  A text field
    left unanswered in a submission is [None]; [stars] holds what
    [update_stars] passes to the store. *)
Record Repository : Type := mkRepository {
  name : string;
  url : string;
  description : option string;
  licence : option string;
  contact_info : option string;
  alternatives : option string;
  affiliations : option string;
  labels : list string;
  website : option string;
  tier : string;
  stars : json;
  skip_tests : bool;
  tests_results : list TestResult
}.

(** The values of the dictionary [args] that [parse_submission_issue]
    passes to [Repository] as keyword arguments. *)
Inductive value : Type :=
| VNone
| VStr (s : string)
| VList (l : list string).

Definition ValidationError : exn := Exception "ValidationError".

(** What is at a path: a file whose text can be read, or something that
    makes opening or reading it raise ([IsADirectoryError] for a
    directory, [PermissionError], [UnicodeDecodeError] for a file that is
    not text, or another [OSError]).  A path with nothing at it raises
    [FileNotFoundError]. *)
Inductive file : Type :=
| Text (text : string)
| Unreadable (e : exn).

Section Models.

(** [Tier.all()] and [Tier.COMMUNITY] of [ecosystem.models.Tier], which is
    not part of the sources: the fixed tiers in their canonical order and
    the default tier. *)
Variable Tier_all : list string.
Variable Tier_COMMUNITY : string.

Definition text_field (args : Dict.t value) (k : string) : result (option string) :=
  match Dict.get k args with
  | None | Some VNone => Ok None
  | Some (VStr s) => Ok (Some s)
  | Some (VList _) => Raise ValidationError
  end.

Definition required_field (args : Dict.t value) (k : string) : result string :=
  match Dict.get k args with
  | Some (VStr s) => Ok s
  | _ => Raise ValidationError
  end.

Definition labels_field (args : Dict.t value) : result (list string) :=
  match Dict.get "labels" args with
  | None | Some VNone => Ok []
  | Some (VList l) => Ok l
  | Some (VStr _) => Raise ValidationError
  end.

Definition tier_field (args : Dict.t value) : result string :=
  match Dict.get "tier" args with
  | None | Some VNone => Ok Tier_COMMUNITY
  | Some (VStr s) =>
      if existsb (String.eqb s) Tier_all then Ok s else Raise ValidationError
  | Some (VList _) => Raise ValidationError
  end.

(** Modelled from the spec: the constructor of [Repository] called with the
    dictionary [args] as keyword arguments (section 4.3, step 4).  It fails
    with [ValidationError] if [name] or [url] is absent or if [tier] is
    given and is not one of the tiers; [tier] defaults to the community
    tier, [stars] and [tests_results] start unset and empty. *)
Definition Repository_init (args : Dict.t value) : result Repository :=
  n ← required_field args "name";
  u ← required_field args "url";
  d ← text_field args "description";
  li ← text_field args "licence";
  c ← text_field args "contact_info";
  al ← text_field args "alternatives";
  af ← text_field args "affiliations";
  la ← labels_field args;
  w ← text_field args "website";
  t ← tier_field args;
  Ok (mkRepository n u d li c al af la w t JNull false []).

(** *** [ecosystem/utils/submission_parser.py] *)

(** [mdformat.text] and [yaml.load(_, Loader=yaml.SafeLoader)] are library
    functions; [fs] is what is at each path when the code runs (paths as
    the code gives them, relative to the working directory). *)
Variable mdformat_text : string -> string.
Variable yaml_load : string -> result yaml.
Variable fs : gmap string file.

Definition template_path : string := ".github/ISSUE_TEMPLATE/submission.yml".

(** [Path(path).read_text()], and [open(path)] followed by a read of the
    whole file. *)
Definition read_text (path : string) : result string :=
  match fs !! path with
  | Some (Text text) => Ok text
  | Some (Unreadable e) => Raise e
  | None => Raise (FileNotFoundError path)
  end.

(** Lines 10-18.  [paragraphs[0]] exists: [split] never returns the empty
    list ([split_nonempty] below). *)
Definition _clean_section (section : string) : string * string :=
  let paragraphs := Py.split Py.nl section in
  let section' :=
    Py.join " "
      (map Py.strip
         (List.filter (fun paragraph => negb (String.eqb paragraph "")) (tail paragraphs))) in
  let title := Py.strip (hd "" paragraphs) in
  (title, section').

(** One round of the comprehension of lines 27-31: the condition, then the
    key, then the value, then the store under the key. *)
Definition add_form (label_to_id : PyDict.t yaml) (form : yaml)
  : result (PyDict.t yaml) :=
  ty ← Yaml.subscript form "type";
  if Yaml.is_markdown ty then Ok label_to_id
  else
    attributes ← Yaml.subscript form "attributes";
    label ← Yaml.subscript attributes "label";
    id ← Yaml.subscript form "id";
    key ← Yaml.as_key label;
    Ok (PyDict.set key id label_to_id).

Fixpoint add_forms (label_to_id : PyDict.t yaml) (forms : list yaml)
  : result (PyDict.t yaml) :=
  match forms with
  | [] => Ok label_to_id
  | form :: forms' =>
      match add_form label_to_id form with
      | Raise e => Raise e
      | Ok d => add_forms d forms'
      end
  end.

(** Lines 27-31: [label_to_id] of an issue template. *)
Definition label_to_id_of (issue_template : yaml) : result (PyDict.t yaml) :=
  body ← Yaml.subscript issue_template "body";
  forms ← Yaml.iterate body;
  add_forms [] forms.

(** One round of the comprehension of line 32. *)
Definition rekey (label_to_id : PyDict.t yaml) (args : PyDict.t string)
    (item : string * string) : result (PyDict.t string) :=
  id ← PyDict.subscript label_to_id (fst item);
  key ← Yaml.as_key id;
  Ok (PyDict.set key (snd item) args).

Fixpoint rekey_all (label_to_id : PyDict.t yaml) (args : PyDict.t string)
    (items : list (string * string)) : result (PyDict.t string) :=
  match items with
  | [] => Ok args
  | item :: items' =>
      match rekey label_to_id args item with
      | Raise e => Raise e
      | Ok args' => rekey_all label_to_id args' items'
      end
  end.

(** Lines 21-32. *)
Definition _section_titles_to_ids (sections : Dict.t string)
  : result (PyDict.t string) :=
  text ← read_text template_path;
  issue_template ← yaml_load text;
  label_to_id ← label_to_id_of issue_template;
  rekey_all label_to_id [] sections.

(** Lines 51-54: the placeholder of an unanswered field becomes [None]. *)
Definition no_response (v : string) : value :=
  if String.eqb v "_No response_" then VNone else VStr v.

(** Lines 56-59, on the value of [args["labels"]]; a list has no [split]. *)
Definition normalize_labels (v : value) : result (list string) :=
  match v with
  | VNone => Ok []
  | VStr s => Ok (map Py.strip (Py.split "," s))
  | VList _ => Raise AttributeError
  end.

(** Lines 44-54: the keyword arguments before [labels] is rewritten. *)
Definition submission_args (body_of_issue : string) : result (PyDict.t value) :=
  let issue_formatted := mdformat_text body_of_issue in
  let sections :=
    Dict.of_pairs (map _clean_section (tail (Py.split "### " issue_formatted))) in
  args ← _section_titles_to_ids sections;
  Ok (map (fun kv => (fst kv, no_response (snd kv))) args).

(** Lines 35-61.  The call of [Repository] with [args] as keyword
    arguments raises [TypeError] when a key of [args] is not a [str]. *)
Definition parse_submission_issue (body_of_issue : string) : result Repository :=
  args ← submission_args body_of_issue;
  v ← PyDict.subscript args "labels";
  l ← normalize_labels v;
  kwargs ← PyDict.keywords (PyDict.set (KStr "labels") (VList l) args);
  Repository_init kwargs.

End Models.

(** The first of [attributes], [label] (below [attributes]) and [id] that
    the field descriptor [entries] lacks. *)
Definition missing_key (entries : list (string * yaml)) : option string :=
  match Dict.get "attributes" entries with
  | None => Some "attributes"
  | Some (YMap attributes) =>
      match Dict.get "label" attributes with
      | None => Some "label"
      | Some _ =>
          match Dict.get "id" entries with
          | None => Some "id"
          | Some _ => None
          end
      end
  | Some _ => None
  end.

(** The key and the [id] that a form adds to [label_to_id]: those of a
    dictionary that is no markdown block and has [attributes] with a
    hashable [label], and an [id]. *)
Definition descriptor_of (form : yaml) : option (key * yaml) :=
  match form with
  | YMap entries =>
      match Dict.get "type" entries, Dict.get "attributes" entries,
            Dict.get "id" entries with
      | Some ty, Some (YMap attributes), Some id =>
          if Yaml.is_markdown ty then None
          else match Dict.get "label" attributes with
               | Some label =>
                   match Yaml.as_key label with
                   | Ok k => Some (k, id)
                   | Raise _ => None
                   end
               | None => None
               end
      | _, _, _ => None
      end
  | _ => None
  end.

(** A form that the resolution of the fields accepts: a markdown block,
    or a form with a descriptor.  Nothing is asked of the other forms of
    the template: two such forms may carry the same label. *)
Definition resolvable (form : yaml) : bool :=
  match form with
  | YMap entries =>
      match Dict.get "type" entries with
      | Some ty =>
          Yaml.is_markdown ty
          || match descriptor_of form with Some _ => true | None => false end
      | None => false
      end
  | _ => false
  end.

(** The [id] of the last field descriptor of [forms] whose label is the
    key [label]. *)
Fixpoint last_id (label : key) (forms : list yaml) : option yaml :=
  match forms with
  | [] => None
  | form :: forms' =>
      match last_id label forms' with
      | Some id => Some id
      | None =>
          match descriptor_of form with
          | Some (label', id) =>
              if PyDict.key_eqb label label' then Some id else None
          | None => None
          end
      end
  end.

(** ** Effects: store, badge files, log *)

Inductive log_arg : Type :=
| LStr (s : string)
| LJson (j : json).

(** A call of [logger.info] or [logger.warning]: the format string and its
    arguments.  Logging does not raise. *)
Inductive log_entry : Type :=
| LogInfo (fmt : string) (args : list log_arg)
| LogWarning (fmt : string) (args : list log_arg).

(** What a run can change: the record store behind [self.dao], the files
    written (by path), and the log. *)
Record state (Store : Type) : Type := mkState {
  st_store : Store;
  st_files : gmap string string;
  st_log : list log_entry
}.
Arguments mkState {Store} _ _ _.
Arguments st_store {Store} _.
Arguments st_files {Store} _.
Arguments st_log {Store} _.

(** A statement sequence: from a state to a result and the state reached,
    also when the result is an exception. *)
Definition M (S A : Type) : Type := S -> result A * S.

Global Instance M_ret {S} : MRet (M S) := fun _ a st => (Ok a, st).
Global Instance M_bind {S} : MBind (M S) := fun _ _ f m st =>
  match m st with
  | (Ok a, st') => f a st'
  | (Raise e, st') => (Raise e, st')
  end.

Definition lift {S A} (r : result A) : M S A := fun st => (r, st).

(** [for x in xs: body x] *)
Fixpoint for_each {S A} (xs : list A) (body : A -> M S unit) : M S unit :=
  match xs with
  | [] => mret tt
  | x :: xs' => body x ≫= fun _ => for_each xs' body
  end.

(** The operations of [ecosystem.daos.DAO] that the manager calls.  The
    class is not part of the sources: the operations are those of the
    record store of section 6.  Reading does not raise; writing may. *)
Class DAO (Store : Type) : Type := {
  get_repos_by_tier : string -> Store -> list Repository;
  storage_read : Store -> Dict.t Repository;
  dao_update_stars : string -> json -> Store -> result Store;
  dao_write : Repository -> Store -> result Store;
  dao_add_repo_test_result : string -> TestResult -> Store -> result Store
}.

(** What [requests.get] returns. *)
Record Response : Type := mkResponse {
  ok : bool;
  text : string;
  content : string
}.

Section Effects.

Context {Store : Type} `{DAO Store}.

Definition log (e : log_entry) : M (state Store) unit := fun st =>
  (Ok tt, mkState (st_store st) (st_files st) (st_log st ++ [e])).

(** [with open(path, "wb") as outfile: outfile.write(data)].  [open_wb]
    is what opening the path for writing does: it succeeds, or it raises
    (an [OSError]: no such folder, a name that is no file name, no
    permission) and then nothing is written. *)
Definition write_file (open_wb : string -> result unit) (path data : string)
  : M (state Store) unit := fun st =>
  match open_wb path with
  | Ok _ =>
      (Ok tt, mkState (st_store st) (<[path := data]> (st_files st)) (st_log st))
  | Raise e => (Raise e, st)
  end.

Definition read_store {A} (f : Store -> A) : M (state Store) A := fun st =>
  (Ok (f (st_store st)), st).

(** A store operation that may raise: the store changes only if it does
    not. *)
Definition on_store (f : Store -> result Store) : M (state Store) unit := fun st =>
  match f (st_store st) with
  | Ok s' => (Ok tt, mkState s' (st_files st) (st_log st))
  | Raise e => (Raise e, st)
  end.

End Effects.

(** ** [json.dumps] of a list of strings *)
Module Json.

Definition hex_digit (n : nat) : ascii :=
  match String.get n "0123456789abcdef" with
  | Some c => c
  | None => "0"%char
  end.

(** One character under [ensure_ascii]: the short escapes, the printable
    ASCII characters as they are, anything else as a [\u] escape of four
    hexadecimal digits. *)
Definition escape_char (c : ascii) : string :=
  let n := nat_of_ascii c in
  if Ascii.eqb c Py.dquote then String "\" (String Py.dquote "")
  else if Ascii.eqb c "\" then "\\"
  else if (n =? 10)%nat then "\n"
  else if (n =? 13)%nat then "\r"
  else if (n =? 9)%nat then "\t"
  else if (n =? 8)%nat then "\b"
  else if (n =? 12)%nat then "\f"
  else if ((32 <=? n) && (n <=? 126))%nat then String c ""
  else "\u00" +:+ String (hex_digit (n / 16)) (String (hex_digit (n mod 16)) "").

Fixpoint escape (s : string) : string :=
  match s with
  | "" => ""
  | String c s' => escape_char c +:+ escape s'
  end.

Definition dumps_str (s : string) : string :=
  String Py.dquote (escape s +:+ String Py.dquote "").

(** [json.dumps(l)] for a list of [str]. *)
Definition dumps_list (l : list string) : string :=
  "[" +:+ Py.join ", " (map dumps_str l) +:+ "]".

(** [j.get(key)]: a dictionary answers, [None] for a missing key; no other
    value decoded from JSON has a [get]. *)
Definition get (j : json) (key : string) : result json :=
  match j with
  | JObj entries => Ok (default JNull (Dict.get key entries))
  | _ => Raise AttributeError
  end.

Fixpoint remove_key (key : string) (entries : list (string * json)) : list (string * json) :=
  match entries with
  | [] => []
  | (k, v) :: rest =>
      if String.eqb key k then rest else (k, v) :: remove_key key rest
  end.

(** [j.pop(key)]: the value and the dictionary without the key.  A list
    has a [pop] that takes an index; the other values have none. *)
Definition pop (j : json) (key : string) : result (json * Dict.t json) :=
  match j with
  | JObj entries =>
      match Dict.get key entries with
      | Some v => Ok (v, remove_key key entries)
      | None => Raise (KeyError key)
      end
  | JArr _ => Raise TypeError
  | _ => Raise AttributeError
  end.

End Json.

(** ** [ecosystem/manager.py] and [ecosystem/cli/ci.py] *)

Section Manager.

Context {Store : Type} `{DAO Store}.

Variable Tier_all : list string.
Variable Tier_COMMUNITY : string.
Variable mdformat_text : string -> string.
Variable yaml_load : string -> result yaml.
Variable fs : gmap string file.

(** [self.current_dir]. *)
Variable current_dir : string.

(** What [open(path, "wb")] does: see [write_file]. *)
Variable open_wb : string -> result unit.

(** The network: what [requests.get(url)] does, a response or an exception
    ([requests.exceptions.RequestException] and the like). *)
Variable requests_get : string -> result Response.

(** [json.loads], raising [JSONDecodeError] on a malformed document. *)
Variable json_loads : string -> result json.

(** [Path(path).rglob('*.json')], in the order the directory walk yields
    the files. *)
Variable rglob_json : string -> list string.

(** [str(v)] as an f-string formats a decoded JSON value, and
    [TestResult.from_dict] of [ecosystem.models]. *)
Variable py_str : json -> string.
Variable TestResult_from_dict : Dict.t json -> result TestResult.

Local Abbreviation Cmd := (M (state Store) unit).

(** *** [Manager.update_badges] *)

(** Lines 43-46. *)
Definition tests_passed_of (results : list TestResult) : bool :=
  fold_left
    (fun tests_passed type_test =>
       if String.eqb (test_type type_test) "standard" && negb (passed type_test)
       then false else tests_passed)
    results true.

(** Line 47. *)
Definition badge_color (project : Repository) : string :=
  if tests_passed_of (tests_results project) then "blueviolet" else "gray".

(** Lines 48-53. *)
Definition badge_url (tier : string) (project : Repository) : string :=
  "https://img.shields.io/static/v1?" +:+
  "label=" +:+ name project +:+ "&message=" +:+ tier +:+
  "&color=" +:+ badge_color project.

Definition badge_path (project : Repository) : string :=
  current_dir +:+ "/badges" +:+ "/" +:+ name project +:+ ".svg".

(** Lines 43-58, the body of the inner loop. *)
Definition update_badge (tier : string) (project : Repository) : Cmd :=
  shields_request ← lift (requests_get (badge_url tier project));
  _ ← write_file open_wb (badge_path project) (content shields_request);
  log (LogInfo "Badge for %s has been updated." [LStr (name project)]).

(** Lines 37-58. *)
Definition update_badges : Cmd :=
  for_each Tier_all (fun tier =>
    projects ← read_store (get_repos_by_tier tier);
    for_each projects (update_badge tier)).

(** *** [Manager.update_stars] *)

(** Lines 65-68: the pair [(user, repo)]. *)
Definition user_and_repo (project_url : string) : result (string * string) :=
  c ← Py.last_char project_url;
  let url := if Ascii.eqb c "/" then Py.drop_last project_url else project_url in
  let url_chunks := Py.split "/" url in
  repo ← Py.neg_index url_chunks 1;
  user ← Py.neg_index url_chunks 2;
  Ok (user, repo).

Definition api_url (user_repo : string * string) : string :=
  "http://api.github.com/repos/" +:+ fst user_repo +:+ "/" +:+ snd user_repo.

(** Lines 64-78, the body of the inner loop; [continue] ends it. *)
Definition update_star (project : Repository) : Cmd :=
  user_repo ← lift (user_and_repo (url project));
  response ← lift (requests_get (api_url user_repo));
  if negb (ok response) then
    log (LogWarning "Bad response for project %s" [LStr (url project)])
  else
    json_data ← lift (json_loads (text response));
    stars ← lift (Json.get json_data "stargazers_count");
    _ ← on_store (dao_update_stars (url project) stars);
    log (LogInfo "Updating star count for %s: %d" [LStr (url project); LJson stars]).

(** Lines 60-78. *)
Definition update_stars : Cmd :=
  for_each Tier_all (fun tier =>
    projects ← read_store (get_repos_by_tier tier);
    for_each projects update_star).

(** *** [Manager.add_results_from_artifacts] *)

(** Lines 152-157, the body of the loop. *)
Definition add_result_from_artifact (artifact : string) : Cmd :=
  f ← lift (read_text fs artifact);
  test_json ← lift (json_loads f);
  popped ← lift (Json.pop test_json "repo_name");
  let repo_name := fst popped in
  let repo_url := "https://github.com/" +:+ py_str repo_name in
  test_result ← lift (TestResult_from_dict (snd popped));
  on_store (dao_add_repo_test_result repo_url test_result).

(** Lines 150-157. *)
Definition add_results_from_artifacts (path : string) : Cmd :=
  for_each (rglob_json path) add_result_from_artifact.

(** *** [Manager.list_repos_for_testing] *)

(** Line 166. *)
Definition repo_name_of (repo : Repository) : string :=
  Py.join "/" (Py.slice 3 5 (Py.split "/" (url repo))).

(** Lines 163-167: [repo_names] when the loop ends. *)
Definition repos_for_testing (store : Store) : list string :=
  fold_left
    (fun repo_names repo =>
       if negb (skip_tests repo) then repo_names ++ [repo_name_of repo]
       else repo_names)
    (Dict.values (storage_read store)) [].

(** Lines 159-168. *)
Definition list_repos_for_testing (store : Store) : string :=
  Json.dumps_list (repos_for_testing store).

(** *** [CliCI.add_member_from_issue] *)

(** An instance of [CliCI], as far as the method reads it; its [dao] is
    the store of the state. *)
Record CliCI : Type := mkCliCI { ci_current_dir : string }.

(** What a name of the method's body is bound to.  The body reads four
    names: the parameter [body], the imported function
    [parse_submission_issue], and [self] twice. *)
Inductive binding : Type :=
| BStr (s : string)
| BParse
| BSelf (self : CliCI).

(** The names bound at module level in [ci.py] ([os], [Optional], [DAO],
    [logger], [set_actions_output] and [CliCI] are not read by the
    method). *)
Definition ci_globals : Dict.t binding :=
  [("parse_submission_issue", BParse)].

(** The scope of the body on a call with argument [body]: a static method
    has the one parameter; [globals] is the module level. *)
Definition scope_of (globals : Dict.t binding) (body : string) : Dict.t binding :=
  ("body", BStr body) :: globals.

Definition load_name (scope : Dict.t binding) (x : string) : result binding :=
  match Dict.get x scope with
  | Some b => Ok b
  | None => Raise (NameError x)
  end.

(** [b.current_dir] *)
Definition get_current_dir (b : binding) : result binding :=
  match b with
  | BSelf self => Ok (BStr (ci_current_dir self))
  | _ => Raise AttributeError
  end.

(** [f(a1, ..., an)]: [parse_submission_issue] takes one positional
    argument; strings and instances are not callable. *)
Definition call (f : binding) (args : list binding) : result Repository :=
  match f with
  | BParse =>
      match args with
      | [BStr body_of_issue] =>
          parse_submission_issue Tier_all Tier_COMMUNITY mdformat_text
            yaml_load fs body_of_issue
      | _ => Raise TypeError
      end
  | _ => Raise TypeError
  end.

(** [b.dao.write(record)] *)
Definition write_via (b : binding) (record : Repository) : Cmd :=
  match b with
  | BSelf _ => on_store (dao_write record)
  | _ => lift (Raise AttributeError)
  end.

(** Lines 26-38 of [ci.py], run with [globals] as the module level: the
    callee, then the arguments from left to right, then the call. *)
Definition add_member_from_issue_in (globals : Dict.t binding) (body : string) : Cmd :=
  let scope := scope_of globals body in
  f ← lift (load_name scope "parse_submission_issue");
  a1 ← lift (load_name scope "body");
  self1 ← lift (load_name scope "self");
  a2 ← lift (get_current_dir self1);
  parsed_result ← lift (call f [a1; a2]);
  self2 ← lift (load_name scope "self");
  write_via self2 parsed_result.

Definition add_member_from_issue (body : string) : Cmd :=
  add_member_from_issue_in ci_globals body.

End Manager.

(** ** A record store *)

Definition set_stars (v : json) (r : Repository) : Repository :=
  mkRepository (name r) (url r) (description r) (licence r) (contact_info r)
    (alternatives r) (affiliations r) (labels r) (website r) (tier r) v
    (skip_tests r) (tests_results r).

Definition append_test_result (t : TestResult) (r : Repository) : Repository :=
  mkRepository (name r) (url r) (description r) (licence r) (contact_info r)
    (alternatives r) (affiliations r) (labels r) (website r) (tier r) (stars r)
    (skip_tests r) (tests_results r ++ [t]).

Definition StoreError : exn := Exception "StoreError".

(** Modelled from the spec: the record store of section 6, which is not
    part of the sources: an ordered-by-insertion mapping from [url] to
    record; [write] overwrites by [url]; [update] fails if the [url] is
    unknown; [appendTestResult] appends to that record's results (on an
    unknown [url], about which the specification is silent, it does
    nothing); selection by tier keeps store order. *)
Global Instance list_dao : DAO (Dict.t Repository) := {|
  get_repos_by_tier t s :=
    List.filter (fun r => String.eqb (tier r) t) (Dict.values s);
  storage_read s := s;
  dao_update_stars u v s :=
    match Dict.get u s with
    | Some r => Ok (Dict.set u (set_stars v r) s)
    | None => Raise StoreError
    end;
  dao_write r s := Ok (Dict.set (url r) r s);
  dao_add_repo_test_result u t s :=
    match Dict.get u s with
    | Some r => Ok (Dict.set u (append_test_result t r) s)
    | None => Ok s
    end
|}.

(** ** Sample data *)

Definition sample_tiers : list string := ["Main"; "Community"].
Definition sample_community : string := "Community".

Definition sample_repo (n u t : string) (skip : bool) (results : list TestResult)
  : Repository :=
  mkRepository n u None None None None None [] None t (JNum 7) skip results.

Definition std_pass : TestResult := mkTestResult "standard" true [].
Definition std_fail : TestResult := mkTestResult "standard" false [].
Definition other_fail : TestResult := mkTestResult "dev" false [].

Definition repo_A : Repository := sample_repo "a" "https://github.com/x/a" "Main" false [std_pass].
Definition repo_B : Repository := sample_repo "b" "https://github.com/x/b" "Main" true [].
Definition repo_C : Repository := sample_repo "c" "https://github.com/y/c/" "Community" false [].

Definition sample_store : Dict.t Repository :=
  [(url repo_A, repo_A); (url repo_B, repo_B); (url repo_C, repo_C)].

Definition sample_state : state (Dict.t Repository) := mkState sample_store ∅ [].

(** Two behaviours of the repository API: every request answered with a
    non-success response, and every request answered with a success whose
    JSON body has no [stargazers_count]. *)
Definition api_not_found : string -> result Response :=
  fun _ => Ok (mkResponse false "Not Found" "Not Found").
Definition api_no_count : string -> result Response :=
  fun _ => Ok (mkResponse true "{}" "{}").

(** A test-result artifact:
    [{"repo_name": "x/a", "test_type": "standard", "passed": false}]. *)
Definition artifact_text : string :=
  Py.join (String Py.dquote "")
    ["{"; "repo_name"; ": "; "x/a"; ", "; "test_type"; ": "; "standard"; ", ";
     "passed"; ": false}"].

(** [json.loads] on the documents of the samples; any other text used in
    them is not JSON. *)
Definition sample_json_loads (doc : string) : result json :=
  if String.eqb doc "{}" then Ok (JObj [])
  else if String.eqb doc artifact_text then
    Ok (JObj [("repo_name", JStr "x/a"); ("test_type", JStr "standard");
              ("passed", JBool false)])
  else Raise JSONDecodeError.

(** [str] on the strings; the samples format no other value. *)
Definition sample_py_str (v : json) : string :=
  match v with
  | JStr s => s
  | _ => ""
  end.

Definition sample_from_dict (d : Dict.t json) : result TestResult :=
  match Dict.get "test_type" d, Dict.get "passed" d with
  | Some (JStr ty), Some (JBool p) =>
      Ok (mkTestResult ty p (Json.remove_key "passed" (Json.remove_key "test_type" d)))
  | _, _ => Raise TypeError
  end.

(** Two behaviours of the badge service: every request answered with a
    non-success response, and every request failing in the client. *)
Definition shields_error : string -> result Response :=
  fun _ => Ok (mkResponse false "Bad Gateway" "Bad Gateway").
Definition shields_unreachable : string -> result Response :=
  fun _ => Raise (Exception "ConnectionError").

(** Two states of the badges folder: every badge file can be opened for
    writing, and the folder is not there. *)
Definition writable : string -> result unit := fun _ => Ok tt.
Definition no_folder : string -> result unit :=
  fun path => Raise (FileNotFoundError path).

(** An artifact directory with a well-formed artifact for [x/a] and a
    file that is not JSON, found in this order. *)
Definition artifact_files : gmap string file :=
  <["artifacts/a/result.json" := Text artifact_text]>
    (<["artifacts/b/result.json" := Text "not json"]> ∅).
Definition artifact_walk : string -> list string :=
  fun _ => ["artifacts/a/result.json"; "artifacts/b/result.json"].

(** *** Issue templates and issue bodies *)

Definition lines (l : list string) : string := Py.join Py.nl l.

(** A field descriptor with [id] and [label], as text and as loaded. *)
Definition field_text (f : string * string) : list string :=
  ["- type: input"; "  id: " +:+ fst f; "  attributes:"; "    label: " +:+ snd f].
Definition field_yaml (f : string * string) : yaml :=
  YMap [("type", YStr "input"); ("id", YStr (fst f));
        ("attributes", YMap [("label", YStr (snd f))])].

(** A template with a markdown block followed by the given fields. *)
Definition template_text (fields : list (string * string)) : string :=
  lines (["name: Submission"; "body:"; "- type: markdown"; "  attributes:";
          "    value: Thanks"] ++ concat (map field_text fields) ++ [""]).
Definition template_yaml (fields : list (string * string)) : yaml :=
  YMap [("name", YStr "Submission");
        ("body",
         YSeq (YMap [("type", YStr "markdown");
                     ("attributes", YMap [("value", YStr "Thanks")])]
               :: map field_yaml fields))].

Definition fields_plain : list (string * string) :=
  [("name", "Name"); ("url", "Repository"); ("labels", "Labels")].
Definition fields_swapped : list (string * string) :=
  [("url", "Name"); ("name", "Repository"); ("labels", "Labels")].
Definition fields_duplicate : list (string * string) :=
  [("name", "Name"); ("url", "Name"); ("labels", "Labels")].

(** A template whose only field descriptor has no [id]. *)
Definition template_without_id : yaml :=
  YMap [("body",
         YSeq [YMap [("type", YStr "input");
                     ("attributes", YMap [("label", YStr "Name")])]])].

(** [yaml.load] on the three templates above; the samples load no other
    document. *)
Definition sample_yaml_load (doc : string) : result yaml :=
  match
    find (fun fields => String.eqb doc (template_text fields))
      [fields_plain; fields_swapped; fields_duplicate]
  with
  | Some fields => Ok (template_yaml fields)
  | None => Raise YAMLError
  end.

(** The working directory with the given template in place. *)
Definition with_template (fields : list (string * string)) : gmap string file :=
  {[ template_path := Text (template_text fields) ]}.

(** [mdformat.text] on a document that is in its normal form already,
    which it returns as it is. *)
Definition formatted : string -> string := fun document => document.

(** An issue with the sections Name, Repository and Labels, the last with
    the given text. *)
Definition issue_with_labels (labels_text : string) : string :=
  lines ["### Name"; ""; "Foo"; ""; "### Repository"; "";
         "https://github.com/x/foo"; ""; "### Labels"; ""; labels_text; ""].

(** The same issue with nothing below the Labels heading, and without the
    Labels section. *)
Definition issue_with_empty_labels : string :=
  lines ["### Name"; ""; "Foo"; ""; "### Repository"; "";
         "https://github.com/x/foo"; ""; "### Labels"; ""].
Definition issue_without_labels : string :=
  lines ["### Name"; ""; "Foo"; ""; "### Repository"; "";
         "https://github.com/x/foo"; ""].

Definition foo_with (n u : string) (l : list string) : Repository :=
  mkRepository n u None None None None None l None "Community" JNull false [].

(** ** Notions used to state further properties *)

(** The URL that line 65 of [manager.py] goes on with: the record's URL
    without one trailing slash. *)
Definition without_trailing_slash (project_url : string) : string :=
  match Py.last_char project_url with
  | Ok c => if Ascii.eqb c "/" then Py.drop_last project_url else project_url
  | Raise _ => project_url
  end.

(** The value of the last pair of [pairs] whose key is [k]. *)
Fixpoint last_value {V} (k : string) (pairs : list (string * V)) : option V :=
  match pairs with
  | [] => None
  | (k', v) :: pairs' =>
      match last_value k pairs' with
      | Some v' => Some v'
      | None => if String.eqb k k' then Some v else None
      end
  end.

(** The printable ASCII characters, and those of them that [json.dumps]
    writes as they are. *)
Definition printable (c : ascii) : bool :=
  ((32 <=? nat_of_ascii c) && (nat_of_ascii c <=? 126))%nat.
Definition plain (c : ascii) : bool :=
  printable c && negb (Ascii.eqb c Py.dquote) && negb (Ascii.eqb c "\").

Fixpoint all_chars (p : ascii -> bool) (s : string) : bool :=
  match s with
  | "" => true
  | String c s' => p c && all_chars p s'
  end.

(** A string with no white space at either end. *)
Definition trimmed (s : string) : Prop := Py.strip s = s.

(** The pairs that line 32 of [submission_parser.py] stores, in order: the
    [id], as a key, and the text of every section whose title
    [label_to_id] maps to a hashable [id]. *)
Fixpoint keyed (label_to_id : PyDict.t yaml) (sections : list (string * string))
  : list (key * string) :=
  match sections with
  | [] => []
  | (title, text) :: sections' =>
      match PyDict.get (KStr title) label_to_id with
      | Some id =>
          match Yaml.as_key id with
          | Ok k => (k, text) :: keyed label_to_id sections'
          | Raise _ => keyed label_to_id sections'
          end
      | None => keyed label_to_id sections'
      end
  end.

(** The badge file that [update_badges] writes for [project] of [tier],
    given what the request returns, and the log entry that goes with it;
    the (tier, record) pairs in the order [update_badges] visits them. *)
Definition badge_written (current_dir : string)
    (requests_get : string -> result Response)
    (files : gmap string string) (tp : string * Repository) : gmap string string :=
  match requests_get (badge_url (fst tp) (snd tp)) with
  | Ok response => <[badge_path current_dir (snd tp) := content response]> files
  | Raise _ => files
  end.

Definition badge_logged (tp : string * Repository) : log_entry :=
  LogInfo "Badge for %s has been updated." [LStr (name (snd tp))].

Definition visited {Store : Type} `{DAO Store}
    (Tier_all : list string) (store : Store) : list (string * Repository) :=
  flat_map (fun tier => map (pair tier) (get_repos_by_tier tier store)) Tier_all.

(** A [from_dict] that refuses a dictionary which still has the key
    [repo_name]. *)
Definition strict_from_dict (d : Dict.t json) : result TestResult :=
  match Dict.get "repo_name" d with
  | Some _ => Raise (Exception "UnexpectedField")
  | None => sample_from_dict d
  end.

(** The warning that [update_stars] logs for a record it skips. *)
Definition star_skipped (tp : string * Repository) : log_entry :=
  LogWarning "Bad response for project %s" [LStr (url (snd tp))].

(** A formatted issue made of the given sections, each put after a
    level-3 heading marker. *)
Definition issue_of_sections (sections : list string) : string :=
  fold_right (fun section rest => "### " +:+ section +:+ rest) "" sections.

(** A record for which the star refresh gets as far as the request and
    is answered with a non-success response. *)
Definition refused (requests_get : string -> result Response)
    (project : Repository) : Prop :=
  exists user_repo response,
    user_and_repo (url project) = Ok user_repo
    /\ requests_get (api_url user_repo) = Ok response
    /\ ok response = false.

(** Unfolds the binds and the lookups of the [result] monad. *)
Ltac unfold_result :=
  unfold mbind, result_bind, Yaml.subscript, Dict.subscript, PyDict.subscript in *.

(** * Properties *)

(** ** Strings and dictionaries *)

Lemma split_go_nonempty sep s : forall skip, Py.split_go sep skip s <> [].
Proof.
  induction s as [|c s IH]; intros skip; cbn [Py.split_go]; [discriminate|].
  destruct skip as [|k]; [|apply IH].
  destruct (String.prefix sep (String c s)); [discriminate|].
  destruct (Py.split_go sep 0 s); discriminate.
Qed.

Lemma split_nonempty sep s : Py.split sep s <> [].
Proof. apply split_go_nonempty. Qed.

Lemma prefix_char c c' s :
  String.prefix (String c "") (String c' s) = Ascii.eqb c c'.
Proof.
  simpl. destruct (ascii_dec c c') as [->|Hne].
  - rewrite Ascii.eqb_refl. now destruct s.
  - symmetry. now apply Ascii.eqb_neq.
Qed.

Lemma split_char_sep c s :
  Py.split (String c "") (String c s) = "" :: Py.split (String c "") s.
Proof.
  unfold Py.split. cbn [Py.split_go]. rewrite prefix_char, Ascii.eqb_refl.
  reflexivity.
Qed.

Lemma split_char_other c c' s :
  Ascii.eqb c' c = false ->
  Py.split (String c "") (String c' s) =
  match Py.split (String c "") s with
  | piece :: rest => String c' piece :: rest
  | [] => [String c' ""]
  end.
Proof.
  intros Hne. unfold Py.split. cbn [Py.split_go].
  rewrite prefix_char, Ascii.eqb_sym, Hne. reflexivity.
Qed.

Lemma split_char_app c p s :
  Py.free_of c p = true ->
  Py.split (String c "") (p +:+ String c s) = p :: Py.split (String c "") s.
Proof.
  induction p as [|c' p IH]; intros Hp; cbn [String.append]; simpl in Hp.
  - apply split_char_sep.
  - apply andb_prop in Hp as [Hc Hp]. apply negb_true_iff in Hc.
    change (String c' p +:+ String c s) with (String c' (p +:+ String c s)).
    rewrite (split_char_other _ _ _ Hc), (IH Hp). reflexivity.
Qed.

Lemma split_char_free c p :
  Py.free_of c p = true -> Py.split (String c "") p = [p].
Proof.
  induction p as [|c' p IH]; intros Hp; simpl in Hp; [reflexivity|].
  apply andb_prop in Hp as [Hc Hp]. apply negb_true_iff in Hc.
  rewrite (split_char_other _ _ _ Hc), (IH Hp). reflexivity.
Qed.

(** Splitting undoes joining when no piece contains the separator. *)
Lemma split_join c pieces :
  pieces <> [] ->
  forallb (Py.free_of c) pieces = true ->
  Py.split (String c "") (Py.join (String c "") pieces) = pieces.
Proof.
  induction pieces as [|p rest IH]; [congruence|].
  intros _ Hall. simpl in Hall. apply andb_prop in Hall as [Hp Hrest].
  destruct rest as [|q rest].
  - simpl. now apply split_char_free.
  - change (Py.join (String c "") (p :: q :: rest))
      with (p +:+ String c "" +:+ Py.join (String c "") (q :: rest)).
    change (String c "" +:+ Py.join (String c "") (q :: rest))
      with (String c (Py.join (String c "") (q :: rest))).
    rewrite split_char_app by assumption.
    rewrite IH; [reflexivity|discriminate|assumption].
Qed.

(** The string operations on the inputs the sources meet. *)
Example split_commas : Py.split "," "a, b ,c" = ["a"; " b "; "c"].
Proof. reflexivity. Qed.

Example split_empty : Py.split "," "" = [""].
Proof. reflexivity. Qed.

Example split_headings :
  Py.split "### " "intro### Name### ### Labels" = ["intro"; "Name"; ""; "Labels"].
Proof. reflexivity. Qed.

Example split_no_overlap : Py.split "aa" "aaa" = [""; "a"].
Proof. reflexivity. Qed.

Example strip_both_ends : Py.strip (Py.nl +:+ "  a b  " +:+ Py.nl) = "a b".
Proof. reflexivity. Qed.

Example url_segments :
  Py.slice 3 5 (Py.split "/" "https://github.com/x/a/tree/main") = ["x"; "a"].
Proof. reflexivity. Qed.

Example url_too_short : Py.slice 3 5 (Py.split "/" "github.com/x") = [].
Proof. reflexivity. Qed.

Example clean_section_example :
  _clean_section (lines ["Labels "; ""; " a, b "; "c"; ""]) = ("Labels", "a, b c").
Proof. reflexivity. Qed.

Example later_section_overwrites :
  Dict.of_pairs [("Name", "Foo"); ("Labels", "a"); ("Name", "Bar")]
  = [("Name", "Bar"); ("Labels", "a")].
Proof. reflexivity. Qed.

Example user_and_repo_trailing_slash :
  user_and_repo "https://github.com/y/c/" = Ok ("y", "c").
Proof. reflexivity. Qed.

Example user_and_repo_empty : user_and_repo "" = Raise IndexError.
Proof. reflexivity. Qed.

Example user_and_repo_one_chunk : user_and_repo "c" = Raise IndexError.
Proof. reflexivity. Qed.

Example dumps_escapes :
  Json.dumps_str (String "a" (String Py.dquote (String "\" (String "007" ""))))
  = String Py.dquote
      ("a\" +:+ String Py.dquote ("\\" +:+ "\u0007" +:+ String Py.dquote "")).
Proof. reflexivity. Qed.

(** ** Badge colour *)

(** The flag of lines 43-46 after a run over [results] that starts from
    [flag]: it is false exactly when it started false or a failing
    [standard] entry was met. *)
Lemma tests_passed_fold results : forall flag,
  fold_left
    (fun tests_passed type_test =>
       if String.eqb (test_type type_test) "standard" && negb (passed type_test)
       then false else tests_passed)
    results flag = false
  <-> flag = false \/
      exists t, In t results /\ test_type t = "standard" /\ passed t = false.
Proof.
  induction results as [|r results IH]; intros flag; simpl.
  - split; [auto|]. intros [Hf|(t & [] & _)]; assumption.
  - rewrite IH. clear IH.
    destruct (String.eqb_spec (test_type r) "standard") as [Hty|Hty];
      destruct (passed r) eqn:Hp; simpl.
    + split.
      * intros [Hf|(t & Hin & Ht)]; [now left|right; exists t; auto].
      * intros [Hf|(t & [<-|Hin] & Hs & Hpt)]; [now left|congruence|].
        right. exists t. auto.
    + split; [|now left]. intros _. right. exists r. auto.
    + split.
      * intros [Hf|(t & Hin & Ht)]; [now left|right; exists t; auto].
      * intros [Hf|(t & [<-|Hin] & Hs & Hpt)]; [now left|congruence|].
        right. exists t. auto.
    + split.
      * intros [Hf|(t & Hin & Ht)]; [now left|right; exists t; auto].
      * intros [Hf|(t & [<-|Hin] & Hs & Hpt)]; [now left|congruence|].
        right. exists t. auto.
Qed.

Lemma tests_passed_of_false results :
  tests_passed_of results = false
  <-> exists t, In t results /\ test_type t = "standard" /\ passed t = false.
Proof.
  unfold tests_passed_of. rewrite tests_passed_fold.
  split; [intros [Hf|Hex]; [discriminate|assumption]|now right].
Qed.

(** C2.  The badge colour of a record is ["gray"] exactly when its
    [tests_results] hold an entry of type ["standard"] that did not pass,
    and ["blueviolet"] exactly when they hold none; once such an entry has
    been met, no later entry turns the flag back.  The results
    [standard pass; standard fail] give gray, [standard pass] alone gives
    blueviolet, and a failing entry of another type alone gives
    blueviolet. *)
Theorem C2_badge_color :
  (forall project,
     (badge_color project = "gray"
      <-> exists t, In t (tests_results project) /\
                    test_type t = "standard" /\ passed t = false)
     /\
     (badge_color project = "blueviolet"
      <-> ~ exists t, In t (tests_results project) /\
                      test_type t = "standard" /\ passed t = false))
  /\ (forall before after,
        tests_passed_of before = false ->
        tests_passed_of (before ++ after) = false)
  /\ badge_color (sample_repo "p" "u" "Main" false [std_pass; std_fail]) = "gray"
  /\ badge_color (sample_repo "p" "u" "Main" false [std_fail; std_pass]) = "gray"
  /\ badge_color (sample_repo "p" "u" "Main" false [std_pass]) = "blueviolet"
  /\ badge_color (sample_repo "p" "u" "Main" false [other_fail]) = "blueviolet".
Proof.
  split; [|split; [|repeat split; reflexivity]].
  - intros project. unfold badge_color.
    pose proof (tests_passed_of_false (tests_results project)) as Hiff.
    destruct (tests_passed_of (tests_results project)); split; split.
    + discriminate.
    + intros Hex. apply Hiff in Hex. discriminate.
    + intros _ Hex. apply Hiff in Hex. discriminate.
    + reflexivity.
    + intros _. now apply Hiff.
    + reflexivity.
    + discriminate.
    + intros Hno. exfalso. apply Hno. now apply Hiff.
  - intros before after Hb. apply tests_passed_of_false.
    apply tests_passed_of_false in Hb as (t & Hin & Ht).
    exists t. split; [apply in_or_app; now left|assumption].
Qed.

(** ** Test-candidate selection *)

Section Selection.

Context {Store : Type} `{DAO Store}.

Lemma repo_names_fold records : forall repo_names,
  fold_left
    (fun repo_names repo =>
       if negb (skip_tests repo) then repo_names ++ [repo_name_of repo]
       else repo_names)
    records repo_names
  = repo_names ++
    map repo_name_of (List.filter (fun repo => negb (skip_tests repo)) records).
Proof.
  induction records as [|r records IH]; intros repo_names; simpl.
  - now rewrite app_nil_r.
  - rewrite IH. destruct (skip_tests r); simpl; [reflexivity|].
    now rewrite <- app_assoc.
Qed.

Lemma repos_for_testing_spec (store : Store) :
  repos_for_testing store =
  map repo_name_of
    (List.filter (fun repo => negb (skip_tests repo))
       (Dict.values (storage_read store))).
Proof. unfold repos_for_testing. now rewrite repo_names_fold. Qed.

(** The identifier of a record whose URL has at least five segments
    between slashes is the fourth and the fifth, joined by a slash. *)
Lemma repo_name_of_segments repo p0 p1 p2 owner nm more :
  url repo = Py.join "/" (p0 :: p1 :: p2 :: owner :: nm :: more) ->
  forallb (Py.free_of "/") (p0 :: p1 :: p2 :: owner :: nm :: more) = true ->
  repo_name_of repo = owner +:+ "/" +:+ nm.
Proof.
  intros Hurl Hfree. unfold repo_name_of. rewrite Hurl.
  rewrite (split_join "/"%char) by (assumption || discriminate).
  reflexivity.
Qed.

End Selection.

(** C6.  [list_repos_for_testing] returns the JSON text of the list that
    holds, for exactly the records whose [skip_tests] is false and in the
    order of the store, the identifier made of segments 4 and 5 of the
    record's URL: [owner/repo] for a URL [scheme://host/owner/repo].  For
    the records [A (skip false); B (skip true); C (skip false)] the list
    is that of [A] and [C]. *)
Theorem C6_list_repos_for_testing :
  (forall (Store : Type) (dao : DAO Store) (store : Store),
     list_repos_for_testing store =
     Json.dumps_list
       (map repo_name_of
          (List.filter (fun repo => negb (skip_tests repo))
             (Dict.values (storage_read store)))))
  /\ (forall repo scheme host owner nm,
        url repo = scheme +:+ "//" +:+ host +:+ "/" +:+ owner +:+ "/" +:+ nm ->
        forallb (Py.free_of "/") [scheme; host; owner; nm] = true ->
        repo_name_of repo = owner +:+ "/" +:+ nm)
  /\ repos_for_testing sample_store = [repo_name_of repo_A; repo_name_of repo_C]
  /\ repos_for_testing sample_store = ["x/a"; "y/c"]
  /\ list_repos_for_testing sample_store =
     Py.join (String Py.dquote "") ["["; "x/a"; ", "; "y/c"; "]"].
Proof.
  split; [|split; [|repeat split; reflexivity]].
  - intros Store dao store. unfold list_repos_for_testing.
    now rewrite repos_for_testing_spec.
  - intros repo scheme host owner nm Hurl Hfree.
    apply (repo_name_of_segments repo scheme "" host owner nm []).
    + exact Hurl.
    + simpl in *. exact Hfree.
Qed.

(** ** The state-and-exception monad *)

Lemma bind_lift_ok {S A B} (r : result A) (a : A) (k : A -> M S B) st :
  r = Ok a -> (lift r ≫= k) st = k a st.
Proof. intros ->. reflexivity. Qed.

Lemma bind_lift_raise {S A B} (r : result A) e (k : A -> M S B) st :
  r = Raise e -> (lift r ≫= k) st = (Raise e, st).
Proof. intros ->. reflexivity. Qed.

Lemma bind_ok {S A B} (m : M S A) (k : A -> M S B) st a st' :
  m st = (Ok a, st') -> (m ≫= k) st = k a st'.
Proof. intros Hm. unfold mbind, M_bind. now rewrite Hm. Qed.

Lemma bind_raise {S A B} (m : M S A) (k : A -> M S B) st e st' :
  m st = (Raise e, st') -> (m ≫= k) st = (Raise e, st').
Proof. intros Hm. unfold mbind, M_bind. now rewrite Hm. Qed.

Lemma for_each_cons {S A} (x : A) xs (body : A -> M S unit) st :
  for_each (x :: xs) body st =
  match body x st with
  | (Ok _, st') => for_each xs body st'
  | (Raise e, st') => (Raise e, st')
  end.
Proof. reflexivity. Qed.

(** A loop over [before ++ after] whose rounds over [before] all end
    normally goes on with [after], from the state they leave. *)
Lemma for_each_app {S A} (before after : list A) (body : A -> M S unit) :
  forall st st',
  for_each before body st = (Ok tt, st') ->
  for_each (before ++ after) body st = for_each after body st'.
Proof.
  induction before as [|x before IH]; intros st st' Hrun.
  - now inversion Hrun.
  - change ((x :: before) ++ after) with (x :: (before ++ after)).
    rewrite for_each_cons in Hrun. rewrite for_each_cons.
    destruct (body x st) as [[[]|e] st1]; [|discriminate].
    now apply IH.
Qed.

Lemma for_each_app_raise {S A} (before after : list A) (body : A -> M S unit) :
  forall st e st',
  for_each before body st = (Raise e, st') ->
  for_each (before ++ after) body st = (Raise e, st').
Proof.
  induction before as [|x before IH]; intros st e st' Hrun.
  - discriminate.
  - change ((x :: before) ++ after) with (x :: (before ++ after)).
    rewrite for_each_cons in Hrun. rewrite for_each_cons.
    destruct (body x st) as [[[]|e1] st1]; [now apply IH|assumption].
Qed.

(** The round in which the body raises ends the loop with that
    exception. *)
Lemma for_each_raise {S A} (x : A) xs (body : A -> M S unit) st e st' :
  body x st = (Raise e, st') -> for_each (x :: xs) body st = (Raise e, st').
Proof. intros Hb. rewrite for_each_cons. now rewrite Hb. Qed.

(** ** Star refresh *)

Section Stars.

Context {Store : Type} `{DAO Store}.
Variable requests_get : string -> result Response.
Variable json_loads : string -> result json.

Local Abbreviation update_star' := (update_star requests_get json_loads).

Lemma update_star_bad_response project (st : state Store) user_repo response :
  user_and_repo (url project) = Ok user_repo ->
  requests_get (api_url user_repo) = Ok response ->
  ok response = false ->
  update_star' project st =
  (Ok tt,
   mkState (st_store st) (st_files st)
     (st_log st ++ [LogWarning "Bad response for project %s" [LStr (url project)]])).
Proof.
  intros Hur Hget Hok. unfold update_star.
  rewrite (bind_lift_ok _ _ _ _ Hur), (bind_lift_ok _ _ _ _ Hget), Hok.
  reflexivity.
Qed.

Lemma update_star_good_response project (st : state Store) user_repo response
    json_data stars :
  user_and_repo (url project) = Ok user_repo ->
  requests_get (api_url user_repo) = Ok response ->
  ok response = true ->
  json_loads (text response) = Ok json_data ->
  Json.get json_data "stargazers_count" = Ok stars ->
  update_star' project st =
  match dao_update_stars (url project) stars (st_store st) with
  | Ok store' =>
      (Ok tt,
       mkState store' (st_files st)
         (st_log st ++
          [LogInfo "Updating star count for %s: %d" [LStr (url project); LJson stars]]))
  | Raise e => (Raise e, st)
  end.
Proof.
  intros Hur Hget Hok Hjson Hstars. unfold update_star.
  rewrite (bind_lift_ok _ _ _ _ Hur), (bind_lift_ok _ _ _ _ Hget), Hok.
  cbn [negb].
  rewrite (bind_lift_ok _ _ _ _ Hjson), (bind_lift_ok _ _ _ _ Hstars).
  unfold mbind, M_bind, on_store.
  destruct (dao_update_stars (url project) stars (st_store st)); reflexivity.
Qed.

End Stars.

(** C5.  In [update_stars], a record for which the query of the
    repository API returns a non-success response raises nothing: the
    round ends normally, it leaves the store as it was (no update is
    issued, whatever the store's operations are) and only adds a warning
    to the log, and the loop goes on with the next record. *)
Theorem C5_update_stars_skips_bad_response
    {Store : Type} {dao : DAO Store}
    (requests_get : string -> result Response)
    (json_loads : string -> result json)
    (project : Repository) (rest : list Repository) (st : state Store)
    (user_repo : string * string) (response : Response) :
  user_and_repo (url project) = Ok user_repo ->
  requests_get (api_url user_repo) = Ok response ->
  ok response = false ->
  let st' :=
    mkState (st_store st) (st_files st)
      (st_log st ++ [LogWarning "Bad response for project %s" [LStr (url project)]]) in
  update_star requests_get json_loads project st = (Ok tt, st')
  /\ st_store st' = st_store st
  /\ for_each (project :: rest) (update_star requests_get json_loads) st
     = for_each rest (update_star requests_get json_loads) st'.
Proof.
  intros Hur Hget Hok st'.
  pose proof (update_star_bad_response requests_get json_loads
                project st user_repo response Hur Hget Hok) as Hstep.
  split; [exact Hstep|split; [reflexivity|]].
  rewrite for_each_cons, Hstep. reflexivity.
Qed.

Lemma C5_update_stars_skips_bad_response_witness :
  update_star api_not_found sample_json_loads repo_A sample_state
  = (Ok tt,
     mkState sample_store ∅
       [LogWarning "Bad response for project %s" [LStr "https://github.com/x/a"]])
  /\ update_stars sample_tiers api_not_found sample_json_loads sample_state
     = (Ok tt,
        mkState sample_store ∅
          [LogWarning "Bad response for project %s" [LStr "https://github.com/x/a"];
           LogWarning "Bad response for project %s" [LStr "https://github.com/x/b"];
           LogWarning "Bad response for project %s" [LStr "https://github.com/y/c/"]]).
Proof.
  split.
  - apply (C5_update_stars_skips_bad_response api_not_found sample_json_loads
             repo_A [repo_B] sample_state ("x", "a")
             (mkResponse false "Not Found" "Not Found"));
      reflexivity.
  - vm_compute. reflexivity.
Defined.

(** C10.  In [update_stars], when the response is a success and its JSON
    body is an object without [stargazers_count], the record is not
    skipped: the store's field update is called with [None] for [stars]
    (and the round ends as that call ends).  On the record store of the
    specification the record is known, so the call succeeds and the
    record's [stars] is [None] afterwards, whatever it was before. *)
Theorem C10_update_stars_missing_count
    (requests_get : string -> result Response)
    (json_loads : string -> result json)
    (project : Repository)
    (user_repo : string * string) (response : Response)
    (entries : list (string * json)) :
  user_and_repo (url project) = Ok user_repo ->
  requests_get (api_url user_repo) = Ok response ->
  ok response = true ->
  json_loads (text response) = Ok (JObj entries) ->
  Dict.get "stargazers_count" entries = None ->
  (forall (Store : Type) (dao : DAO Store) (st : state Store),
     update_star requests_get json_loads project st =
     match dao_update_stars (url project) JNull (st_store st) with
     | Ok store' =>
         (Ok tt,
          mkState store' (st_files st)
            (st_log st ++
             [LogInfo "Updating star count for %s: %d"
                [LStr (url project); LJson JNull]]))
     | Raise e => (Raise e, st)
     end)
  /\ (forall (st : state (Dict.t Repository)) (before : Repository),
        Dict.get (url project) (st_store st) = Some before ->
        exists st',
          update_star requests_get json_loads project st = (Ok tt, st')
          /\ Dict.get (url project) (st_store st') = Some (set_stars JNull before)).
Proof.
  intros Hur Hget Hok Hjson Hmissing.
  assert (Hstars : Json.get (JObj entries) "stargazers_count" = Ok JNull).
  { unfold Json.get. now rewrite Hmissing. }
  split.
  - intros Store dao st.
    apply (update_star_good_response requests_get json_loads project st
             user_repo response (JObj entries) JNull); assumption.
  - intros st before Hbefore.
    rewrite (update_star_good_response requests_get json_loads project st
               user_repo response (JObj entries) JNull) by assumption.
    cbn [dao_update_stars list_dao]. rewrite Hbefore.
    eexists. split; [reflexivity|]. cbn [st_store].
    clear -Hbefore. induction (st_store st) as [|[k v] d IH]; [discriminate|].
    simpl in *. destruct (String.eqb (url project) k) eqn:Hk.
    + inversion Hbefore; subst. simpl. now rewrite Hk.
    + simpl. rewrite Hk. now apply IH.
Qed.

Lemma C10_update_stars_missing_count_witness :
  stars repo_A = JNum 7
  /\ exists st',
       update_star api_no_count sample_json_loads repo_A sample_state = (Ok tt, st')
       /\ Dict.get (url repo_A) (st_store st') = Some (set_stars JNull repo_A).
Proof.
  split; [reflexivity|].
  apply (proj2 (C10_update_stars_missing_count api_no_count sample_json_loads
                  repo_A ("x", "a") (mkResponse true "{}" "{}") []
                  eq_refl eq_refl eq_refl eq_refl eq_refl)
           sample_state repo_A).
  reflexivity.
Defined.

(** ** Badges *)

Section Badges.

Context {Store : Type} `{DAO Store}.
Variable Tier_all : list string.
Variable current_dir : string.
Variable open_wb : string -> result unit.
Variable requests_get : string -> result Response.

Local Abbreviation update_badge' := (update_badge current_dir open_wb requests_get).

Lemma update_badge_response tier project (st : state Store) response u :
  requests_get (badge_url tier project) = Ok response ->
  open_wb (badge_path current_dir project) = Ok u ->
  update_badge' tier project st =
  (Ok tt,
   mkState (st_store st)
     (<[badge_path current_dir project := content response]> (st_files st))
     (st_log st ++ [LogInfo "Badge for %s has been updated." [LStr (name project)]])).
Proof.
  intros Hget Hopen. unfold update_badge.
  rewrite (bind_lift_ok _ _ _ _ Hget).
  unfold mbind, M_bind, write_file. now rewrite Hopen.
Qed.

Lemma update_badge_exception tier project (st : state Store) e :
  requests_get (badge_url tier project) = Raise e ->
  update_badge' tier project st = (Raise e, st).
Proof.
  intros Hget. unfold update_badge.
  now rewrite (bind_lift_raise _ _ _ _ Hget).
Qed.

Lemma update_badge_not_opened tier project (st : state Store) response e :
  requests_get (badge_url tier project) = Ok response ->
  open_wb (badge_path current_dir project) = Raise e ->
  update_badge' tier project st = (Raise e, st).
Proof.
  intros Hget Hopen. unfold update_badge.
  rewrite (bind_lift_ok _ _ _ _ Hget).
  unfold mbind, M_bind, write_file. now rewrite Hopen.
Qed.

Lemma update_badge_store tier project (st : state Store) :
  st_store (snd (update_badge' tier project st)) = st_store st.
Proof.
  destruct (requests_get (badge_url tier project)) as [response|e] eqn:Hget.
  - destruct (open_wb (badge_path current_dir project)) as [u|e] eqn:Hopen.
    + now rewrite (update_badge_response _ _ _ _ _ Hget Hopen).
    + now rewrite (update_badge_not_opened _ _ _ _ _ Hget Hopen).
  - now rewrite (update_badge_exception _ _ _ _ Hget).
Qed.

Lemma badge_loop_store tier projects : forall st : state Store,
  st_store (snd (for_each projects (update_badge' tier) st)) = st_store st.
Proof.
  induction projects as [|p projects IH]; intros st; [reflexivity|].
  rewrite for_each_cons.
  pose proof (update_badge_store tier p st) as Hp.
  destruct (update_badge' tier p st) as [[[]|e] st1]; simpl in Hp.
  - now rewrite IH.
  - exact Hp.
Qed.

(** A loop that holds a record whose round raises, whatever the state,
    ends with an exception. *)
Lemma badge_loop_raises tier project projects :
  In project projects ->
  (forall st : state Store, exists e, update_badge' tier project st = (Raise e, st)) ->
  forall st : state Store,
  exists e' st', for_each projects (update_badge' tier) st = (Raise e', st').
Proof.
  intros Hin Hround.
  induction projects as [|p projects IH]; intros st; [destruct Hin|].
  rewrite for_each_cons.
  destruct (update_badge' tier p st) as [[[]|e1] st1] eqn:Hp.
  - destruct Hin as [->|Hin].
    + destruct (Hround st) as [e He]. rewrite He in Hp. discriminate.
    + now apply IH.
  - eauto.
Qed.

Lemma update_badges_raises tier project :
  In tier Tier_all ->
  (forall st : state Store, exists e, update_badge' tier project st = (Raise e, st)) ->
  forall st : state Store,
  In project (get_repos_by_tier tier (st_store st)) ->
  exists e' st',
    update_badges Tier_all current_dir open_wb requests_get st = (Raise e', st').
Proof.
  intros Htier Hround. unfold update_badges.
  induction Tier_all as [|t tiers IH]; intros st Hproj; [destruct Htier|].
  rewrite for_each_cons.
  unfold mbind at 1, M_bind at 1, read_store at 1. cbn beta iota.
  pose proof (badge_loop_store t (get_repos_by_tier t (st_store st)) st) as Hstore.
  destruct (for_each (get_repos_by_tier t (st_store st)) (update_badge' t) st)
    as [[[]|e1] st1] eqn:Hloop; simpl in Hstore.
  - destruct Htier as [->|Htier].
    + destruct (badge_loop_raises _ _ _ Hproj Hround st) as (e' & st' & Hr).
      rewrite Hr in Hloop. discriminate.
    + apply IH; [assumption|]. now rewrite Hstore.
  - eauto.
Qed.

End Badges.

(** C4, as the code has it.  [update_badges] does not look at the outcome
    of the badge fetch and skips no record.  When the fetch returns a
    response, successful or not, and the record's badge file can be opened
    for writing, the content of the response is written to that file and
    the update is logged.  When the fetch raises, or when it returns a
    response and the badge file cannot be opened, the round raises with
    nothing written or logged, and [update_badges] as a whole ends with an
    exception. *)
Theorem C4_update_badges_fetch
    {Store : Type} {dao : DAO Store}
    (Tier_all : list string) (current_dir : string)
    (open_wb : string -> result unit)
    (requests_get : string -> result Response)
    (tier : string) (project : Repository) (st : state Store) :
  In tier Tier_all ->
  In project (get_repos_by_tier tier (st_store st)) ->
  match requests_get (badge_url tier project),
        open_wb (badge_path current_dir project) with
  | Ok response, Ok _ =>
      forall st1 : state Store,
      update_badge current_dir open_wb requests_get tier project st1 =
      (Ok tt,
       mkState (st_store st1)
         (<[badge_path current_dir project := content response]> (st_files st1))
         (st_log st1 ++
          [LogInfo "Badge for %s has been updated." [LStr (name project)]]))
  | Ok _, Raise e | Raise e, _ =>
      (forall st1 : state Store,
         update_badge current_dir open_wb requests_get tier project st1
         = (Raise e, st1))
      /\ exists e' st',
           update_badges Tier_all current_dir open_wb requests_get st
           = (Raise e', st')
  end.
Proof.
  intros Htier Hproj.
  destruct (requests_get (badge_url tier project)) as [response|e] eqn:Hget.
  - destruct (open_wb (badge_path current_dir project)) as [u|e] eqn:Hopen.
    + intros st1. now apply update_badge_response with u.
    + assert (Hround : forall st1 : state Store,
        update_badge current_dir open_wb requests_get tier project st1
        = (Raise e, st1))
        by (intros st1; now apply update_badge_not_opened with response).
      split; [exact Hround|].
      apply (update_badges_raises Tier_all current_dir open_wb requests_get
               tier project); eauto.
  - assert (Hround : forall st1 : state Store,
      update_badge current_dir open_wb requests_get tier project st1
      = (Raise e, st1))
      by (intros st1; now apply update_badge_exception).
    destruct (open_wb (badge_path current_dir project));
      (split; [exact Hround|];
       apply (update_badges_raises Tier_all current_dir open_wb requests_get
                tier project); eauto).
Qed.

Lemma C4_update_badges_fetch_witness :
  (forall st1 : state (Dict.t Repository),
     update_badge "/repo" writable shields_error "Main" repo_A st1 =
     (Ok tt,
      mkState (st_store st1)
        (<["/repo/badges/a.svg" := "Bad Gateway"]> (st_files st1))
        (st_log st1 ++ [LogInfo "Badge for %s has been updated." [LStr "a"]])))
  /\ (exists e' st',
        update_badges sample_tiers "/repo" writable shields_unreachable sample_state
        = (Raise e', st'))
  /\ (exists e' st',
        update_badges sample_tiers "/repo" no_folder shields_error sample_state
        = (Raise e', st')).
Proof.
  split; [|split].
  - apply (C4_update_badges_fetch sample_tiers "/repo" writable shields_error
             "Main" repo_A sample_state); simpl; auto.
  - apply (C4_update_badges_fetch sample_tiers "/repo" writable shields_unreachable
             "Main" repo_A sample_state); simpl; auto.
  - apply (C4_update_badges_fetch sample_tiers "/repo" no_folder shields_error
             "Main" repo_A sample_state); simpl; auto.
Defined.

(** C4 as the specification has it fails.  With a badge service that
    answers every request with a non-success response, and badge files
    that can be written, the run over the sample store ends normally and
    has written that response to the badge file of every record, each with
    its log entry: no record is skipped.  With a badge service that cannot
    be reached, the run ends with the client's exception at the first
    record: the failure is fatal to the batch, and nothing is logged. *)
Lemma C4_update_badges_counterexample :
  ok (mkResponse false "Bad Gateway" "Bad Gateway") = false
  /\ fst (update_badges sample_tiers "/repo" writable shields_error sample_state)
     = Ok tt
  /\ st_files
       (snd (update_badges sample_tiers "/repo" writable shields_error sample_state))
       !! "/repo/badges/a.svg" = Some "Bad Gateway"
  /\ st_log
       (snd (update_badges sample_tiers "/repo" writable shields_error sample_state))
     = [LogInfo "Badge for %s has been updated." [LStr "a"];
        LogInfo "Badge for %s has been updated." [LStr "b"];
        LogInfo "Badge for %s has been updated." [LStr "c"]]
  /\ update_badges sample_tiers "/repo" writable shields_unreachable sample_state
     = (Raise (Exception "ConnectionError"), sample_state).
Proof.
  repeat split; vm_compute; reflexivity.
Qed.

(** ** Test-result ingestion *)

Section Artifacts.

Context {Store : Type} `{DAO Store}.
Variable fs : gmap string file.
Variable json_loads : string -> result json.
Variable rglob_json : string -> list string.
Variable py_str : json -> string.
Variable TestResult_from_dict : Dict.t json -> result TestResult.

Local Abbreviation add_one :=
  (add_result_from_artifact fs json_loads py_str TestResult_from_dict).

Lemma add_result_malformed artifact doc (st : state Store) :
  fs !! artifact = Some (Text doc) ->
  json_loads doc = Raise JSONDecodeError ->
  add_one artifact st = (Raise JSONDecodeError, st).
Proof.
  intros Hfile Hdoc. unfold add_result_from_artifact.
  assert (Hread : read_text fs artifact = Ok doc).
  { unfold read_text. now rewrite Hfile. }
  rewrite (bind_lift_ok _ _ _ _ Hread).
  now rewrite (bind_lift_raise _ _ _ _ Hdoc).
Qed.

End Artifacts.

(** C7.  A malformed artifact file is never skipped: when one is among
    the files found, [add_results_from_artifacts] ends with an exception,
    so the whole batch fails.  When the files found before it are ingested
    without error, the exception is the decode error and the files after
    it are not read: the run stops in the state that the files before it
    left. *)
Theorem C7_malformed_artifact_fails_batch
    {Store : Type} {dao : DAO Store}
    (fs : gmap string file)
    (json_loads : string -> result json)
    (rglob_json : string -> list string)
    (py_str : json -> string)
    (TestResult_from_dict : Dict.t json -> result TestResult)
    (path : string) (before : list string) (bad : string) (after : list string)
    (doc : string) (st : state Store) :
  rglob_json path = before ++ bad :: after ->
  fs !! bad = Some (Text doc) ->
  json_loads doc = Raise JSONDecodeError ->
  (exists e st',
     add_results_from_artifacts fs json_loads rglob_json py_str
       TestResult_from_dict path st = (Raise e, st'))
  /\ (forall st1,
        for_each before
          (add_result_from_artifact fs json_loads py_str TestResult_from_dict) st
        = (Ok tt, st1) ->
        add_results_from_artifacts fs json_loads rglob_json py_str
          TestResult_from_dict path st = (Raise JSONDecodeError, st1)).
Proof.
  intros Hwalk Hfile Hdoc. unfold add_results_from_artifacts. rewrite Hwalk.
  assert (Hstop : forall st1,
    for_each before
      (add_result_from_artifact fs json_loads py_str TestResult_from_dict) st
    = (Ok tt, st1) ->
    for_each (before ++ bad :: after)
      (add_result_from_artifact fs json_loads py_str TestResult_from_dict) st
    = (Raise JSONDecodeError, st1)).
  { intros st1 Hbefore. rewrite (for_each_app _ _ _ _ _ Hbefore).
    apply for_each_raise. now apply (add_result_malformed fs json_loads) with doc. }
  split; [|exact Hstop].
  destruct (for_each before
              (add_result_from_artifact fs json_loads py_str TestResult_from_dict) st)
    as [[[]|e] st1] eqn:Hbefore.
  - exists JSONDecodeError, st1. now apply Hstop.
  - exists e, st1. now apply for_each_app_raise.
Qed.

Lemma C7_malformed_artifact_fails_batch_witness :
  add_results_from_artifacts artifact_files sample_json_loads artifact_walk
    sample_py_str sample_from_dict "artifacts" sample_state
  = (Raise JSONDecodeError,
     mkState
       [(url repo_A, append_test_result std_fail repo_A);
        (url repo_B, repo_B); (url repo_C, repo_C)] ∅ []).
Proof.
  apply (proj2 (C7_malformed_artifact_fails_batch artifact_files sample_json_loads
                  artifact_walk sample_py_str sample_from_dict "artifacts"
                  ["artifacts/a/result.json"] "artifacts/b/result.json" []
                  "not json" sample_state eq_refl eq_refl eq_refl)).
  vm_compute. reflexivity.
Defined.

(** ** [CliCI.add_member_from_issue] *)

(** C9.  For every body, [CliCI.add_member_from_issue] raises before it
    reaches the store, and the store (with the rest of the state) is as it
    was.  The method is static and reads [self], which no scope binds: the
    call raises [NameError].  Were [self] bound at module level, the call
    of [parse_submission_issue] with two arguments would raise instead:
    whatever the module level binds, the method raises and writes
    nothing. *)
Theorem C9_add_member_from_issue_raises
    {Store : Type} {dao : DAO Store}
    (Tier_all : list string) (Tier_COMMUNITY : string)
    (mdformat_text : string -> string)
    (yaml_load : string -> result yaml)
    (fs : gmap string file)
    (body : string) (st : state Store) :
  add_member_from_issue Tier_all Tier_COMMUNITY mdformat_text yaml_load fs body st
  = (Raise (NameError "self"), st)
  /\ forall globals, exists e,
       add_member_from_issue_in Tier_all Tier_COMMUNITY mdformat_text yaml_load
         fs globals body st
       = (Raise e, st).
Proof.
  split; [reflexivity|].
  intros globals. unfold add_member_from_issue_in, load_name, scope_of.
  cbn [Dict.get]. change (String.eqb "parse_submission_issue" "body") with false.
  change (String.eqb "body" "body") with true.
  change (String.eqb "self" "body") with false. cbn iota.
  destruct (Dict.get "parse_submission_issue" globals) as [f|];
    [|eexists; reflexivity].
  destruct (Dict.get "self" globals) as [b|]; [|eexists; reflexivity].
  destruct b as [s| |self]; try (eexists; reflexivity).
  destruct f; eexists; reflexivity.
Qed.

(** ** Dictionaries *)

Lemma dict_get_set_eq {V} (k : string) (v : V) d :
  Dict.get k (Dict.set k v d) = Some v.
Proof.
  induction d as [|[k' v'] d IH]; simpl.
  - now rewrite String.eqb_refl.
  - destruct (String.eqb k k') eqn:Hk; simpl; now rewrite Hk.
Qed.

Lemma dict_get_set_ne {V} (k k' : string) (v : V) d :
  String.eqb k k' = false ->
  Dict.get k (Dict.set k' v d) = Dict.get k d.
Proof.
  intros Hne. induction d as [|[k1 v1] d IH]; simpl.
  - now rewrite Hne.
  - destruct (String.eqb k' k1) eqn:Hk1; simpl.
    + apply String.eqb_eq in Hk1 as ->. now rewrite Hne.
    + now rewrite IH.
Qed.

(** ** Dictionaries with keys read from a document *)

Lemma key_eqb_eq a b : PyDict.key_eqb a b = true <-> a = b.
Proof.
  destruct a as [|n|s], b as [|m|s']; simpl;
    try (split; [discriminate|congruence]); try tauto.
  - rewrite Z.eqb_eq. split; congruence.
  - rewrite String.eqb_eq. split; congruence.
Qed.

Lemma key_eqb_refl a : PyDict.key_eqb a a = true.
Proof. now apply key_eqb_eq. Qed.

Lemma pydict_get_set_eq {V} (k : key) (v : V) d :
  PyDict.get k (PyDict.set k v d) = Some v.
Proof.
  induction d as [|[k' v'] d IH]; simpl.
  - now rewrite key_eqb_refl.
  - destruct (PyDict.key_eqb k k') eqn:Hk; simpl; now rewrite Hk.
Qed.

Lemma pydict_get_set_ne {V} (k k' : key) (v : V) d :
  PyDict.key_eqb k k' = false ->
  PyDict.get k (PyDict.set k' v d) = PyDict.get k d.
Proof.
  intros Hne. induction d as [|[k1 v1] d IH]; simpl.
  - now rewrite Hne.
  - destruct (PyDict.key_eqb k' k1) eqn:Hk1; simpl.
    + apply key_eqb_eq in Hk1 as ->. now rewrite Hne.
    + now rewrite IH.
Qed.

(** ** Template field resolution *)

(** A round of the comprehension that ends normally stores the form's
    descriptor, if the form has one, and nothing otherwise. *)
Lemma add_form_ok d form d' :
  add_form d form = Ok d' ->
  d' = match descriptor_of form with
       | Some (label, id) => PyDict.set label id d
       | None => d
       end.
Proof.
  unfold add_form, descriptor_of. unfold_result.
  destruct form as [| | | |items|entries]; try discriminate.
  destruct (Dict.get "type" entries) as [ty|]; [|discriminate].
  destruct (Yaml.is_markdown ty).
  { destruct (Dict.get "attributes" entries) as [[]|];
      destruct (Dict.get "id" entries); congruence. }
  destruct (Dict.get "attributes" entries) as [[| | | |items|attributes]|];
    try discriminate.
  destruct (Dict.get "label" attributes) as [label|]; [|discriminate].
  destruct (Dict.get "id" entries) as [id|]; [|discriminate].
  destruct (Yaml.as_key label); congruence.
Qed.

Lemma add_form_raise d form e :
  add_form d form = Raise e -> e = TypeError \/ exists k, e = KeyError k.
Proof.
  unfold add_form. unfold_result.
  destruct form as [| | | |items|entries]; try (intros [= <-]; now left).
  destruct (Dict.get "type" entries) as [ty|]; [|intros [= <-]; eauto].
  destruct (Yaml.is_markdown ty); [discriminate|].
  destruct (Dict.get "attributes" entries) as [[| | | |items|attributes]|];
    try (intros [= <-]; eauto; fail).
  destruct (Dict.get "label" attributes) as [label|]; [|intros [= <-]; eauto].
  destruct (Dict.get "id" entries) as [id|]; [|intros [= <-]; eauto].
  destruct label; simpl; try discriminate; intros [= <-]; now left.
Qed.

(** A field descriptor that lacks a key raises [KeyError] for it. *)
Lemma add_form_missing d entries ty k :
  Dict.get "type" entries = Some ty ->
  Yaml.is_markdown ty = false ->
  missing_key entries = Some k ->
  add_form d (YMap entries) = Raise (KeyError k).
Proof.
  intros Hty Hmd. unfold add_form, missing_key. unfold_result.
  rewrite Hty, Hmd.
  destruct (Dict.get "attributes" entries) as [[| | | |items|attributes]|];
    try discriminate; [|congruence].
  destruct (Dict.get "label" attributes) as [label|]; [|congruence].
  destruct (Dict.get "id" entries) as [id|]; [discriminate|congruence].
Qed.

(** A resolvable form raises nothing, whatever the mapping built so far
    holds: no label is refused for being there already. *)
Lemma add_form_resolvable d form :
  resolvable form = true -> exists d', add_form d form = Ok d'.
Proof.
  unfold resolvable, descriptor_of, add_form. unfold_result.
  destruct form as [| | | |items|entries]; try discriminate.
  destruct (Dict.get "type" entries) as [ty|]; [|discriminate].
  destruct (Yaml.is_markdown ty); [eauto|]. cbn [orb].
  destruct (Dict.get "attributes" entries) as [[| | | |items|attributes]|];
    try discriminate.
  destruct (Dict.get "id" entries) as [id|]; [|discriminate].
  destruct (Dict.get "label" attributes) as [label|]; [|discriminate].
  destruct (Yaml.as_key label); [eauto|discriminate].
Qed.

Lemma add_forms_resolvable forms : forall d,
  forallb resolvable forms = true -> exists d', add_forms d forms = Ok d'.
Proof.
  induction forms as [|form forms IH]; intros d Hall; simpl; [eauto|].
  simpl in Hall. apply andb_prop in Hall as [Hform Hforms].
  destruct (add_form_resolvable d form Hform) as [d1 ->]. now apply IH.
Qed.

Lemma add_forms_raise forms : forall d e,
  add_forms d forms = Raise e -> e = TypeError \/ exists k, e = KeyError k.
Proof.
  induction forms as [|form forms IH]; intros d e; simpl; [discriminate|].
  destruct (add_form d form) as [d1|e1] eqn:Hform.
  - apply IH.
  - intros [= <-]. now apply add_form_raise in Hform.
Qed.

Lemma add_forms_app before after : forall d d1,
  add_forms d before = Ok d1 ->
  add_forms d (before ++ after) = add_forms d1 after.
Proof.
  induction before as [|form before IH]; intros d d1; simpl.
  - now intros [= ->].
  - destruct (add_form d form) as [d2|e]; [apply IH|discriminate].
Qed.

(** The later descriptor wins: after the comprehension, a label is mapped
    to the [id] of the last descriptor that carries it. *)
Lemma add_forms_last forms : forall d d',
  add_forms d forms = Ok d' ->
  forall label,
  PyDict.get label d' =
  match last_id label forms with
  | Some id => Some id
  | None => PyDict.get label d
  end.
Proof.
  induction forms as [|form forms IH]; intros d d'; simpl.
  - now intros [= ->].
  - destruct (add_form d form) as [d1|e] eqn:Hform; [|discriminate].
    intros Hrest label. rewrite (IH _ _ Hrest label).
    destruct (last_id label forms); [reflexivity|].
    apply add_form_ok in Hform. subst d1.
    destruct (descriptor_of form) as [[label' id]|]; [|reflexivity].
    destruct (PyDict.key_eqb label label') eqn:Hl.
    + apply key_eqb_eq in Hl as ->. apply pydict_get_set_eq.
    + now apply pydict_get_set_ne.
Qed.

Lemma last_id_app label before after :
  last_id label (before ++ after) =
  match last_id label after with
  | Some id => Some id
  | None => last_id label before
  end.
Proof.
  induction before as [|form before IH]; simpl.
  - now destruct (last_id label after).
  - rewrite IH. now destruct (last_id label after), (last_id label before).
Qed.

Lemma label_to_id_of_raise issue_template e :
  label_to_id_of issue_template = Raise e ->
  e = TypeError \/ exists k, e = KeyError k.
Proof.
  unfold label_to_id_of. unfold_result.
  destruct issue_template as [| | | |items|entries];
    try (intros [= <-]; now left).
  destruct (Dict.get "body" entries) as [body|]; [|intros [= <-]; eauto].
  destruct (Yaml.iterate body) as [forms|e1] eqn:Hforms.
  - apply add_forms_raise.
  - intros [= Heq]. subst. left. destruct body; simpl in Hforms; congruence.
Qed.

(** C3, as the code has it.  Resolving the fields of an issue template
    never fails with [TemplateFormatError]: the only exceptions are
    [KeyError] and [TypeError], for every template.  A template without
    [body] raises [KeyError].  A field descriptor (a form that is not a
    markdown block) that lacks [attributes], [label] or [id], met after
    forms that raise nothing, raises [KeyError] for the key it lacks.
    Two descriptors with the same label are no error: a template whose
    forms are all markdown blocks and complete descriptors is resolved,
    whatever labels the descriptors share, and each label is mapped to the
    [id] of the last descriptor that carries it; so of two descriptors
    with one label, the later gives the [id]. *)
Theorem C3_template_resolution (issue_template : yaml) :
  (forall e,
     label_to_id_of issue_template = Raise e ->
     e <> TemplateFormatError /\ (e = TypeError \/ exists k, e = KeyError k))
  /\ (forall entries,
        issue_template = YMap entries ->
        Dict.get "body" entries = None ->
        label_to_id_of issue_template = Raise (KeyError "body"))
  /\ (forall body forms before entries after ty k,
        Yaml.subscript issue_template "body" = Ok body ->
        Yaml.iterate body = Ok forms ->
        forms = before ++ YMap entries :: after ->
        is_ok (add_forms [] before) = true ->
        Dict.get "type" entries = Some ty ->
        Yaml.is_markdown ty = false ->
        missing_key entries = Some k ->
        label_to_id_of issue_template = Raise (KeyError k))
  /\ (forall body forms,
        Yaml.subscript issue_template "body" = Ok body ->
        Yaml.iterate body = Ok forms ->
        forallb resolvable forms = true ->
        exists d,
          label_to_id_of issue_template = Ok d
          /\ forall label, PyDict.get label d = last_id label forms)
  /\ (forall body before first middle second after label id1 id2,
        Yaml.subscript issue_template "body" = Ok body ->
        Yaml.iterate body = Ok (before ++ first :: middle ++ second :: after) ->
        forallb resolvable (before ++ first :: middle ++ second :: after) = true ->
        descriptor_of first = Some (label, id1) ->
        descriptor_of second = Some (label, id2) ->
        last_id label after = None ->
        exists d,
          label_to_id_of issue_template = Ok d
          /\ PyDict.get label d = Some id2)
  /\ (forall body forms d,
        Yaml.subscript issue_template "body" = Ok body ->
        Yaml.iterate body = Ok forms ->
        label_to_id_of issue_template = Ok d ->
        forall label, PyDict.get label d = last_id label forms).
Proof.
  assert (Hrun : forall body forms,
    Yaml.subscript issue_template "body" = Ok body ->
    Yaml.iterate body = Ok forms ->
    label_to_id_of issue_template = add_forms [] forms).
  { intros body forms Hbody Hforms. unfold label_to_id_of.
    rewrite Hbody. unfold mbind, result_bind. now rewrite Hforms. }
  assert (Hlast : forall body forms d,
    Yaml.subscript issue_template "body" = Ok body ->
    Yaml.iterate body = Ok forms ->
    label_to_id_of issue_template = Ok d ->
    forall label, PyDict.get label d = last_id label forms).
  { intros body forms d Hbody Hforms Hd label.
    rewrite (Hrun _ _ Hbody Hforms) in Hd.
    rewrite (add_forms_last _ _ _ Hd label). now destruct (last_id label forms). }
  assert (Hok : forall body forms,
    Yaml.subscript issue_template "body" = Ok body ->
    Yaml.iterate body = Ok forms ->
    forallb resolvable forms = true ->
    exists d,
      label_to_id_of issue_template = Ok d
      /\ forall label, PyDict.get label d = last_id label forms).
  { intros body forms Hbody Hforms Hall.
    destruct (add_forms_resolvable forms [] Hall) as [d Hd].
    exists d. rewrite (Hrun _ _ Hbody Hforms). split; [exact Hd|].
    apply (Hlast body forms d Hbody Hforms). now rewrite (Hrun _ _ Hbody Hforms). }
  split; [|split; [|split; [|split; [exact Hok|split; [|exact Hlast]]]]].
  - intros e He. apply label_to_id_of_raise in He.
    split; [|exact He].
    destruct He as [->|[k ->]]; discriminate.
  - intros entries -> Hno. unfold label_to_id_of. unfold_result. now rewrite Hno.
  - intros body forms before entries after ty k Hbody Hforms -> Hbefore Hty Hmd Hmissing.
    rewrite (Hrun _ _ Hbody Hforms).
    destruct (add_forms [] before) as [d1|e] eqn:Hb; [|discriminate].
    rewrite (add_forms_app _ _ _ _ Hb). simpl.
    now rewrite (add_form_missing d1 entries ty k).
  - intros body before first middle second after label id1 id2
      Hbody Hforms Hall Hfirst Hsecond Hafter.
    destruct (Hok _ _ Hbody Hforms Hall) as (d & Hd & Hget).
    exists d. split; [exact Hd|]. rewrite Hget.
    rewrite last_id_app. cbn [last_id]. rewrite last_id_app. cbn [last_id].
    rewrite Hafter, Hsecond. now rewrite key_eqb_refl.
Qed.

Lemma C3_template_resolution_witness :
  label_to_id_of template_without_id = Raise (KeyError "id")
  /\ (exists d,
        label_to_id_of (template_yaml fields_duplicate) = Ok d
        /\ PyDict.get (KStr "Name") d = Some (YStr "url"))
  /\ label_to_id_of (YMap [("name", YStr "Submission")]) = Raise (KeyError "body").
Proof.
  split; [|split].
  - apply (proj1 (proj2 (proj2 (C3_template_resolution template_without_id)))
             (YSeq [YMap [("type", YStr "input");
                          ("attributes", YMap [("label", YStr "Name")])]])
             [YMap [("type", YStr "input");
                    ("attributes", YMap [("label", YStr "Name")])]]
             [] [("type", YStr "input");
                   ("attributes", YMap [("label", YStr "Name")])] []
             (YStr "input") "id");
      reflexivity.
  - apply (proj1 (proj2 (proj2 (proj2 (proj2
             (C3_template_resolution (template_yaml fields_duplicate))))))
             (YSeq (YMap [("type", YStr "markdown");
                          ("attributes", YMap [("value", YStr "Thanks")])]
                    :: map field_yaml fields_duplicate))
             [YMap [("type", YStr "markdown");
                    ("attributes", YMap [("value", YStr "Thanks")])]]
             (field_yaml ("name", "Name")) []
             (field_yaml ("url", "Name")) [field_yaml ("labels", "Labels")]
             (KStr "Name") (YStr "name") (YStr "url"));
      reflexivity.
  - apply (proj1 (proj2 (C3_template_resolution (YMap [("name", YStr "Submission")])))
             [("name", YStr "Submission")]); reflexivity.
Defined.

(** C3 as the specification has it fails.  In a template whose
    descriptors with the [id]s [name] and [url] both carry the label
    [Name], resolution raises nothing and maps [Name] to [url], the later
    of the two, so that the section [Name] of an issue is filed under
    [url].  A template whose descriptor has no [id] raises
    [KeyError], not [TemplateFormatError]. *)
Lemma C3_template_resolution_counterexample :
  fields_duplicate = [("name", "Name"); ("url", "Name"); ("labels", "Labels")]
  /\ label_to_id_of (template_yaml fields_duplicate)
     = Ok [(KStr "Name", YStr "url"); (KStr "Labels", YStr "labels")]
  /\ _section_titles_to_ids sample_yaml_load (with_template fields_duplicate)
       [("Name", "Foo")]
     = Ok [(KStr "url", "Foo")]
  /\ label_to_id_of template_without_id = Raise (KeyError "id")
  /\ KeyError "id" <> TemplateFormatError.
Proof.
  repeat split; try (vm_compute; reflexivity). discriminate.
Qed.

(** ** Submission parsing *)

Lemma dict_get_map {V W} (f : V -> W) (k : string) (d : Dict.t V) :
  Dict.get k (map (fun kv => (fst kv, f (snd kv))) d) = f <$> Dict.get k d.
Proof.
  induction d as [|[k' v] d IH]; simpl; [reflexivity|].
  now destruct (String.eqb k k').
Qed.

Lemma pydict_get_map {V W} (f : V -> W) (k : key) (d : PyDict.t V) :
  PyDict.get k (map (fun kv => (fst kv, f (snd kv))) d) = f <$> PyDict.get k d.
Proof.
  induction d as [|[k' v] d IH]; simpl; [reflexivity|].
  now destruct (PyDict.key_eqb k k').
Qed.

(** Keyword arguments are looked up as the dictionary they come from. *)
Lemma keywords_get {V} (d : PyDict.t V) : forall kwargs,
  PyDict.keywords d = Ok kwargs ->
  forall s, Dict.get s kwargs = PyDict.get (KStr s) d.
Proof.
  unfold PyDict.keywords.
  induction d as [|[k v] d IH]; intros kwargs; simpl.
  - now intros [= <-].
  - destruct k as [|n|s']; try discriminate.
    destruct (map_result _ d) as [rest|e]; [|discriminate].
    intros [= <-] s. simpl. now rewrite (IH rest eq_refl).
Qed.

Section Parsing.

Variable Tier_all : list string.
Variable Tier_COMMUNITY : string.
Variable mdformat_text : string -> string.
Variable yaml_load : string -> result yaml.

(** The record built from keyword arguments whose [labels] is a list has
    that list as its [labels]. *)
Lemma Repository_init_labels args l kwargs repo :
  PyDict.keywords (PyDict.set (KStr "labels") (VList l) args) = Ok kwargs ->
  Repository_init Tier_all Tier_COMMUNITY kwargs = Ok repo ->
  labels repo = l.
Proof.
  intros Hkw. unfold Repository_init, labels_field.
  rewrite (keywords_get _ _ Hkw "labels"), pydict_get_set_eq.
  unfold mbind, result_bind.
  repeat match goal with
         | |- context [match ?r with Ok _ => _ | Raise _ => _ end] =>
             destruct r; [|discriminate]
         end.
  now intros [= <-].
Qed.

Lemma parse_unfold fs body_of_issue raw :
  _section_titles_to_ids yaml_load fs
    (Dict.of_pairs
       (map _clean_section (tail (Py.split "### " (mdformat_text body_of_issue)))))
  = Ok raw ->
  parse_submission_issue Tier_all Tier_COMMUNITY mdformat_text yaml_load fs
    body_of_issue
  = let args := map (fun kv => (fst kv, no_response (snd kv))) raw in
    match PyDict.get (KStr "labels") args with
    | None => Raise (KeyError "labels")
    | Some v =>
        match normalize_labels v with
        | Ok l =>
            match PyDict.keywords (PyDict.set (KStr "labels") (VList l) args) with
            | Ok kwargs => Repository_init Tier_all Tier_COMMUNITY kwargs
            | Raise e => Raise e
            end
        | Raise e => Raise e
        end
    end.
Proof.
  intros Hraw. unfold parse_submission_issue, submission_args.
  rewrite Hraw. cbn zeta. unfold mbind, result_bind, PyDict.subscript.
  now destruct (PyDict.get (KStr "labels") _).
Qed.

(** What [parse_submission_issue] does with the text filed under
    [labels]. *)
Lemma parse_labels fs body_of_issue raw :
  _section_titles_to_ids yaml_load fs
    (Dict.of_pairs
       (map _clean_section (tail (Py.split "### " (mdformat_text body_of_issue)))))
  = Ok raw ->
  match PyDict.get (KStr "labels") raw with
  | None =>
      parse_submission_issue Tier_all Tier_COMMUNITY mdformat_text yaml_load fs
        body_of_issue = Raise (KeyError "labels")
  | Some labels_text =>
      forall repo,
      parse_submission_issue Tier_all Tier_COMMUNITY mdformat_text yaml_load fs
        body_of_issue = Ok repo ->
      labels repo =
      if String.eqb labels_text "_No response_" then []
      else map Py.strip (Py.split "," labels_text)
  end.
Proof.
  intros Hraw. rewrite (parse_unfold _ _ _ Hraw). cbn zeta.
  rewrite pydict_get_map.
  destruct (PyDict.get (KStr "labels") raw) as [labels_text|]; [|reflexivity].
  intros repo. cbn [fmap option_fmap option_map]. unfold no_response.
  destruct (String.eqb labels_text "_No response_"); cbn [normalize_labels];
    (destruct (PyDict.keywords _) as [kwargs|e] eqn:Hkw; [|discriminate]);
    apply (Repository_init_labels _ _ _ _ Hkw).
Qed.

Lemma parse_reads_template_only fs1 fs2 body_of_issue :
  fs1 !! template_path = fs2 !! template_path ->
  parse_submission_issue Tier_all Tier_COMMUNITY mdformat_text yaml_load fs1
    body_of_issue
  = parse_submission_issue Tier_all Tier_COMMUNITY mdformat_text yaml_load fs2
      body_of_issue.
Proof.
  intros Hsame.
  unfold parse_submission_issue, submission_args, _section_titles_to_ids, read_text.
  now rewrite Hsame.
Qed.

(** The template is read on every call: when the read raises, so does
    the parser, whatever the issue. *)
Lemma parse_read_raises fs body_of_issue e :
  read_text fs template_path = Raise e ->
  parse_submission_issue Tier_all Tier_COMMUNITY mdformat_text yaml_load fs
    body_of_issue = Raise e.
Proof.
  intros Hread.
  unfold parse_submission_issue, submission_args, _section_titles_to_ids.
  now rewrite Hread.
Qed.

End Parsing.

(** C1, as the code has it.  Let [raw] be the texts of the sections of an
    issue, filed under the [id]s of the template.  When [raw] has a text
    under [labels], the [labels] of the parsed record is the empty list if
    the text is the placeholder [_No response_], and otherwise the pieces
    of the text between commas, each stripped, with the empty pieces kept.
    When [raw] has nothing under [labels], parsing raises [KeyError].  The
    text ["a, b ,c"] gives [a], [b], [c]. *)
Theorem C1_labels_normalization
    (Tier_all : list string) (Tier_COMMUNITY : string)
    (mdformat_text : string -> string)
    (yaml_load : string -> result yaml)
    (fs : gmap string file)
    (body_of_issue : string) (raw : PyDict.t string) :
  _section_titles_to_ids yaml_load fs
    (Dict.of_pairs
       (map _clean_section (tail (Py.split "### " (mdformat_text body_of_issue)))))
  = Ok raw ->
  match PyDict.get (KStr "labels") raw with
  | None =>
      parse_submission_issue Tier_all Tier_COMMUNITY mdformat_text yaml_load fs
        body_of_issue = Raise (KeyError "labels")
  | Some labels_text =>
      forall repo,
      parse_submission_issue Tier_all Tier_COMMUNITY mdformat_text yaml_load fs
        body_of_issue = Ok repo ->
      labels repo =
      if String.eqb labels_text "_No response_" then []
      else map Py.strip (Py.split "," labels_text)
  end
  /\ normalize_labels (VStr "a, b ,c") = Ok ["a"; "b"; "c"]
  /\ normalize_labels VNone = Ok [].
Proof.
  intros Hraw. split; [|split; reflexivity].
  now apply parse_labels.
Qed.

Lemma C1_labels_normalization_witness :
  parse_submission_issue sample_tiers sample_community formatted sample_yaml_load
    (with_template fields_plain) (issue_with_labels "a, b ,c")
  = Ok (foo_with "Foo" "https://github.com/x/foo" ["a"; "b"; "c"])
  /\ labels (foo_with "Foo" "https://github.com/x/foo" ["a"; "b"; "c"])
     = map Py.strip (Py.split "," "a, b ,c").
Proof.
  assert (Hraw :
    _section_titles_to_ids sample_yaml_load (with_template fields_plain)
      (Dict.of_pairs
         (map _clean_section
            (tail (Py.split "### " (formatted (issue_with_labels "a, b ,c"))))))
    = Ok [(KStr "name", "Foo"); (KStr "url", "https://github.com/x/foo");
          (KStr "labels", "a, b ,c")])
    by (vm_compute; reflexivity).
  assert (Hparse :
    parse_submission_issue sample_tiers sample_community formatted
      sample_yaml_load (with_template fields_plain) (issue_with_labels "a, b ,c")
    = Ok (foo_with "Foo" "https://github.com/x/foo" ["a"; "b"; "c"]))
    by (vm_compute; reflexivity).
  split; [exact Hparse|].
  exact (proj1 (C1_labels_normalization sample_tiers sample_community formatted
                  sample_yaml_load (with_template fields_plain)
                  (issue_with_labels "a, b ,c") _ Hraw) _ Hparse).
Defined.

(** C1 as the specification has it fails.  In an issue whose Labels
    section reads [a,,b], the empty piece between the commas is kept; a
    Labels section with no text gives one empty label, not the empty
    list; an issue without a Labels section is not parsed at all, the
    lookup of [labels] raises. *)
Lemma C1_labels_normalization_counterexample :
  parse_submission_issue sample_tiers sample_community formatted sample_yaml_load
    (with_template fields_plain) (issue_with_labels "a,,b")
  = Ok (foo_with "Foo" "https://github.com/x/foo" ["a"; ""; "b"])
  /\ parse_submission_issue sample_tiers sample_community formatted
       sample_yaml_load (with_template fields_plain) issue_with_empty_labels
     = Ok (foo_with "Foo" "https://github.com/x/foo" [""])
  /\ parse_submission_issue sample_tiers sample_community formatted
       sample_yaml_load (with_template fields_plain) issue_without_labels
     = Raise (KeyError "labels").
Proof.
  repeat split; vm_compute; reflexivity.
Qed.

(** C8, as the code has it.  [parse_submission_issue] writes nothing, but
    it loads the issue template itself, on every call: whatever the issue
    body, when the template file is not there the call raises
    [FileNotFoundError], when the file cannot be read it raises the
    exception of the read, and when [yaml.load] raises on the text of the
    file it raises that exception.  Of the files it reads only this one:
    for a fixed issue body, two states of the file system that agree on
    the template file give the same result. *)
Theorem C8_parse_depends_on_template_file
    (Tier_all : list string) (Tier_COMMUNITY : string)
    (mdformat_text : string -> string)
    (yaml_load : string -> result yaml)
    (fs1 fs2 : gmap string file) (body_of_issue : string) :
  (fs1 !! template_path = None ->
   parse_submission_issue Tier_all Tier_COMMUNITY mdformat_text yaml_load fs1
     body_of_issue = Raise (FileNotFoundError template_path))
  /\ (forall e,
        fs1 !! template_path = Some (Unreadable e) ->
        parse_submission_issue Tier_all Tier_COMMUNITY mdformat_text yaml_load fs1
          body_of_issue = Raise e)
  /\ (forall text e,
        fs1 !! template_path = Some (Text text) ->
        yaml_load text = Raise e ->
        parse_submission_issue Tier_all Tier_COMMUNITY mdformat_text yaml_load fs1
          body_of_issue = Raise e)
  /\ (fs1 !! template_path = fs2 !! template_path ->
      parse_submission_issue Tier_all Tier_COMMUNITY mdformat_text yaml_load fs1
        body_of_issue
      = parse_submission_issue Tier_all Tier_COMMUNITY mdformat_text yaml_load fs2
          body_of_issue).
Proof.
  split; [|split; [|split]].
  - intros Hnone. apply parse_read_raises. unfold read_text. now rewrite Hnone.
  - intros e Hbad. apply parse_read_raises. unfold read_text. now rewrite Hbad.
  - intros text e Hfile Hload.
    unfold parse_submission_issue, submission_args, _section_titles_to_ids,
      read_text.
    rewrite Hfile. unfold mbind, result_bind. now rewrite Hload.
  - apply parse_reads_template_only.
Qed.

Lemma C8_parse_depends_on_template_file_witness :
  parse_submission_issue sample_tiers sample_community formatted sample_yaml_load
    (<["README.md" := Text "Ecosystem"]> ∅) (issue_with_labels "a")
  = Raise (FileNotFoundError template_path)
  /\ parse_submission_issue sample_tiers sample_community formatted
       sample_yaml_load
       {[ template_path := Unreadable (IsADirectoryError template_path) ]}
       (issue_with_labels "a")
     = Raise (IsADirectoryError template_path)
  /\ parse_submission_issue sample_tiers sample_community formatted
       sample_yaml_load {[ template_path := Text "body: [" ]}
       (issue_with_labels "a")
     = Raise YAMLError
  /\ parse_submission_issue sample_tiers sample_community formatted
       sample_yaml_load (with_template fields_plain) (issue_with_labels "a")
     = parse_submission_issue sample_tiers sample_community formatted
         sample_yaml_load
         (<["README.md" := Text "Ecosystem"]> (with_template fields_plain))
         (issue_with_labels "a").
Proof.
  split; [|split; [|split]].
  - apply (proj1 (C8_parse_depends_on_template_file sample_tiers sample_community
                    formatted sample_yaml_load
                    (<["README.md" := Text "Ecosystem"]> ∅) ∅
                    (issue_with_labels "a"))).
    vm_compute. reflexivity.
  - apply (proj1 (proj2 (C8_parse_depends_on_template_file sample_tiers
                    sample_community formatted sample_yaml_load
                    {[ template_path := Unreadable (IsADirectoryError template_path) ]}
                    ∅ (issue_with_labels "a")))).
    vm_compute. reflexivity.
  - apply (proj1 (proj2 (proj2 (C8_parse_depends_on_template_file sample_tiers
                    sample_community formatted sample_yaml_load
                    {[ template_path := Text "body: [" ]}
                    ∅ (issue_with_labels "a")))) "body: [" YAMLError);
      vm_compute; reflexivity.
  - apply (proj2 (proj2 (proj2 (C8_parse_depends_on_template_file sample_tiers
                    sample_community formatted sample_yaml_load
                    (with_template fields_plain)
                    (<["README.md" := Text "Ecosystem"]> (with_template fields_plain))
                    (issue_with_labels "a"))))).
    vm_compute. reflexivity.
Defined.

(** C8 as the specification has it fails: the result for a fixed issue
    body depends on the template file that the parser reads.  With the
    template whose descriptors are labelled the other way round, the same
    body gives another record; with no template file, it gives
    [FileNotFoundError]. *)
Lemma C8_parse_depends_on_template_file_counterexample :
  parse_submission_issue sample_tiers sample_community formatted sample_yaml_load
    (with_template fields_plain) (issue_with_labels "a")
  = Ok (foo_with "Foo" "https://github.com/x/foo" ["a"])
  /\ parse_submission_issue sample_tiers sample_community formatted
       sample_yaml_load (with_template fields_swapped) (issue_with_labels "a")
     = Ok (foo_with "https://github.com/x/foo" "Foo" ["a"])
  /\ parse_submission_issue sample_tiers sample_community formatted
       sample_yaml_load ∅ (issue_with_labels "a")
     = Raise (FileNotFoundError ".github/ISSUE_TEMPLATE/submission.yml")
  /\ parse_submission_issue sample_tiers sample_community formatted
       sample_yaml_load (with_template fields_plain) (issue_with_labels "a")
     <> parse_submission_issue sample_tiers sample_community formatted
          sample_yaml_load (with_template fields_swapped) (issue_with_labels "a").
Proof.
  repeat split; try (vm_compute; reflexivity).
  vm_compute. discriminate.
Qed.

Lemma C6_list_repos_for_testing_witness :
  url repo_A = "https:" +:+ "//" +:+ "github.com" +:+ "/" +:+ "x" +:+ "/" +:+ "a"
  /\ repo_name_of repo_A = "x" +:+ "/" +:+ "a".
Proof.
  split; [reflexivity|].
  apply (proj1 (proj2 C6_list_repos_for_testing) repo_A "https:" "github.com" "x" "a");
    reflexivity.
Defined.

(** * Further properties *)

(** ** Splitting, joining and stripping *)

(** No piece of a split holds the separator. *)
Lemma split_char_pieces_free c s :
  forallb (Py.free_of c) (Py.split (String c "") s) = true.
Proof.
  induction s as [|c' s IH]; [reflexivity|].
  destruct (Ascii.eqb c' c) eqn:Hc.
  - apply Ascii.eqb_eq in Hc as ->. rewrite split_char_sep. exact IH.
  - rewrite (split_char_other _ _ _ Hc).
    destruct (Py.split (String c "") s) as [|piece rest]; simpl in *.
    + now rewrite Hc.
    + now rewrite Hc.
Qed.

Lemma join_cons sep p q rest :
  Py.join sep (p :: q :: rest) = p +:+ sep +:+ Py.join sep (q :: rest).
Proof. reflexivity. Qed.

(** Joining the pieces of a split with the separator gives the string
    back. *)
Lemma join_split_char c s :
  Py.join (String c "") (Py.split (String c "") s) = s.
Proof.
  induction s as [|c' s IH]; [reflexivity|].
  pose proof (split_nonempty (String c "") s) as Hne.
  destruct (Ascii.eqb c' c) eqn:Hc.
  - apply Ascii.eqb_eq in Hc as ->. rewrite split_char_sep.
    destruct (Py.split (String c "") s) as [|q rest]; [congruence|].
    rewrite join_cons, IH. reflexivity.
  - rewrite (split_char_other _ _ _ Hc).
    destruct (Py.split (String c "") s) as [|piece rest]; [congruence|].
    destruct rest as [|q rest].
    + simpl in *. now rewrite IH.
    + rewrite join_cons.
      change (String c' piece +:+ String c "" +:+ Py.join (String c "") (q :: rest))
        with (String c' (piece +:+ String c "" +:+ Py.join (String c "") (q :: rest))).
      rewrite <- join_cons. now rewrite IH.
Qed.

(** A string that holds the separator splits into two pieces at least. *)
Lemma split_char_two c s :
  Py.free_of c s = false ->
  exists p q rest, Py.split (String c "") s = p :: q :: rest.
Proof.
  induction s as [|c' s IH]; [discriminate|]. simpl. intros Hs.
  pose proof (split_nonempty (String c "") s) as Hne.
  destruct (Ascii.eqb c' c) eqn:Hc.
  - apply Ascii.eqb_eq in Hc as ->. rewrite split_char_sep.
    destruct (Py.split (String c "") s) as [|q rest]; [congruence|]. eauto.
  - simpl in Hs. rewrite (split_char_other _ _ _ Hc).
    destruct (IH Hs) as (p & q & rest & ->). eauto.
Qed.

Lemma lstrip_free c s : Py.free_of c s = true -> Py.free_of c (Py.lstrip s) = true.
Proof.
  induction s as [|c' s IH]; [reflexivity|]. intros Hs. simpl.
  destruct (Py.is_space c'); [|exact Hs].
  simpl in Hs. apply andb_prop in Hs as [_ Hs]. now apply IH.
Qed.

Lemma rstrip_free c s : Py.free_of c s = true -> Py.free_of c (Py.rstrip s) = true.
Proof.
  induction s as [|c' s IH]; [reflexivity|]. intros Hs. simpl in Hs.
  apply andb_prop in Hs as [Hc Hs]. specialize (IH Hs). simpl.
  destruct (Py.rstrip s) as [|c1 r].
  - destruct (Py.is_space c'); [reflexivity|]. simpl. now rewrite Hc.
  - simpl in *. now rewrite Hc.
Qed.

Lemma strip_free c s : Py.free_of c s = true -> Py.free_of c (Py.strip s) = true.
Proof. intros Hs. unfold Py.strip. now apply rstrip_free, lstrip_free. Qed.

Lemma rstrip_idempotent s : Py.rstrip (Py.rstrip s) = Py.rstrip s.
Proof.
  induction s as [|c s IH]; [reflexivity|]. simpl.
  destruct (Py.rstrip s) as [|c1 r] eqn:Hr.
  - destruct (Py.is_space c) eqn:Hc; [reflexivity|]. simpl. now rewrite Hc.
  - simpl. simpl in IH. now rewrite IH.
Qed.

(** Stripping on the right keeps a first character that is no white
    space. *)
Lemma rstrip_head c s :
  Py.is_space c = false ->
  exists r, Py.rstrip (String c s) = String c r.
Proof.
  intros Hc. simpl. destruct (Py.rstrip s); rewrite ?Hc; eauto.
Qed.

Lemma lstrip_head s :
  Py.lstrip s = "" \/ exists c r, Py.lstrip s = String c r /\ Py.is_space c = false.
Proof.
  induction s as [|c s IH]; [now left|]. simpl.
  destruct (Py.is_space c) eqn:Hc; [exact IH|]. right. eauto.
Qed.

(** The result of [strip] has no white space left to strip. *)
Lemma strip_idempotent s : Py.strip (Py.strip s) = Py.strip s.
Proof.
  unfold Py.strip.
  destruct (lstrip_head s) as [->|(c & r & -> & Hc)]; [reflexivity|].
  destruct (rstrip_head c r Hc) as [r' Hr]. rewrite Hr.
  simpl Py.lstrip. rewrite Hc. rewrite <- Hr. apply rstrip_idempotent.
Qed.

Lemma free_of_app c a b :
  Py.free_of c (a +:+ b) = Py.free_of c a && Py.free_of c b.
Proof.
  induction a as [|c' a IH]; [reflexivity|].
  change (String c' a +:+ b) with (String c' (a +:+ b)). simpl.
  now rewrite IH, andb_assoc.
Qed.

Lemma join_free c sep pieces :
  Py.free_of c sep = true ->
  forallb (Py.free_of c) pieces = true ->
  Py.free_of c (Py.join sep pieces) = true.
Proof.
  intros Hsep. induction pieces as [|p rest IH]; [reflexivity|].
  intros Hall. simpl in Hall. apply andb_prop in Hall as [Hp Hrest].
  destruct rest as [|q rest]; [exact Hp|].
  rewrite join_cons, !free_of_app, Hp, Hsep. now apply IH.
Qed.

Lemma forallb_map_strip c pieces :
  forallb (Py.free_of c) pieces = true ->
  forallb (Py.free_of c) (map Py.strip pieces) = true.
Proof.
  induction pieces as [|p rest IH]; [reflexivity|]. simpl. intros Hall.
  apply andb_prop in Hall as [Hp Hrest].
  now rewrite (strip_free _ _ Hp), IH.
Qed.

Lemma forallb_filter {A} (p q : A -> bool) l :
  forallb p l = true -> forallb p (List.filter q l) = true.
Proof.
  induction l as [|x l IH]; [reflexivity|]. simpl. intros Hall.
  apply andb_prop in Hall as [Hx Hl].
  destruct (q x); simpl; [rewrite Hx|]; now apply IH.
Qed.

Lemma forallb_tail {A} (p : A -> bool) l :
  forallb p l = true -> forallb p (tail l) = true.
Proof. destruct l as [|x l]; [reflexivity|]. simpl. now intros [_ ?]%andb_prop. Qed.

(** ** [_clean_section] *)

(** X1.  Whatever the section, the title that [_clean_section] returns has
    no white space at either end, and neither the title nor the clean
    section holds a line break.  A section of one line has the empty
    string as its clean section.  For a section made of the lines
    [title :: body_lines], the title is the first line stripped and the
    clean section is the other non-empty lines, each stripped, joined by
    single spaces. *)
Theorem clean_section_shape (section : string) :
  trimmed (fst (_clean_section section))
  /\ Py.free_of "010" (fst (_clean_section section)) = true
  /\ Py.free_of "010" (snd (_clean_section section)) = true
  /\ (Py.free_of "010" section = true ->
      _clean_section section = (Py.strip section, ""))
  /\ (forall title body_lines,
        section = lines (title :: body_lines) ->
        forallb (Py.free_of "010") (title :: body_lines) = true ->
        _clean_section section
        = (Py.strip title,
           Py.join " "
             (map Py.strip
                (List.filter (fun l => negb (String.eqb l "")) body_lines)))).
Proof.
  unfold _clean_section, trimmed. cbn [fst snd].
  pose proof (split_char_pieces_free "010" section) as Hfree.
  change (String "010" "") with Py.nl in Hfree.
  split; [apply strip_idempotent|].
  split.
  { apply strip_free. destruct (Py.split Py.nl section) as [|p rest]; [reflexivity|].
    simpl in Hfree. now apply andb_prop in Hfree as [? _]. }
  split.
  { apply join_free; [reflexivity|].
    now apply forallb_map_strip, forallb_filter, forallb_tail. }
  split.
  - intros Hone. unfold Py.nl. now rewrite (split_char_free _ _ Hone).
  - intros title body_lines -> Hall. unfold lines, Py.nl.
    rewrite split_join by (assumption || discriminate). reflexivity.
Qed.

Lemma clean_section_shape_witness :
  _clean_section (lines ["Labels "; ""; " a, b "; "c"; ""])
  = (Py.strip "Labels ",
     Py.join " "
       (map Py.strip
          (List.filter (fun l => negb (String.eqb l "")) [""; " a, b "; "c"; ""])))
  /\ _clean_section "Labels" = (Py.strip "Labels", "").
Proof.
  split.
  - apply (proj2 (proj2 (proj2 (proj2
             (clean_section_shape (lines ["Labels "; ""; " a, b "; "c"; ""]))))));
      reflexivity.
  - apply (proj1 (proj2 (proj2 (proj2 (clean_section_shape "Labels"))))).
    reflexivity.
Defined.

(** ** The dictionary of sections *)

Lemma dict_get_none_keys {V} (k : string) (d : Dict.t V) :
  Dict.get k d = None <-> ~ In k (map fst d).
Proof.
  induction d as [|[k' v] d IH]; simpl; [tauto|].
  destruct (String.eqb_spec k k') as [->|Hne].
  - split; [discriminate|]. intros Hno. exfalso. apply Hno. now left.
  - rewrite IH. split; [intros Hno [Heq|Hin]; [congruence|tauto]|tauto].
Qed.

Lemma dict_set_keys {V} (k : string) (v : V) (d : Dict.t V) :
  map fst (Dict.set k v d) =
  match Dict.get k d with
  | Some _ => map fst d
  | None => map fst d ++ [k]
  end.
Proof.
  induction d as [|[k' v'] d IH]; simpl; [reflexivity|].
  destruct (String.eqb k k'); simpl; [reflexivity|].
  rewrite IH. now destruct (Dict.get k d).
Qed.

Lemma dict_set_nodup {V} (k : string) (v : V) (d : Dict.t V) :
  NoDup (map fst d) -> NoDup (map fst (Dict.set k v d)).
Proof.
  intros Hd. rewrite dict_set_keys.
  destruct (Dict.get k d) eqn:Hk; [assumption|].
  apply dict_get_none_keys in Hk.
  apply NoDup_app. split; [assumption|]. split.
  - intros x Hx [->|[]]%list_elem_of_In. apply Hk. now apply list_elem_of_In.
  - apply NoDup_singleton.
Qed.

Lemma of_pairs_fold {V} (pairs : list (string * V)) : forall d k,
  Dict.get k (fold_left (fun d kv => Dict.set (fst kv) (snd kv) d) pairs d)
  = match last_value k pairs with
    | Some v => Some v
    | None => Dict.get k d
    end.
Proof.
  induction pairs as [|[k' v] pairs IH]; intros d k; simpl; [reflexivity|].
  rewrite IH. destruct (last_value k pairs); [reflexivity|].
  destruct (String.eqb k k') eqn:Hk.
  - apply String.eqb_eq in Hk as ->. apply dict_get_set_eq.
  - now apply dict_get_set_ne.
Qed.

Lemma of_pairs_fold_nodup {V} (pairs : list (string * V)) : forall d,
  NoDup (map fst d) ->
  NoDup (map fst (fold_left (fun d kv => Dict.set (fst kv) (snd kv) d) pairs d)).
Proof.
  induction pairs as [|[k v] pairs IH]; intros d Hd; simpl; [assumption|].
  now apply IH, dict_set_nodup.
Qed.

Lemma last_value_none {V} (k : string) (pairs : list (string * V)) :
  last_value k pairs = None <-> ~ In k (map fst pairs).
Proof.
  induction pairs as [|[k' v] pairs IH]; simpl; [tauto|].
  destruct (last_value k pairs).
  - split; [discriminate|]. intros Hno. exfalso.
    assert (Hin : In k (map fst pairs)).
    { destruct (in_dec string_dec k (map fst pairs)) as [?|Hn]; [assumption|].
      apply IH in Hn. discriminate. }
    tauto.
  - destruct (String.eqb_spec k k') as [->|Hne].
    + split; [discriminate|]. intros Hno. exfalso. apply Hno. now left.
    + split; [|reflexivity]. intros _ [Heq|Hin]; [congruence|].
      now apply (proj1 IH).
Qed.

(** X2.  The dictionary built from the (title, text) pairs of an issue has
    each title once; a title that occurs in several pairs is bound to the
    text of the last of them; a title is a key exactly when it occurs. *)
Theorem sections_last_title_wins (pairs : list (string * string)) :
  NoDup (map fst (Dict.of_pairs pairs))
  /\ (forall title, Dict.get title (Dict.of_pairs pairs) = last_value title pairs)
  /\ (forall title,
        In title (map fst (Dict.of_pairs pairs)) <-> In title (map fst pairs)).
Proof.
  assert (Hget : forall title,
    Dict.get title (Dict.of_pairs pairs) = last_value title pairs).
  { intros title. unfold Dict.of_pairs. rewrite of_pairs_fold.
    now destruct (last_value title pairs). }
  split; [apply of_pairs_fold_nodup; constructor|].
  split; [exact Hget|].
  intros title.
  destruct (in_dec string_dec title (map fst (Dict.of_pairs pairs))) as [Hin|Hout];
    destruct (in_dec string_dec title (map fst pairs)) as [Hin'|Hout'];
    try tauto; exfalso.
  - apply last_value_none in Hout'. rewrite <- Hget in Hout'.
    now apply dict_get_none_keys in Hout'.
  - apply dict_get_none_keys in Hout. rewrite Hget in Hout.
    now apply last_value_none in Hout.
Qed.

(** ** Re-keying the sections *)

Lemma pydict_get_none_keys {V} (k : key) (d : PyDict.t V) :
  PyDict.get k d = None <-> ~ In k (map fst d).
Proof.
  induction d as [|[k' v] d IH]; simpl; [tauto|].
  destruct (PyDict.key_eqb k k') eqn:Hk.
  - apply key_eqb_eq in Hk as ->.
    split; [discriminate|]. intros Hno. exfalso. apply Hno. now left.
  - rewrite IH. split; [|tauto].
    intros Hno [Heq|Hin]; [|tauto].
    subst k'. rewrite key_eqb_refl in Hk. discriminate.
Qed.

Lemma pydict_set_keys {V} (k : key) (v : V) (d : PyDict.t V) :
  map fst (PyDict.set k v d) =
  match PyDict.get k d with
  | Some _ => map fst d
  | None => map fst d ++ [k]
  end.
Proof.
  induction d as [|[k' v'] d IH]; simpl; [reflexivity|].
  destruct (PyDict.key_eqb k k'); simpl; [reflexivity|].
  rewrite IH. now destruct (PyDict.get k d).
Qed.

Lemma pydict_set_nodup {V} (k : key) (v : V) (d : PyDict.t V) :
  NoDup (map fst d) -> NoDup (map fst (PyDict.set k v d)).
Proof.
  intros Hd. rewrite pydict_set_keys.
  destruct (PyDict.get k d) eqn:Hk; [assumption|].
  apply pydict_get_none_keys in Hk.
  apply NoDup_app. split; [assumption|]. split.
  - intros x Hx [->|[]]%list_elem_of_In. apply Hk. now apply list_elem_of_In.
  - apply NoDup_singleton.
Qed.

Lemma pydict_fold {V} (pairs : list (key * V)) : forall d k,
  PyDict.get k (fold_left (fun d kv => PyDict.set (fst kv) (snd kv) d) pairs d)
  = match PyDict.last_value k pairs with
    | Some v => Some v
    | None => PyDict.get k d
    end.
Proof.
  induction pairs as [|[k' v] pairs IH]; intros d k; simpl; [reflexivity|].
  rewrite IH. destruct (PyDict.last_value k pairs); [reflexivity|].
  destruct (PyDict.key_eqb k k') eqn:Hk.
  - apply key_eqb_eq in Hk as ->. apply pydict_get_set_eq.
  - now apply pydict_get_set_ne.
Qed.

Lemma pydict_fold_nodup {V} (pairs : list (key * V)) : forall d,
  NoDup (map fst d) ->
  NoDup (map fst (fold_left (fun d kv => PyDict.set (fst kv) (snd kv) d) pairs d)).
Proof.
  induction pairs as [|[k v] pairs IH]; intros d Hd; simpl; [assumption|].
  now apply IH, pydict_set_nodup.
Qed.

Lemma rekey_all_app d before after : forall args args1,
  rekey_all d args before = Ok args1 ->
  rekey_all d args (before ++ after) = rekey_all d args1 after.
Proof.
  induction before as [|item before IH]; intros args args1; simpl.
  - now intros [= ->].
  - destruct (rekey d args item) as [args2|e]; [apply IH|discriminate].
Qed.

Lemma rekey_unknown d args title text :
  PyDict.get (KStr title) d = None ->
  rekey d args (title, text) = Raise (KeyError title).
Proof. intros Hno. unfold rekey. unfold_result. cbn [fst]. now rewrite Hno. Qed.



Lemma rekey_all_keyed d items : forall args args',
  rekey_all d args items = Ok args' ->
  args' = fold_left (fun a kv => PyDict.set (fst kv) (snd kv) a) (keyed d items) args.
Proof.
  induction items as [|[title text] items IH]; intros args args'; simpl.
  - now intros [= ->].
  - unfold rekey. unfold_result. cbn [fst snd].
    destruct (PyDict.get (KStr title) d) as [id|]; [|discriminate].
    destruct (Yaml.as_key id) as [k|e]; [|discriminate].
    simpl. apply IH.
Qed.

Section Rekeying.

Variable Tier_all : list string.
Variable Tier_COMMUNITY : string.
Variable mdformat_text : string -> string.
Variable yaml_load : string -> result yaml.
Variable fs : gmap string file.

Lemma section_titles_unfold text issue_template label_to_id sections :
  fs !! template_path = Some (Text text) ->
  yaml_load text = Ok issue_template ->
  label_to_id_of issue_template = Ok label_to_id ->
  _section_titles_to_ids yaml_load fs sections = rekey_all label_to_id [] sections.
Proof.
  intros Hfile Hload Hmap. unfold _section_titles_to_ids, read_text.
  rewrite Hfile. unfold mbind, result_bind. now rewrite Hload, Hmap.
Qed.

Lemma parse_args_raise body_of_issue e :
  _section_titles_to_ids yaml_load fs
    (Dict.of_pairs
       (map _clean_section (tail (Py.split "### " (mdformat_text body_of_issue)))))
  = Raise e ->
  parse_submission_issue Tier_all Tier_COMMUNITY mdformat_text yaml_load fs
    body_of_issue = Raise e.
Proof.
  intros Hraise. unfold parse_submission_issue, submission_args.
  now rewrite Hraise.
Qed.

End Rekeying.

(** X3.  A section whose title is not a label of the template makes
    parsing fail with [KeyError] for that title: the first such section,
    in the order of the issue, when the sections before it are known. *)
Theorem unknown_section_title
    (Tier_all : list string) (Tier_COMMUNITY : string)
    (mdformat_text : string -> string)
    (yaml_load : string -> result yaml)
    (fs : gmap string file)
    (body_of_issue text : string) (issue_template : yaml)
    (label_to_id : PyDict.t yaml)
    (before after : list (string * string)) (title section_text : string) :
  fs !! template_path = Some (Text text) ->
  yaml_load text = Ok issue_template ->
  label_to_id_of issue_template = Ok label_to_id ->
  Dict.of_pairs
    (map _clean_section (tail (Py.split "### " (mdformat_text body_of_issue))))
  = before ++ (title, section_text) :: after ->
  is_ok (rekey_all label_to_id [] before) = true ->
  PyDict.get (KStr title) label_to_id = None ->
  parse_submission_issue Tier_all Tier_COMMUNITY mdformat_text yaml_load fs
    body_of_issue = Raise (KeyError title).
Proof.
  intros Hfile Hload Hmap Hsections Hbefore Hunknown.
  apply parse_args_raise. rewrite Hsections.
  rewrite (section_titles_unfold yaml_load fs _ _ _ _ Hfile Hload Hmap).
  destruct (rekey_all label_to_id [] before) as [args1|e] eqn:Hb; [|discriminate].
  rewrite (rekey_all_app _ _ _ _ _ Hb). simpl.
  now rewrite (rekey_unknown _ _ _ _ Hunknown).
Qed.

Lemma unknown_section_title_witness :
  parse_submission_issue sample_tiers sample_community formatted sample_yaml_load
    (with_template fields_duplicate) (issue_with_labels "a")
  = Raise (KeyError "Repository").
Proof.
  apply (unknown_section_title sample_tiers sample_community formatted
           sample_yaml_load (with_template fields_duplicate)
           (issue_with_labels "a") (template_text fields_duplicate)
           (template_yaml fields_duplicate)
           [(KStr "Name", YStr "url"); (KStr "Labels", YStr "labels")]
           [("Name", "Foo")] [("Labels", "a")]
           "Repository" "https://github.com/x/foo");
    vm_compute; reflexivity.
Defined.

(** X4.  When the titles of the sections are resolved, the text filed
    under an [id] is that of the last section whose title the template
    maps to that [id]: two sections that resolve to one [id] do not
    conflict, the later one is kept.  The [id]s are filed once each. *)
Theorem rekeyed_sections
    (yaml_load : string -> result yaml) (fs : gmap string file)
    (text : string) (issue_template : yaml) (label_to_id : PyDict.t yaml)
    (sections : Dict.t string) (args : PyDict.t string) :
  fs !! template_path = Some (Text text) ->
  yaml_load text = Ok issue_template ->
  label_to_id_of issue_template = Ok label_to_id ->
  _section_titles_to_ids yaml_load fs sections = Ok args ->
  NoDup (map fst args)
  /\ forall id,
       PyDict.get id args = PyDict.last_value id (keyed label_to_id sections).
Proof.
  intros Hfile Hload Hmap.
  rewrite (section_titles_unfold yaml_load fs _ _ _ _ Hfile Hload Hmap).
  intros Hargs. apply rekey_all_keyed in Hargs. subst args. split.
  - apply pydict_fold_nodup. constructor.
  - intros id. rewrite pydict_fold.
    now destruct (PyDict.last_value id (keyed label_to_id sections)).
Qed.

Lemma rekeyed_sections_witness :
  _section_titles_to_ids sample_yaml_load (with_template fields_duplicate)
    [("Name", "Foo"); ("Labels", "a"); ("Name", "Bar")]
  = Ok [(KStr "url", "Bar"); (KStr "labels", "a")]
  /\ PyDict.get (KStr "url") [(KStr "url", "Bar"); (KStr "labels", "a")]
     = PyDict.last_value (KStr "url")
         (keyed [(KStr "Name", YStr "url"); (KStr "Labels", YStr "labels")]
            [("Name", "Foo"); ("Labels", "a"); ("Name", "Bar")]).
Proof.
  assert (Hargs :
    _section_titles_to_ids sample_yaml_load (with_template fields_duplicate)
      [("Name", "Foo"); ("Labels", "a"); ("Name", "Bar")]
    = Ok [(KStr "url", "Bar"); (KStr "labels", "a")]) by (vm_compute; reflexivity).
  split; [exact Hargs|].
  apply (proj2 (rekeyed_sections sample_yaml_load (with_template fields_duplicate)
                  (template_text fields_duplicate) (template_yaml fields_duplicate)
                  [(KStr "Name", YStr "url"); (KStr "Labels", YStr "labels")]
                  [("Name", "Foo"); ("Labels", "a"); ("Name", "Bar")]
                  [(KStr "url", "Bar"); (KStr "labels", "a")]
                  ltac:(vm_compute; reflexivity) ltac:(vm_compute; reflexivity)
                  ltac:(vm_compute; reflexivity) Hargs) (KStr "url")).
Defined.

(** ** What parsing can raise *)






(** ** Markdown blocks of the template *)

Lemma add_forms_app_result before after : forall d,
  add_forms d (before ++ after) =
  match add_forms d before with
  | Ok d1 => add_forms d1 after
  | Raise e => Raise e
  end.
Proof.
  induction before as [|form before IH]; intros d; simpl; [reflexivity|].
  destruct (add_form d form) as [d1|e]; [apply IH|reflexivity].
Qed.

(** X6.  A markdown block of the template takes no part in the resolution
    of the fields, whatever else it holds or lacks: the template resolves
    as it does without the block. *)
Theorem markdown_block_ignored
    (issue_template : yaml) (before after : list yaml)
    (entries : list (string * yaml)) :
  Yaml.subscript issue_template "body" = Ok (YSeq (before ++ YMap entries :: after)) ->
  Dict.get "type" entries = Some (YStr "markdown") ->
  label_to_id_of issue_template
  = label_to_id_of (YMap [("body", YSeq (before ++ after))]).
Proof.
  intros Hbody Hmd.
  change (label_to_id_of (YMap [("body", YSeq (before ++ after))]))
    with (add_forms [] (before ++ after)).
  unfold label_to_id_of. rewrite Hbody.
  unfold mbind, result_bind. cbn [Yaml.iterate].
  rewrite !add_forms_app_result.
  destruct (add_forms [] before) as [d1|e]; [|reflexivity].
  cbn [add_forms]. unfold add_form at 1. unfold_result. now rewrite Hmd.
Qed.

Lemma markdown_block_ignored_witness :
  label_to_id_of (template_yaml fields_plain)
  = label_to_id_of (YMap [("body", YSeq (map field_yaml fields_plain))]).
Proof.
  apply (markdown_block_ignored (template_yaml fields_plain) []
           (map field_yaml fields_plain)
           [("type", YStr "markdown");
            ("attributes", YMap [("value", YStr "Thanks")])]);
    reflexivity.
Defined.

(** ** Owner and repository of a URL *)

Lemma last_char_snoc s c : Py.last_char (s +:+ String c "") = Ok c.
Proof.
  induction s as [|c' s IH]; [reflexivity|].
  change (String c' s +:+ String c "") with (String c' (s +:+ String c "")).
  simpl. rewrite IH. now destruct s.
Qed.

Lemma drop_last_snoc s c : Py.drop_last (s +:+ String c "") = s.
Proof.
  induction s as [|c' s IH]; [reflexivity|].
  change (String c' s +:+ String c "") with (String c' (s +:+ String c "")).
  simpl. rewrite IH. now destruct s.
Qed.

Lemma last_char_nonempty s : s <> "" -> exists c, Py.last_char s = Ok c.
Proof.
  induction s as [|c s IH]; [congruence|]. intros _.
  destruct s as [|c' s]; [now exists c|].
  destruct IH as [c1 Hc1]; [discriminate|]. exists c1. exact Hc1.
Qed.

Lemma last_char_app a b : b <> "" -> Py.last_char (a +:+ b) = Py.last_char b.
Proof.
  intros Hb. induction a as [|c a IH]; [reflexivity|].
  change (String c a +:+ b) with (String c (a +:+ b)).
  cbn [Py.last_char]. rewrite IH.
  destruct (a +:+ b) eqn:Hab; [|reflexivity].
  exfalso. apply Hb. destruct a; [exact Hab|discriminate Hab].
Qed.

Lemma last_char_free c s c' :
  Py.free_of c s = true -> Py.last_char s = Ok c' -> Ascii.eqb c' c = false.
Proof.
  induction s as [|c1 s IH]; [discriminate|]. simpl. intros Hfree.
  apply andb_prop in Hfree as [Hc1 Hs]. apply negb_true_iff in Hc1.
  destruct s as [|c2 s]; [now intros [= <-]|]. now apply IH.
Qed.

Lemma neg_index_last_two {A} (pieces : list A) a b :
  Py.neg_index (pieces ++ [a; b]) 1 = Ok b
  /\ Py.neg_index (pieces ++ [a; b]) 2 = Ok a.
Proof. unfold Py.neg_index. rewrite rev_app_distr. now split. Qed.

Lemma two_at_the_end {A} (p q : A) rest :
  exists pieces a b, p :: q :: rest = pieces ++ [a; b].
Proof.
  destruct (rev (p :: q :: rest)) as [|b [|a r]] eqn:Hrev.
  - apply (f_equal Datatypes.length) in Hrev. rewrite length_rev in Hrev. discriminate.
  - apply (f_equal Datatypes.length) in Hrev. rewrite length_rev in Hrev. discriminate.
  - exists (rev r), a, b. rewrite <- (rev_involutive (p :: q :: rest)), Hrev.
    simpl. now rewrite <- app_assoc.
Qed.

Lemma user_and_repo_unfold u :
  u <> "" ->
  user_and_repo u =
  (repo ← Py.neg_index (Py.split "/" (without_trailing_slash u)) 1;
   user ← Py.neg_index (Py.split "/" (without_trailing_slash u)) 2;
   Ok (user, repo)).
Proof.
  intros Hu. destruct (last_char_nonempty u Hu) as [c Hc].
  unfold user_and_repo, without_trailing_slash. rewrite Hc. reflexivity.
Qed.

(** X7.  [update_stars] finds no owner and repository, and raises
    [IndexError], exactly for a URL that is empty or has no slash apart
    from one at its end.  For every other URL it finds the last two of the
    segments between slashes, a single trailing slash left aside. *)
Theorem user_and_repo_outcome (project_url : string) :
  (project_url = "" \/ Py.free_of "/" (without_trailing_slash project_url) = true ->
   user_and_repo project_url = Raise IndexError)
  /\ (project_url <> "" ->
      Py.free_of "/" (without_trailing_slash project_url) = false ->
      exists pieces user repo,
        user_and_repo project_url = Ok (user, repo)
        /\ without_trailing_slash project_url = Py.join "/" (pieces ++ [user; repo])
        /\ forallb (Py.free_of "/") (pieces ++ [user; repo]) = true).
Proof.
  split.
  - intros [->|Hfree]; [reflexivity|].
    destruct project_url as [|c u]; [reflexivity|].
    rewrite user_and_repo_unfold by discriminate.
    now rewrite (split_char_free _ _ Hfree).
  - intros Hne Hslash. rewrite (user_and_repo_unfold _ Hne).
    pose proof (join_split_char "/" (without_trailing_slash project_url)) as Hjoin.
    pose proof (split_char_pieces_free "/" (without_trailing_slash project_url)) as Hfree.
    destruct (split_char_two _ _ Hslash) as (p & q & rest & Hsplit).
    destruct (two_at_the_end p q rest) as (pieces & user & repo & Hlist).
    rewrite Hsplit, Hlist in *.
    exists pieces, user, repo.
    destruct (neg_index_last_two pieces user repo) as [-> ->].
    split; [reflexivity|]. split; [now symmetry|assumption].
Qed.

Lemma user_and_repo_outcome_witness :
  user_and_repo "github.com/" = Raise IndexError
  /\ exists pieces user repo,
       user_and_repo "https://github.com/y/c/" = Ok (user, repo)
       /\ without_trailing_slash "https://github.com/y/c/"
          = Py.join "/" (pieces ++ [user; repo])
       /\ forallb (Py.free_of "/") (pieces ++ [user; repo]) = true.
Proof.
  split.
  - apply (proj1 (user_and_repo_outcome "github.com/")). right. reflexivity.
  - apply (proj2 (user_and_repo_outcome "https://github.com/y/c/"));
      [discriminate|reflexivity].
Defined.

Lemma append_nil_r s : s +:+ "" = s.
Proof.
  induction s as [|c s IH]; [reflexivity|].
  change (String c s +:+ "") with (String c (s +:+ "")). now rewrite IH.
Qed.

Lemma append_assoc a b c : (a +:+ b) +:+ c = a +:+ b +:+ c.
Proof.
  induction a as [|x a IH]; [reflexivity|].
  change ((String x a +:+ b) +:+ c) with (String x ((a +:+ b) +:+ c)).
  now rewrite IH.
Qed.

Lemma join_snoc_empty sep pieces :
  pieces <> [] ->
  Py.join sep (pieces ++ [""]) = Py.join sep pieces +:+ sep.
Proof.
  induction pieces as [|p rest IH]; [congruence|]. intros _.
  destruct rest as [|q rest].
  - change (Py.join sep ([p] ++ [""])) with (p +:+ sep +:+ "").
    now rewrite append_nil_r.
  - change ((p :: q :: rest) ++ [""]) with (p :: q :: (rest ++ [""])).
    rewrite !join_cons.
    change (q :: rest ++ [""]) with ((q :: rest) ++ [""]).
    rewrite IH by discriminate.
    now rewrite !append_assoc.
Qed.

(** X8.  For a record whose URL is [scheme//host/owner/name], with or
    without one trailing slash, the star refresh and the selection of
    test candidates name the same repository: [update_stars] queries
    the API for [owner] and [name], and [list_repos_for_testing] lists
    [owner/name]. *)
Theorem canonical_url_identifiers
    (repo : Repository) (scheme host owner nm : string) :
  forallb (Py.free_of "/") [scheme; host; owner; nm] = true ->
  nm <> "" ->
  url repo = scheme +:+ "//" +:+ host +:+ "/" +:+ owner +:+ "/" +:+ nm
  \/ url repo = (scheme +:+ "//" +:+ host +:+ "/" +:+ owner +:+ "/" +:+ nm) +:+ "/" ->
  user_and_repo (url repo) = Ok (owner, nm)
  /\ repo_name_of repo = owner +:+ "/" +:+ nm
  /\ api_url (owner, nm) = "http://api.github.com/repos/" +:+ repo_name_of repo.
Proof.
  intros Hfree Hnm Hurl.
  assert (Hall : forallb (Py.free_of "/") [scheme; ""; host; owner; nm] = true).
  { simpl in *. exact Hfree. }
  assert (Hnm_free : Py.free_of "/" nm = true).
  { simpl in Hfree. repeat (apply andb_prop in Hfree as [? Hfree]). assumption. }
  set (u := scheme +:+ "//" +:+ host +:+ "/" +:+ owner +:+ "/" +:+ nm) in *.
  assert (Hjoin : u = Py.join "/" ([scheme; ""; host] ++ [owner; nm])) by reflexivity.
  assert (Hsplit : Py.split "/" u = [scheme; ""; host] ++ [owner; nm]).
  { rewrite Hjoin. apply split_join; [discriminate|exact Hall]. }
  assert (Hname : repo_name_of repo = owner +:+ "/" +:+ nm).
  { unfold repo_name_of. destruct Hurl as [-> | ->].
    - now rewrite Hsplit.
    - rewrite Hjoin, <- (join_snoc_empty "/") by discriminate.
      rewrite split_join; [reflexivity|discriminate|].
      simpl in *. now rewrite Hfree. }
  split; [|split; [exact Hname|now rewrite Hname]].
  assert (Hwts : without_trailing_slash (url repo) = u).
  { unfold without_trailing_slash. destruct Hurl as [-> | ->].
    - destruct (last_char_nonempty nm Hnm) as [c Hc].
      assert (Hlast : Py.last_char u = Ok c).
      { unfold u. rewrite <- !append_assoc.
        rewrite last_char_app by assumption. exact Hc. }
      rewrite Hlast. now rewrite (last_char_free _ _ _ Hnm_free Hc).
    - rewrite last_char_snoc, Ascii.eqb_refl. apply drop_last_snoc. }
  assert (Hne : url repo <> "").
  { destruct Hurl as [-> | ->].
    - intros Hempty. apply (f_equal Py.last_char) in Hempty.
      unfold u in Hempty. rewrite <- !append_assoc in Hempty.
      rewrite last_char_app in Hempty by assumption.
      destruct (last_char_nonempty nm Hnm) as [c Hc]. rewrite Hc in Hempty.
      discriminate.
    - intros Hempty. apply (f_equal Py.last_char) in Hempty.
      rewrite last_char_snoc in Hempty. discriminate. }
  rewrite (user_and_repo_unfold _ Hne), Hwts, Hsplit.
  now destruct (neg_index_last_two [scheme; ""; host] owner nm) as [-> ->].
Qed.

Lemma canonical_url_identifiers_witness :
  user_and_repo (url repo_C) = Ok ("y", "c")
  /\ repo_name_of repo_C = "y" +:+ "/" +:+ "c"
  /\ api_url ("y", "c") = "http://api.github.com/repos/" +:+ repo_name_of repo_C.
Proof.
  apply (canonical_url_identifiers repo_C "https:" "github.com" "y" "c");
    [reflexivity|discriminate|right; reflexivity].
Defined.

(** X9.  [list_repos_for_testing] raises for no URL.  A record whose URL
    has fewer than four segments between slashes is listed, as the empty
    string; one whose URL has four is listed as the fourth alone. *)
Theorem short_url_identifier (repo : Repository) :
  (Datatypes.length (Py.split "/" (url repo)) <= 3 -> repo_name_of repo = "")
  /\ (forall p0 p1 p2 p3,
        Py.split "/" (url repo) = [p0; p1; p2; p3] -> repo_name_of repo = p3)
  /\ (Py.free_of "/" (url repo) = true -> repo_name_of repo = "").
Proof.
  unfold repo_name_of, Py.slice. split; [|split].
  - destruct (Py.split "/" (url repo)) as [|p0 [|p1 [|p2 [|p3 l]]]];
      simpl; intros Hlen; try reflexivity. lia.
  - now intros p0 p1 p2 p3 ->.
  - intros Hfree. now rewrite (split_char_free _ _ Hfree).
Qed.

Lemma short_url_identifier_witness :
  repo_name_of (sample_repo "a" "github.com/x" "Main" false []) = ""
  /\ repo_name_of (sample_repo "a" "https://github.com/x" "Main" false []) = "x"
  /\ repo_name_of (sample_repo "a" "a" "Main" false []) = "".
Proof.
  split; [|split].
  - apply (proj1 (short_url_identifier
                    (sample_repo "a" "github.com/x" "Main" false []))).
    vm_compute. lia.
  - apply (proj1 (proj2 (short_url_identifier
                    (sample_repo "a" "https://github.com/x" "Main" false [])))
             "https:" "" "github.com" "x").
    reflexivity.
  - apply (proj2 (proj2 (short_url_identifier (sample_repo "a" "a" "Main" false [])))).
    reflexivity.
Defined.

(** ** What the loops leave untouched *)

(** A relation between the state before and after that is reflexive and
    transitive and that every round keeps is kept by the loop, however it
    ends. *)
Lemma for_each_rel {S A} (R : S -> S -> Prop) (body : A -> M S unit) :
  (forall st, R st st) ->
  (forall st1 st2 st3, R st1 st2 -> R st2 st3 -> R st1 st3) ->
  (forall x st, R st (snd (body x st))) ->
  forall xs st, R st (snd (for_each xs body st)).
Proof.
  intros Hrefl Htrans Hbody xs.
  induction xs as [|x xs IH]; intros st; [apply Hrefl|].
  rewrite for_each_cons. specialize (Hbody x st).
  destruct (body x st) as [[[]|e] st1]; simpl in Hbody.
  - apply (Htrans _ st1); [assumption|apply IH].
  - exact Hbody.
Qed.

Section Frames.

Context {Store : Type} `{DAO Store}.
Variable Tier_all : list string.
Variable current_dir : string.
Variable requests_get : string -> result Response.
Variable json_loads : string -> result json.
Variable fs : gmap string file.
Variable rglob_json : string -> list string.
Variable py_str : json -> string.
Variable TestResult_from_dict : Dict.t json -> result TestResult.

(** A round of the star refresh that raises has changed nothing; one that
    ends normally has left the files alone and added one log entry. *)
Lemma update_star_effects project (st : state Store) :
  match update_star requests_get json_loads project st with
  | (Raise _, st') => st' = st
  | (Ok _, st') =>
      st_files st' = st_files st /\ exists entry, st_log st' = st_log st ++ [entry]
  end.
Proof.
  unfold update_star, lift, mbind, M_bind, on_store, log.
  destruct (user_and_repo (url project)) as [user_repo|e]; [|reflexivity].
  destruct (requests_get (api_url user_repo)) as [response|e]; [|reflexivity].
  destruct (ok response); cbn [negb]; [|split; eauto].
  destruct (json_loads (text response)) as [json_data|e]; [|reflexivity].
  destruct (Json.get json_data "stargazers_count") as [stars|e]; [|reflexivity].
  destruct (dao_update_stars (url project) stars (st_store st)); [|reflexivity].
  split; eauto.
Qed.

Lemma add_result_effects artifact (st : state Store) :
  match add_result_from_artifact fs json_loads py_str TestResult_from_dict
          artifact st with
  | (Raise _, st') => st' = st
  | (Ok _, st') => st_files st' = st_files st /\ st_log st' = st_log st
  end.
Proof.
  unfold add_result_from_artifact, lift, mbind, M_bind, on_store.
  destruct (read_text fs artifact) as [f|e]; [|reflexivity].
  destruct (json_loads f) as [test_json|e]; [|reflexivity].
  destruct (Json.pop test_json "repo_name") as [popped|e]; [|reflexivity].
  destruct (TestResult_from_dict popped.2) as [test_result|e]; [|reflexivity].
  destruct (dao_add_repo_test_result _ test_result (st_store st)); [|reflexivity].
  now split.
Qed.

End Frames.

Lemma bind_read_store_snd {Store : Type} {A B}
    (f : Store -> A) (k : A -> M (state Store) B) (st : state Store) :
  (read_store f ≫= k) st = k (f (st_store st)) st.
Proof. reflexivity. Qed.

(** X10.  [update_stars] writes no file, and only adds to the log,
    however it ends.  A round that raises (on the URL, the request, the
    JSON body or the store's update) leaves the store, the files and the
    log as they were before the round. *)
Theorem update_stars_effects
    {Store : Type} {dao : DAO Store}
    (Tier_all : list string)
    (requests_get : string -> result Response)
    (json_loads : string -> result json)
    (st : state Store) :
  st_files (snd (update_stars Tier_all requests_get json_loads st)) = st_files st
  /\ (exists new,
        st_log (snd (update_stars Tier_all requests_get json_loads st))
        = st_log st ++ new)
  /\ (forall project st1 e st2,
        update_star requests_get json_loads project st1 = (Raise e, st2) ->
        st2 = st1).
Proof.
  set (R := fun a b : state Store =>
              st_files b = st_files a /\ exists new, st_log b = st_log a ++ new).
  assert (Hrefl : forall a, R a a).
  { intros a. split; [reflexivity|]. exists []. now rewrite app_nil_r. }
  assert (Htrans : forall a b c, R a b -> R b c -> R a c).
  { intros a b c [Hf1 [n1 Hl1]] [Hf2 [n2 Hl2]]. split; [congruence|].
    exists (n1 ++ n2). now rewrite Hl2, Hl1, app_assoc. }
  assert (Hround : forall project a,
    R a (snd (update_star requests_get json_loads project a))).
  { intros project a.
    pose proof (update_star_effects requests_get json_loads project a) as Heff.
    destruct (update_star requests_get json_loads project a) as [[[]|e] a'];
      simpl.
    - destruct Heff as [Hf [entry Hl]]. split; eauto.
    - subst a'. apply Hrefl. }
  assert (Hall : R st (snd (update_stars Tier_all requests_get json_loads st))).
  { unfold update_stars. apply for_each_rel; try assumption.
    intros tier a. rewrite bind_read_store_snd.
    now apply for_each_rel. }
  destruct Hall as [Hf Hl]. split; [exact Hf|split; [exact Hl|]].
  intros project st1 e st2 Hraise.
  pose proof (update_star_effects requests_get json_loads project st1) as Heff.
  now rewrite Hraise in Heff.
Qed.

Lemma update_stars_effects_witness :
  update_star shields_unreachable sample_json_loads repo_A sample_state
  = (Raise (Exception "ConnectionError"), sample_state)
  /\ sample_state = sample_state.
Proof.
  assert (Hraise :
    update_star shields_unreachable sample_json_loads repo_A sample_state
    = (Raise (Exception "ConnectionError"), sample_state)) by reflexivity.
  split; [exact Hraise|].
  exact (proj2 (proj2 (update_stars_effects sample_tiers shields_unreachable
                         sample_json_loads sample_state))
           repo_A sample_state _ sample_state Hraise).
Defined.

(** X11.  [update_badges] never changes the record store, only adds to the
    log, and removes no file: a path that holds a file before the run
    holds one after it.  This holds however the run ends. *)
Theorem update_badges_effects
    {Store : Type} {dao : DAO Store}
    (Tier_all : list string) (current_dir : string)
    (open_wb : string -> result unit)
    (requests_get : string -> result Response)
    (st : state Store) :
  st_store (snd (update_badges Tier_all current_dir open_wb requests_get st))
  = st_store st
  /\ (exists new,
        st_log (snd (update_badges Tier_all current_dir open_wb requests_get st))
        = st_log st ++ new)
  /\ (forall path,
        is_Some (st_files st !! path) ->
        is_Some
          (st_files (snd (update_badges Tier_all current_dir open_wb requests_get st))
           !! path)).
Proof.
  set (R := fun a b : state Store =>
              st_store b = st_store a
              /\ (exists new, st_log b = st_log a ++ new)
              /\ forall path, is_Some (st_files a !! path) ->
                              is_Some (st_files b !! path)).
  assert (Hrefl : forall a, R a a).
  { intros a. split; [reflexivity|]. split; [|auto].
    exists []. now rewrite app_nil_r. }
  assert (Htrans : forall a b c, R a b -> R b c -> R a c).
  { intros a b c (Hs1 & [n1 Hl1] & Hf1) (Hs2 & [n2 Hl2] & Hf2).
    split; [congruence|]. split; [|auto].
    exists (n1 ++ n2). now rewrite Hl2, Hl1, app_assoc. }
  assert (Hround : forall tier project a,
    R a (snd (update_badge current_dir open_wb requests_get tier project a))).
  { intros tier project a.
    destruct (requests_get (badge_url tier project)) as [response|e] eqn:Hget.
    - destruct (open_wb (badge_path current_dir project)) as [u|e] eqn:Hopen.
      + rewrite (update_badge_response _ _ _ _ _ _ _ _ Hget Hopen). cbn [snd].
        split; [reflexivity|]. split; [eauto|].
        intros path Hsome. cbn [st_files].
        destruct (decide (badge_path current_dir project = path)) as [->|Hne].
        * rewrite lookup_insert_eq. eauto.
        * now rewrite lookup_insert_ne.
      + rewrite (update_badge_not_opened _ _ _ _ _ _ _ _ Hget Hopen). apply Hrefl.
    - rewrite (update_badge_exception _ _ _ _ _ _ _ Hget). apply Hrefl. }
  unfold update_badges. apply for_each_rel; try assumption.
  intros tier a. rewrite bind_read_store_snd.
  apply for_each_rel; try assumption. apply Hround.
Qed.

Lemma update_badges_effects_witness :
  is_Some
    (st_files
       (snd (update_badges sample_tiers "/repo" no_folder shields_error
               (mkState sample_store {[ "/repo/badges/old.svg" := "old" ]} [])))
     !! "/repo/badges/old.svg").
Proof.
  apply (proj2 (proj2 (update_badges_effects sample_tiers "/repo" no_folder
                         shields_error
                         (mkState sample_store
                            {[ "/repo/badges/old.svg" := "old" ]} [])))).
  vm_compute. eauto.
Defined.

(** ** A run of [update_badges] in which every fetch answers *)

Section BadgeRun.

Context {Store : Type} `{DAO Store}.
Variable current_dir : string.
Variable open_wb : string -> result unit.
Variable requests_get : string -> result Response.

Lemma badge_loop_run tier projects : forall (store : Store) files entries,
  (forall project, In project projects ->
     is_ok (requests_get (badge_url tier project)) = true
     /\ is_ok (open_wb (badge_path current_dir project)) = true) ->
  for_each projects (update_badge current_dir open_wb requests_get tier)
    (mkState store files entries)
  = (Ok tt,
     mkState store
       (fold_left (badge_written current_dir requests_get)
          (map (pair tier) projects) files)
       (entries ++ map badge_logged (map (pair tier) projects))).
Proof.
  induction projects as [|p projects IH]; intros store files entries Hall.
  - simpl. now rewrite app_nil_r.
  - rewrite for_each_cons.
    destruct (Hall p) as [Hp Hq]; [now left|].
    destruct (requests_get (badge_url tier p)) as [response|e] eqn:Hget;
      [|discriminate].
    destruct (open_wb (badge_path current_dir p)) as [u|e] eqn:Hopen;
      [|discriminate].
    assert (Hw : badge_written current_dir requests_get files (tier, p)
                 = <[badge_path current_dir p := content response]> files).
    { unfold badge_written. cbn [fst snd]. now rewrite Hget. }
    rewrite (update_badge_response _ _ _ _ _ _ _ _ Hget Hopen).
    cbn [st_store st_files st_log].
    rewrite IH by (intros q Hq'; apply Hall; now right).
    cbn [map fold_left]. rewrite Hw, <- app_assoc. reflexivity.
Qed.

Lemma badge_tiers_run tiers : forall (store : Store) files entries,
  (forall tp, In tp (visited tiers store) ->
     is_ok (requests_get (badge_url (fst tp) (snd tp))) = true
     /\ is_ok (open_wb (badge_path current_dir (snd tp))) = true) ->
  update_badges tiers current_dir open_wb requests_get (mkState store files entries)
  = (Ok tt,
     mkState store
       (fold_left (badge_written current_dir requests_get) (visited tiers store) files)
       (entries ++ map badge_logged (visited tiers store))).
Proof.
  unfold update_badges.
  induction tiers as [|tier tiers IH]; intros store files entries Hall.
  - simpl. now rewrite app_nil_r.
  - rewrite for_each_cons, bind_read_store_snd. cbn [st_store].
    rewrite badge_loop_run.
    2:{ intros p Hp. apply (Hall (tier, p)). unfold visited. cbn [flat_map].
        apply in_or_app. left. now apply in_map. }
    rewrite IH.
    2:{ intros tp Htp. apply Hall. unfold visited. cbn [flat_map].
        apply in_or_app. now right. }
    unfold visited. cbn [flat_map].
    now rewrite fold_left_app, map_app, app_assoc.
Qed.

Lemma badge_written_keeps files tp path :
  is_Some (files !! path) ->
  is_Some (badge_written current_dir requests_get files tp !! path).
Proof.
  intros Hsome. unfold badge_written.
  destruct (requests_get _) as [response|e]; [|assumption].
  destruct (decide (badge_path current_dir tp.2 = path)) as [->|Hne].
  - rewrite lookup_insert_eq. eauto.
  - now rewrite lookup_insert_ne.
Qed.

Lemma badge_fold_keeps pairs : forall files path,
  is_Some (files !! path) ->
  is_Some (fold_left (badge_written current_dir requests_get) pairs files !! path).
Proof.
  induction pairs as [|tp pairs IH]; intros files path Hsome; [assumption|].
  simpl. now apply IH, badge_written_keeps.
Qed.

Lemma badge_fold_has pairs : forall files tp,
  In tp pairs ->
  is_ok (requests_get (badge_url (fst tp) (snd tp))) = true ->
  is_Some (fold_left (badge_written current_dir requests_get) pairs files
           !! badge_path current_dir (snd tp)).
Proof.
  induction pairs as [|tp' pairs IH]; intros files tp Hin Hok; [destruct Hin|].
  simpl. destruct Hin as [->|Hin]; [|now apply IH].
  apply badge_fold_keeps. unfold badge_written.
  destruct (requests_get _) as [response|e]; [|discriminate].
  rewrite lookup_insert_eq. eauto.
Qed.

End BadgeRun.

(** X12.  When, for every record of a run, the badge service answers the
    request and the record's badge file can be opened for writing,
    [update_badges] ends normally; the log gains one entry per record, tier
    by tier in the order of [Tier.all()] and, within a tier, in the order
    of the store; the files are those before the run with, record after
    record in that order, the content of the answer stored under the
    record's badge path (for two records of one name the later answer
    stays); and afterwards every record visited has a badge file. *)
Theorem update_badges_run
    {Store : Type} {dao : DAO Store}
    (Tier_all : list string) (current_dir : string)
    (open_wb : string -> result unit)
    (requests_get : string -> result Response)
    (st : state Store) :
  (forall tp, In tp (visited Tier_all (st_store st)) ->
     is_ok (requests_get (badge_url (fst tp) (snd tp))) = true
     /\ is_ok (open_wb (badge_path current_dir (snd tp))) = true) ->
  update_badges Tier_all current_dir open_wb requests_get st
  = (Ok tt,
     mkState (st_store st)
       (fold_left (badge_written current_dir requests_get)
          (visited Tier_all (st_store st)) (st_files st))
       (st_log st ++ map badge_logged (visited Tier_all (st_store st))))
  /\ forall tp, In tp (visited Tier_all (st_store st)) ->
       is_Some
         (st_files (snd (update_badges Tier_all current_dir open_wb requests_get st))
          !! badge_path current_dir (snd tp)).
Proof.
  intros Hall. destruct st as [store files entries]. cbn [st_store st_files st_log] in *.
  rewrite (badge_tiers_run current_dir open_wb requests_get Tier_all store files
             entries Hall).
  split; [reflexivity|].
  intros tp Htp. cbn [snd st_files]. apply badge_fold_has; [assumption|].
  now apply Hall.
Qed.

Lemma update_badges_run_witness :
  update_badges sample_tiers "/repo" writable shields_error sample_state
  = (Ok tt,
     mkState sample_store
       (fold_left (badge_written "/repo" shields_error)
          (visited sample_tiers sample_store) ∅)
       ([] ++ map badge_logged (visited sample_tiers sample_store)))
  /\ visited sample_tiers sample_store
     = [("Main", repo_A); ("Main", repo_B); ("Community", repo_C)].
Proof.
  split; [|reflexivity].
  apply (proj1 (update_badges_run sample_tiers "/repo" writable shields_error
                  sample_state ltac:(intros tp _; split; reflexivity))).
Defined.

(** ** Badge colour and the order of the results *)

Lemma tests_passed_members l1 l2 :
  (forall t, In t l1 -> In t l2) ->
  tests_passed_of l2 = true -> tests_passed_of l1 = true.
Proof.
  intros Hsub H2. destruct (tests_passed_of l1) eqn:H1; [reflexivity|].
  apply tests_passed_of_false in H1 as (t & Hin & Ht).
  assert (H2' : tests_passed_of l2 = false).
  { apply tests_passed_of_false. exists t. auto. }
  congruence.
Qed.

(** X13.  The badge colour depends on which results a record has, not on
    their order or number: two records with the same results in any order
    get the same colour, and the flag of two lists of results put together
    is the conjunction of their flags.  A record without results, or with
    passing results only, gets blueviolet. *)
Theorem badge_color_order_free :
  (forall p q,
     (forall t, In t (tests_results p) <-> In t (tests_results q)) ->
     badge_color p = badge_color q)
  /\ (forall p q,
        Permutation (tests_results p) (tests_results q) ->
        badge_color p = badge_color q)
  /\ (forall l1 l2,
        tests_passed_of (l1 ++ l2) = tests_passed_of l1 && tests_passed_of l2)
  /\ (forall p,
        forallb passed (tests_results p) = true -> badge_color p = "blueviolet").
Proof.
  assert (Hext : forall l1 l2,
    (forall t, In t l1 <-> In t l2) -> tests_passed_of l1 = tests_passed_of l2).
  { intros l1 l2 Hsame.
    destruct (tests_passed_of l2) eqn:H2.
    - apply (tests_passed_members l1 l2); [intros t; apply Hsame|assumption].
    - destruct (tests_passed_of l1) eqn:H1; [|reflexivity].
      rewrite <- H2. symmetry.
      apply (tests_passed_members l2 l1); [intros t; apply Hsame|assumption]. }
  split; [|split; [|split]].
  - intros p q Hsame. unfold badge_color. now rewrite (Hext _ _ Hsame).
  - intros p q Hperm. unfold badge_color.
    rewrite (Hext (tests_results p) (tests_results q)); [reflexivity|].
    intros t. split; intros Hin.
    + now apply (Permutation_in _ Hperm).
    + now apply (Permutation_in _ (Permutation_sym Hperm)).
  - intros l1 l2.
    destruct (tests_passed_of l1) eqn:H1; destruct (tests_passed_of l2) eqn:H2; simpl.
    + destruct (tests_passed_of (l1 ++ l2)) eqn:H12; [reflexivity|].
      apply tests_passed_of_false in H12 as (t & Hin & Ht).
      apply in_app_or in Hin as [Hin|Hin].
      * assert (tests_passed_of l1 = false)
          by (apply tests_passed_of_false; eauto). congruence.
      * assert (tests_passed_of l2 = false)
          by (apply tests_passed_of_false; eauto). congruence.
    + apply tests_passed_of_false. apply tests_passed_of_false in H2 as (t & Hin & Ht).
      exists t. split; [apply in_or_app; now right|assumption].
    + apply tests_passed_of_false. apply tests_passed_of_false in H1 as (t & Hin & Ht).
      exists t. split; [apply in_or_app; now left|assumption].
    + apply tests_passed_of_false. apply tests_passed_of_false in H1 as (t & Hin & Ht).
      exists t. split; [apply in_or_app; now left|assumption].
  - intros p Hall. unfold badge_color.
    destruct (tests_passed_of (tests_results p)) eqn:Hp; [reflexivity|].
    apply tests_passed_of_false in Hp as (t & Hin & _ & Hfail).
    rewrite forallb_forall in Hall. specialize (Hall t Hin). congruence.
Qed.

Lemma badge_color_order_free_witness :
  badge_color (sample_repo "p" "u" "Main" false [std_pass; std_fail; other_fail])
  = badge_color (sample_repo "q" "v" "Main" false [other_fail; std_fail; std_pass])
  /\ badge_color (sample_repo "p" "u" "Main" false [std_pass; std_pass]) = "blueviolet".
Proof.
  split.
  - apply (proj1 (proj2 badge_color_order_free)
             (sample_repo "p" "u" "Main" false [std_pass; std_fail; other_fail])
             (sample_repo "q" "v" "Main" false [other_fail; std_fail; std_pass])).
    simpl. apply perm_trans with [std_fail; other_fail; std_pass].
    + apply (Permutation_cons_append [std_fail; other_fail] std_pass).
    + apply perm_swap.
  - apply (proj2 (proj2 (proj2 badge_color_order_free))
             (sample_repo "p" "u" "Main" false [std_pass; std_pass])).
    reflexivity.
Defined.

(** ** Artifacts *)

Lemma remove_key_other key k entries :
  String.eqb k key = false ->
  Dict.get k (Json.remove_key key entries) = Dict.get k entries.
Proof.
  intros Hne. induction entries as [|[k' v] entries IH]; [reflexivity|]. simpl.
  destruct (String.eqb key k') eqn:Hk'.
  - apply String.eqb_eq in Hk' as <-. now rewrite Hne.
  - simpl. now rewrite IH.
Qed.

Lemma remove_key_gone key entries :
  NoDup (map fst entries) ->
  Dict.get key (Json.remove_key key entries) = None.
Proof.
  induction entries as [|[k' v] entries IH]; [reflexivity|]. simpl.
  intros Hnodup. apply NoDup_cons in Hnodup as [Hk' Hrest].
  destruct (String.eqb key k') eqn:Hk.
  - apply String.eqb_eq in Hk as ->.
    apply dict_get_none_keys. intros Hin. apply Hk'. now apply list_elem_of_In.
  - simpl. rewrite Hk. now apply IH.
Qed.

(** What [pop] returns for a key that is there: the value, and a
    dictionary without the key and with the other keys as they were. *)
Lemma pop_consumes entries key v rest :
  NoDup (map fst entries) ->
  Json.pop (JObj entries) key = Ok (v, rest) ->
  Dict.get key entries = Some v
  /\ Dict.get key rest = None
  /\ forall k, String.eqb k key = false -> Dict.get k rest = Dict.get k entries.
Proof.
  intros Hnodup. unfold Json.pop.
  destruct (Dict.get key entries) as [v'|]; [|discriminate].
  intros [= <- <-]. split; [reflexivity|]. split.
  - now apply remove_key_gone.
  - intros k Hk. now apply remove_key_other.
Qed.

(** X14.  [TestResult.from_dict] is never given the field [repo_name]:
    when the decoded artifacts are dictionaries (each key once), a round of
    [add_results_from_artifacts] is the same for two versions of
    [from_dict] that agree on the dictionaries without [repo_name]. *)
Theorem repo_name_is_consumed
    {Store : Type} {dao : DAO Store}
    (fs : gmap string file)
    (json_loads : string -> result json)
    (py_str : json -> string)
    (from_dict from_dict' : Dict.t json -> result TestResult)
    (artifact : string) (st : state Store) :
  (forall doc entries,
     json_loads doc = Ok (JObj entries) -> NoDup (map fst entries)) ->
  (forall d, Dict.get "repo_name" d = None -> from_dict d = from_dict' d) ->
  add_result_from_artifact fs json_loads py_str from_dict artifact st
  = add_result_from_artifact fs json_loads py_str from_dict' artifact st.
Proof.
  intros Hdict Hagree. unfold add_result_from_artifact, lift, mbind, M_bind.
  destruct (read_text fs artifact) as [doc|e]; [|reflexivity].
  destruct (json_loads doc) as [test_json|e] eqn:Hdoc; [|reflexivity].
  destruct (Json.pop test_json "repo_name") as [[v rest]|e] eqn:Hpop; [|reflexivity].
  cbn [fst snd].
  destruct test_json as [| | | | |entries]; try discriminate.
  destruct (pop_consumes entries "repo_name" v rest (Hdict _ _ Hdoc) Hpop)
    as (_ & Hgone & _).
  now rewrite (Hagree rest Hgone).
Qed.

Lemma repo_name_is_consumed_witness :
  add_result_from_artifact artifact_files sample_json_loads sample_py_str
    sample_from_dict "artifacts/a/result.json" sample_state
  = add_result_from_artifact artifact_files sample_json_loads sample_py_str
      strict_from_dict "artifacts/a/result.json" sample_state.
Proof.
  apply (repo_name_is_consumed artifact_files sample_json_loads sample_py_str
           sample_from_dict strict_from_dict "artifacts/a/result.json" sample_state).
  - intros doc entries. unfold sample_json_loads.
    destruct (String.eqb doc "{}"); [intros [= <-]; constructor|].
    destruct (String.eqb doc artifact_text); [|discriminate].
    intros [= <-]. apply (bool_decide_unpack _). vm_compute. reflexivity.
  - intros d Hd. unfold strict_from_dict. now rewrite Hd.
Defined.

(** X15.  What a round of [add_results_from_artifacts] raises on an
    artifact it cannot use.  When the file cannot be read, the exception
    of the read, whichever it is ([IsADirectoryError] for a directory
    named like a JSON file, [PermissionError], [UnicodeDecodeError],
    [FileNotFoundError] for a path that is gone); the exception of
    [json.loads] on a text that is not JSON; [KeyError] for a JSON object
    without [repo_name]; [TypeError] for a JSON array; [AttributeError]
    for a JSON string, number, boolean or null; the exception of
    [TestResult.from_dict]: each of these with the store, the files and
    the log as they were.  When the store raises on the new result, the
    round raises that exception. *)
Theorem artifact_round_failures
    {Store : Type} {dao : DAO Store}
    (fs : gmap string file)
    (json_loads : string -> result json)
    (py_str : json -> string)
    (TestResult_from_dict : Dict.t json -> result TestResult)
    (artifact : string) (st : state Store) :
  (forall e,
     read_text fs artifact = Raise e ->
     add_result_from_artifact fs json_loads py_str TestResult_from_dict artifact st
     = (Raise e, st))
  /\ (forall e,
        fs !! artifact = Some (Unreadable e) ->
        add_result_from_artifact fs json_loads py_str TestResult_from_dict
          artifact st = (Raise e, st))
  /\ (forall doc e,
        fs !! artifact = Some (Text doc) ->
        json_loads doc = Raise e ->
        add_result_from_artifact fs json_loads py_str TestResult_from_dict
          artifact st = (Raise e, st))
  /\ (forall doc test_json,
        fs !! artifact = Some (Text doc) ->
        json_loads doc = Ok test_json ->
        match test_json with
        | JObj entries =>
            Dict.get "repo_name" entries = None ->
            add_result_from_artifact fs json_loads py_str TestResult_from_dict
              artifact st = (Raise (KeyError "repo_name"), st)
        | JArr _ =>
            add_result_from_artifact fs json_loads py_str TestResult_from_dict
              artifact st = (Raise TypeError, st)
        | JNull | JBool _ | JNum _ | JStr _ =>
            add_result_from_artifact fs json_loads py_str TestResult_from_dict
              artifact st = (Raise AttributeError, st)
        end)
  /\ (forall doc test_json repo_name rest,
        fs !! artifact = Some (Text doc) ->
        json_loads doc = Ok test_json ->
        Json.pop test_json "repo_name" = Ok (repo_name, rest) ->
        (forall e,
           TestResult_from_dict rest = Raise e ->
           add_result_from_artifact fs json_loads py_str TestResult_from_dict
             artifact st = (Raise e, st))
        /\ (forall test_result e,
              TestResult_from_dict rest = Ok test_result ->
              dao_add_repo_test_result
                ("https://github.com/" +:+ py_str repo_name) test_result
                (st_store st) = Raise e ->
              fst (add_result_from_artifact fs json_loads py_str
                     TestResult_from_dict artifact st) = Raise e)).
Proof.
  assert (Hreads : forall doc, fs !! artifact = Some (Text doc) ->
                               read_text fs artifact = Ok doc).
  { intros doc Hfile. unfold read_text. now rewrite Hfile. }
  split; [|split; [|split; [|split]]].
  - intros e Hread. unfold add_result_from_artifact.
    now apply bind_lift_raise.
  - intros e Hfile. unfold add_result_from_artifact.
    apply bind_lift_raise. unfold read_text. now rewrite Hfile.
  - intros doc e Hfile Hdoc. unfold add_result_from_artifact.
    rewrite (bind_lift_ok _ _ _ _ (Hreads _ Hfile)).
    now apply bind_lift_raise.
  - intros doc test_json Hfile Hdoc.
    unfold add_result_from_artifact.
    rewrite (bind_lift_ok _ _ _ _ (Hreads _ Hfile)), (bind_lift_ok _ _ _ _ Hdoc).
    destruct test_json as [| | | | |entries]; try reflexivity.
    intros Hmissing. apply bind_lift_raise. unfold Json.pop. now rewrite Hmissing.
  - intros doc test_json repo_name rest Hfile Hdoc Hpop.
    unfold add_result_from_artifact.
    rewrite (bind_lift_ok _ _ _ _ (Hreads _ Hfile)), (bind_lift_ok _ _ _ _ Hdoc),
      (bind_lift_ok _ _ _ _ Hpop).
    cbn [fst snd]. split.
    + intros e Hfrom. now apply bind_lift_raise.
    + intros test_result e Hfrom Hstore.
      rewrite (bind_lift_ok _ _ _ _ Hfrom).
      unfold on_store. now rewrite Hstore.
Qed.

Lemma artifact_round_failures_witness :
  add_result_from_artifact
    (<["artifacts/d.json" := Unreadable (IsADirectoryError "artifacts/d.json")]>
       artifact_files)
    sample_json_loads sample_py_str sample_from_dict "artifacts/d.json"
    sample_state
  = (Raise (IsADirectoryError "artifacts/d.json"), sample_state)
  /\ add_result_from_artifact artifact_files sample_json_loads sample_py_str
       sample_from_dict "artifacts/b/result.json" sample_state
     = (Raise JSONDecodeError, sample_state)
  /\ add_result_from_artifact (<["artifacts/e.json" := Text "{}"]> artifact_files)
       sample_json_loads sample_py_str sample_from_dict "artifacts/e.json"
       sample_state
     = (Raise (KeyError "repo_name"), sample_state).
Proof.
  split; [|split].
  - apply (proj1 (artifact_round_failures
                    (<["artifacts/d.json" :=
                         Unreadable (IsADirectoryError "artifacts/d.json")]>
                       artifact_files)
                    sample_json_loads sample_py_str sample_from_dict
                    "artifacts/d.json" sample_state)).
    vm_compute. reflexivity.
  - apply (proj1 (proj2 (proj2 (artifact_round_failures artifact_files
                    sample_json_loads sample_py_str sample_from_dict
                    "artifacts/b/result.json" sample_state))) "not json");
      vm_compute; reflexivity.
  - apply (proj1 (proj2 (proj2 (proj2 (artifact_round_failures
                    (<["artifacts/e.json" := Text "{}"]> artifact_files)
                    sample_json_loads sample_py_str sample_from_dict
                    "artifacts/e.json" sample_state)))) "{}" (JObj []));
      vm_compute; reflexivity.
Defined.

(** X16.  [add_results_from_artifacts] writes no file and logs nothing,
    however it ends.  With no artifact found it does nothing.  It stops at
    the first artifact whose round raises, with that exception: the
    results of the artifacts before it are in the store, the artifacts
    after it are not read. *)
Theorem ingestion_effects
    {Store : Type} {dao : DAO Store}
    (fs : gmap string file)
    (json_loads : string -> result json)
    (rglob_json : string -> list string)
    (py_str : json -> string)
    (TestResult_from_dict : Dict.t json -> result TestResult)
    (path : string) (st : state Store) :
  (st_files (snd (add_results_from_artifacts fs json_loads rglob_json py_str
                    TestResult_from_dict path st)) = st_files st
   /\ st_log (snd (add_results_from_artifacts fs json_loads rglob_json py_str
                     TestResult_from_dict path st)) = st_log st)
  /\ (rglob_json path = [] ->
      add_results_from_artifacts fs json_loads rglob_json py_str
        TestResult_from_dict path st = (Ok tt, st))
  /\ (forall before artifact after st1 e st2,
        rglob_json path = before ++ artifact :: after ->
        for_each before
          (add_result_from_artifact fs json_loads py_str TestResult_from_dict) st
        = (Ok tt, st1) ->
        add_result_from_artifact fs json_loads py_str TestResult_from_dict
          artifact st1 = (Raise e, st2) ->
        add_results_from_artifacts fs json_loads rglob_json py_str
          TestResult_from_dict path st = (Raise e, st1)).
Proof.
  split; [|split].
  - unfold add_results_from_artifacts.
    apply (for_each_rel
             (fun a b : state Store =>
                st_files b = st_files a /\ st_log b = st_log a)).
    + now intros a.
    + intros a b c [Hf1 Hl1] [Hf2 Hl2]. split; congruence.
    + intros artifact a.
      pose proof (add_result_effects json_loads fs py_str TestResult_from_dict
                    artifact a) as Heff.
      destruct (add_result_from_artifact _ _ _ _ artifact a) as [[[]|e] a'];
        simpl; [exact Heff|now subst a'].
  - intros Hnone. unfold add_results_from_artifacts. now rewrite Hnone.
  - intros before artifact after st1 e st2 Hwalk Hbefore Hraise.
    unfold add_results_from_artifacts. rewrite Hwalk.
    rewrite (for_each_app _ _ _ _ _ Hbefore).
    pose proof (add_result_effects json_loads fs py_str TestResult_from_dict
                  artifact st1) as Heff.
    rewrite Hraise in Heff. subst st2.
    now apply for_each_raise.
Qed.

Lemma ingestion_effects_witness :
  add_results_from_artifacts (<["artifacts/e.json" := Text "{}"]> artifact_files)
    sample_json_loads
    (fun _ => ["artifacts/a/result.json"; "artifacts/e.json";
               "artifacts/b/result.json"])
    sample_py_str sample_from_dict "artifacts" sample_state
  = (Raise (KeyError "repo_name"),
     mkState
       [(url repo_A, append_test_result std_fail repo_A);
        (url repo_B, repo_B); (url repo_C, repo_C)] ∅ []).
Proof.
  apply (proj2 (proj2 (ingestion_effects
                  (<["artifacts/e.json" := Text "{}"]> artifact_files)
                  sample_json_loads
                  (fun _ => ["artifacts/a/result.json"; "artifacts/e.json";
                             "artifacts/b/result.json"])
                  sample_py_str sample_from_dict "artifacts" sample_state))
           ["artifacts/a/result.json"] "artifacts/e.json"
           ["artifacts/b/result.json"] _ (KeyError "repo_name")
           (mkState
              [(url repo_A, append_test_result std_fail repo_A);
               (url repo_B, repo_B); (url repo_C, repo_C)] ∅ []));
    vm_compute; reflexivity.
Defined.

(** ** The text that [list_repos_for_testing] returns *)

Lemma all_chars_app p a b :
  all_chars p (a +:+ b) = all_chars p a && all_chars p b.
Proof.
  induction a as [|c a IH]; [reflexivity|].
  change (String c a +:+ b) with (String c (a +:+ b)). simpl.
  now rewrite IH, andb_assoc.
Qed.

Lemma escape_char_printable c : all_chars printable (Json.escape_char c) = true.
Proof. destruct c as [[] [] [] [] [] [] [] []]; reflexivity. Qed.

Lemma escape_char_plain c : plain c = true -> Json.escape_char c = String c "".
Proof. destruct c as [[] [] [] [] [] [] [] []]; (discriminate || reflexivity). Qed.

Lemma escape_printable s : all_chars printable (Json.escape s) = true.
Proof.
  induction s as [|c s IH]; [reflexivity|]. simpl.
  now rewrite all_chars_app, escape_char_printable, IH.
Qed.

Lemma escape_plain s : all_chars plain s = true -> Json.escape s = s.
Proof.
  induction s as [|c s IH]; [reflexivity|]. simpl. intros Hs.
  apply andb_prop in Hs as [Hc Hs].
  now rewrite (escape_char_plain _ Hc), (IH Hs).
Qed.

Lemma dumps_str_printable s : all_chars printable (Json.dumps_str s) = true.
Proof.
  unfold Json.dumps_str. cbn [all_chars].
  now rewrite all_chars_app, escape_printable.
Qed.

Lemma join_printable sep pieces :
  all_chars printable sep = true ->
  forallb (all_chars printable) pieces = true ->
  all_chars printable (Py.join sep pieces) = true.
Proof.
  intros Hsep. induction pieces as [|p rest IH]; [reflexivity|].
  intros Hall. simpl in Hall. apply andb_prop in Hall as [Hp Hrest].
  destruct rest as [|q rest]; [exact Hp|].
  rewrite join_cons, !all_chars_app, Hp, Hsep. now apply IH.
Qed.

Lemma dumps_list_printable l : all_chars printable (Json.dumps_list l) = true.
Proof.
  unfold Json.dumps_list. rewrite !all_chars_app.
  rewrite join_printable; [reflexivity|reflexivity|].
  induction l as [|s l IH]; [reflexivity|]. cbn [map forallb].
  now rewrite dumps_str_printable, IH.
Qed.

(** X17.  The text that [list_repos_for_testing] returns holds printable
    ASCII characters only, whatever the URLs of the records hold.  When
    the identifiers are made of printable ASCII characters other than the
    double quote and the backslash, the text is the identifiers as they
    are, each between double quotes, separated by a comma and a space,
    between square brackets. *)
Theorem list_repos_text
    {Store : Type} {dao : DAO Store} (store : Store) :
  all_chars printable (list_repos_for_testing store) = true
  /\ (forallb (all_chars plain) (repos_for_testing store) = true ->
      list_repos_for_testing store
      = "[" +:+
        Py.join ", "
          (map (fun s => String Py.dquote (s +:+ String Py.dquote ""))
             (repos_for_testing store)) +:+
        "]").
Proof.
  split; [apply dumps_list_printable|].
  unfold list_repos_for_testing, Json.dumps_list.
  intros Hplain.
  assert (Hmap :
    map Json.dumps_str (repos_for_testing store)
    = map (fun s => String Py.dquote (s +:+ String Py.dquote ""))
        (repos_for_testing store)).
  { induction (repos_for_testing store) as [|s l IH]; [reflexivity|].
    simpl in Hplain. apply andb_prop in Hplain as [Hs Hl].
    cbn [map]. unfold Json.dumps_str at 1.
    now rewrite (escape_plain _ Hs), (IH Hl). }
  now rewrite Hmap.
Qed.

Lemma list_repos_text_witness :
  list_repos_for_testing sample_store
  = "[" +:+
    Py.join ", "
      (map (fun s => String Py.dquote (s +:+ String Py.dquote "")) ["x/a"; "y/c"]) +:+
    "]".
Proof.
  change ["x/a"; "y/c"] with (repos_for_testing sample_store).
  apply (proj2 (list_repos_text sample_store)). reflexivity.
Defined.

(** ** A star refresh in which every request is refused *)

Section StarRun.

Context {Store : Type} `{DAO Store}.
Variable requests_get : string -> result Response.
Variable json_loads : string -> result json.

Lemma star_loop_refused tier projects : forall (store : Store) files entries,
  (forall project, In project projects -> refused requests_get project) ->
  for_each projects (update_star requests_get json_loads)
    (mkState store files entries)
  = (Ok tt,
     mkState store files
       (entries ++ map star_skipped (map (pair tier) projects))).
Proof.
  induction projects as [|p projects IH]; intros store files entries Hall.
  - simpl. now rewrite app_nil_r.
  - rewrite for_each_cons.
    destruct (Hall p (or_introl eq_refl)) as (user_repo & response & Hur & Hget & Hok).
    rewrite (update_star_bad_response _ _ _ _ _ _ Hur Hget Hok).
    cbn [st_store st_files st_log].
    rewrite IH by (intros q Hq; apply Hall; now right).
    cbn [map]. now rewrite <- app_assoc.
Qed.

Lemma star_tiers_refused tiers : forall (store : Store) files entries,
  (forall tp, In tp (visited tiers store) -> refused requests_get (snd tp)) ->
  update_stars tiers requests_get json_loads (mkState store files entries)
  = (Ok tt,
     mkState store files (entries ++ map star_skipped (visited tiers store))).
Proof.
  unfold update_stars.
  induction tiers as [|tier tiers IH]; intros store files entries Hall.
  - simpl. now rewrite app_nil_r.
  - rewrite for_each_cons, bind_read_store_snd. cbn [st_store].
    rewrite (star_loop_refused tier).
    2:{ intros p Hp. apply (Hall (tier, p)). unfold visited. cbn [flat_map].
        apply in_or_app. left. now apply in_map. }
    rewrite IH.
    2:{ intros tp Htp. apply Hall. unfold visited. cbn [flat_map].
        apply in_or_app. now right. }
    unfold visited. cbn [flat_map]. now rewrite map_app, app_assoc.
Qed.

End StarRun.

(** X18.  When the repository API refuses the request of every record,
    [update_stars] ends normally with the store and the files untouched,
    and the log gains one warning per record, tier by tier in the order of
    [Tier.all()] and, within a tier, in the order of the store. *)
Theorem update_stars_all_refused
    {Store : Type} {dao : DAO Store}
    (Tier_all : list string)
    (requests_get : string -> result Response)
    (json_loads : string -> result json)
    (st : state Store) :
  (forall tp, In tp (visited Tier_all (st_store st)) ->
     refused requests_get (snd tp)) ->
  update_stars Tier_all requests_get json_loads st
  = (Ok tt,
     mkState (st_store st) (st_files st)
       (st_log st ++ map star_skipped (visited Tier_all (st_store st)))).
Proof.
  intros Hall. destruct st as [store files entries].
  now apply star_tiers_refused.
Qed.

Lemma update_stars_all_refused_witness :
  update_stars sample_tiers api_not_found sample_json_loads sample_state
  = (Ok tt,
     mkState sample_store ∅
       ([] ++ map star_skipped (visited sample_tiers sample_store))).
Proof.
  apply (update_stars_all_refused sample_tiers api_not_found sample_json_loads
           sample_state).
  intros [tier project] Hin. simpl in Hin.
  destruct Hin as [[= <- <-]|[[= <- <-]|[[= <- <-]|[]]]].
  - exists ("x", "a"), (mkResponse false "Not Found" "Not Found"). repeat split.
  - exists ("x", "b"), (mkResponse false "Not Found" "Not Found"). repeat split.
  - exists ("y", "c"), (mkResponse false "Not Found" "Not Found"). repeat split.
Defined.

(** ** The normal form of the labels *)

(** X19.  The labels that lines 56-59 make of a text are never the empty
    list; each has no comma and no white space at either end; and they are
    a fixed point: normalising the labels joined by commas gives the same
    labels. *)
Theorem labels_normal_form (labels_text : string) (l : list string) :
  normalize_labels (VStr labels_text) = Ok l ->
  l <> []
  /\ Forall (fun label => trimmed label /\ Py.free_of "," label = true) l
  /\ normalize_labels (VStr (Py.join "," l)) = Ok l.
Proof.
  intros [= <-].
  pose proof (split_nonempty "," labels_text) as Hne.
  pose proof (split_char_pieces_free "," labels_text) as Hfree.
  assert (Hall : forallb (Py.free_of ",") (map Py.strip (Py.split "," labels_text)) = true)
    by now apply forallb_map_strip.
  split; [|split].
  - destruct (Py.split "," labels_text); [congruence|discriminate].
  - apply Forall_forall. intros label Hin.
    rewrite forallb_forall in Hall. split.
    + apply list_elem_of_In, in_map_iff in Hin as (piece & <- & _).
      apply strip_idempotent.
    + apply Hall. now apply list_elem_of_In.
  - cbn [normalize_labels]. f_equal.
    rewrite split_join; [|destruct (Py.split "," labels_text); [congruence|discriminate]|exact Hall].
    rewrite map_map. apply map_ext. intros piece. apply strip_idempotent.
Qed.

Lemma labels_normal_form_witness :
  normalize_labels (VStr (Py.join "," ["a"; ""; "b c"])) = Ok ["a"; ""; "b c"].
Proof.
  apply (proj2 (proj2 (labels_normal_form " a,, b c " ["a"; ""; "b c"] eq_refl))).
Defined.

(** ** When the template cannot be used *)

(** X20.  The template is read and resolved on every call, before any
    section of the issue is looked up: whatever the issue body,
    [parse_submission_issue] raises [FileNotFoundError] when the template
    file is not there, the exception of [yaml.load] when the file does not
    load, and the exception of the resolution of the fields when the
    template is malformed. *)
Theorem template_unavailable
    (Tier_all : list string) (Tier_COMMUNITY : string)
    (mdformat_text : string -> string)
    (yaml_load : string -> result yaml)
    (fs : gmap string file) (body_of_issue : string) :
  (fs !! template_path = None ->
   parse_submission_issue Tier_all Tier_COMMUNITY mdformat_text yaml_load fs
     body_of_issue = Raise (FileNotFoundError template_path))
  /\ (forall text e,
        fs !! template_path = Some (Text text) ->
        yaml_load text = Raise e ->
        parse_submission_issue Tier_all Tier_COMMUNITY mdformat_text yaml_load fs
          body_of_issue = Raise e)
  /\ (forall text issue_template e,
        fs !! template_path = Some (Text text) ->
        yaml_load text = Ok issue_template ->
        label_to_id_of issue_template = Raise e ->
        parse_submission_issue Tier_all Tier_COMMUNITY mdformat_text yaml_load fs
          body_of_issue = Raise e).
Proof.
  split; [|split].
  - intros Hfile. apply parse_args_raise.
    unfold _section_titles_to_ids, read_text. now rewrite Hfile.
  - intros text e Hfile Hload. apply parse_args_raise.
    unfold _section_titles_to_ids, read_text. rewrite Hfile.
    unfold mbind, result_bind. now rewrite Hload.
  - intros text issue_template e Hfile Hload Hmap. apply parse_args_raise.
    unfold _section_titles_to_ids, read_text. rewrite Hfile.
    unfold mbind, result_bind. now rewrite Hload, Hmap.
Qed.

Lemma template_unavailable_witness :
  parse_submission_issue sample_tiers sample_community formatted sample_yaml_load
    ∅ "" = Raise (FileNotFoundError template_path)
  /\ parse_submission_issue sample_tiers sample_community formatted
       sample_yaml_load {[ template_path := Text "body: [" ]} ""
     = Raise YAMLError
  /\ parse_submission_issue sample_tiers sample_community formatted
       (fun _ => Ok template_without_id) {[ template_path := Text "" ]} ""
     = Raise (KeyError "id").
Proof.
  split; [|split].
  - apply (proj1 (template_unavailable sample_tiers sample_community formatted
                    sample_yaml_load ∅ "")).
    reflexivity.
  - apply (proj1 (proj2 (template_unavailable sample_tiers sample_community
                    formatted sample_yaml_load {[ template_path := Text "body: [" ]} ""))
             "body: [" YAMLError); vm_compute; reflexivity.
  - apply (proj2 (proj2 (template_unavailable sample_tiers sample_community
                    formatted (fun _ => Ok template_without_id)
                    {[ template_path := Text "" ]} ""))
             "" template_without_id (KeyError "id")); vm_compute; reflexivity.
Defined.

(** ** Splitting an issue into sections *)

Lemma prefix_app sep rest : String.prefix sep (sep +:+ rest) = true.
Proof.
  induction sep as [|c sep IH]; [now destruct rest|].
  change (String c sep +:+ rest) with (String c (sep +:+ rest)). simpl.
  destruct (ascii_dec c c); [exact IH|congruence].
Qed.

Lemma split_go_skip sep w rest :
  Py.split_go sep (String.length w) (w +:+ rest) = Py.split_go sep 0 rest.
Proof.
  induction w as [|c w IH]; [reflexivity|].
  change (String c w +:+ rest) with (String c (w +:+ rest)). exact IH.
Qed.

Lemma split_at_sep c sep rest :
  Py.split (String c sep) (String c sep +:+ rest)
  = "" :: Py.split (String c sep) rest.
Proof.
  unfold Py.split.
  change (String c sep +:+ rest) with (String c (sep +:+ rest)).
  cbn [Py.split_go].
  change (String c (sep +:+ rest)) with (String c sep +:+ rest).
  rewrite prefix_app. cbn [String.length]. rewrite Nat.sub_1_r. cbn [Nat.pred].
  now rewrite split_go_skip.
Qed.

Lemma split_before c sep pre s :
  Py.free_of c pre = true ->
  Py.split (String c sep) (pre +:+ s)
  = match Py.split (String c sep) s with
    | piece :: rest => (pre +:+ piece) :: rest
    | [] => [pre]
    end.
Proof.
  induction pre as [|c' pre IH]; intros Hpre.
  - change ("" +:+ s) with s.
    destruct (Py.split (String c sep) s) eqn:Hs; [|reflexivity].
    now apply split_nonempty in Hs.
  - simpl in Hpre. apply andb_prop in Hpre as [Hc Hpre].
    apply negb_true_iff, Ascii.eqb_neq in Hc.
    change (String c' pre +:+ s) with (String c' (pre +:+ s)).
    unfold Py.split in *. cbn [Py.split_go].
    assert (Hno : String.prefix (String c sep) (String c' (pre +:+ s)) = false).
    { simpl. destruct (ascii_dec c c'); [congruence|reflexivity]. }
    rewrite Hno, (IH Hpre).
    destruct (Py.split_go (String c sep) 0 s); reflexivity.
Qed.

Lemma split_issue_of_sections sections :
  forallb (Py.free_of "#") sections = true ->
  Py.split "### " (issue_of_sections sections) = "" :: sections.
Proof.
  induction sections as [|section sections IH]; [reflexivity|].
  intros Hall. simpl in Hall. apply andb_prop in Hall as [Hsec Hrest].
  cbn [issue_of_sections fold_right].
  rewrite (split_at_sep "#" "## "), (split_before "#" "## " _ _ Hsec).
  fold (issue_of_sections sections). rewrite (IH Hrest).
  now rewrite append_nil_r.
Qed.

Lemma clean_section_lines title body_lines :
  forallb (Py.free_of "010") (title :: body_lines) = true ->
  _clean_section (lines (title :: body_lines))
  = (Py.strip title,
     Py.join " "
       (map Py.strip (List.filter (fun l => negb (String.eqb l "")) body_lines))).
Proof.
  intros Hall. unfold _clean_section, lines, Py.nl.
  rewrite split_join by (assumption || discriminate). reflexivity.
Qed.

(** X21.  In a formatted issue made of a preamble and of sections that
    each follow a level-3 heading marker, none holding another [#], the
    preamble is dropped and every section is found, in order.  When each
    section is a title line followed by body lines, the pairs that
    [parse_submission_issue] builds its dictionary from are, in order, the
    titles stripped, each with its non-empty body lines stripped and
    joined by single spaces. *)
Theorem sections_of_issue (preamble : string) :
  Py.free_of "#" preamble = true ->
  (forall sections,
     forallb (Py.free_of "#") sections = true ->
     tail (Py.split "### " (preamble +:+ issue_of_sections sections)) = sections)
  /\ (forall titled : list (string * list string),
        forallb (fun tl => forallb (Py.free_of "#") (fst tl :: snd tl)) titled = true ->
        forallb (fun tl => forallb (Py.free_of "010") (fst tl :: snd tl)) titled = true ->
        map _clean_section
          (tail (Py.split "### "
                   (preamble +:+
                    issue_of_sections (map (fun tl => lines (fst tl :: snd tl)) titled))))
        = map (fun tl =>
                 (Py.strip (fst tl),
                  Py.join " "
                    (map Py.strip
                       (List.filter (fun l => negb (String.eqb l "")) (snd tl)))))
            titled).
Proof.
  intros Hpre.
  assert (Htail : forall sections,
    forallb (Py.free_of "#") sections = true ->
    tail (Py.split "### " (preamble +:+ issue_of_sections sections)) = sections).
  { intros sections Hall.
    rewrite (split_before "#" "## " _ _ Hpre), (split_issue_of_sections _ Hall).
    reflexivity. }
  split; [exact Htail|].
  intros titled Hhash Hnl. rewrite Htail.
  - rewrite map_map. apply map_ext_in. intros [title body_lines] Hin.
    rewrite forallb_forall in Hnl. specialize (Hnl _ Hin). cbn [fst snd] in *.
    now apply clean_section_lines.
  - rewrite forallb_forall. intros section Hin.
    apply in_map_iff in Hin as ([title body_lines] & <- & Hin).
    rewrite forallb_forall in Hhash. specialize (Hhash _ Hin). cbn [fst snd] in *.
    unfold lines. now apply join_free.
Qed.

Lemma sections_of_issue_witness :
  map _clean_section (tail (Py.split "### " (issue_with_labels "a, b")))
  = [("Name", "Foo"); ("Repository", "https://github.com/x/foo"); ("Labels", "a, b")].
Proof.
  change (issue_with_labels "a, b")
    with ("" +:+
          issue_of_sections
            (map (fun tl => lines (fst tl :: snd tl))
               [("Name", [""; "Foo"; ""; ""]);
                ("Repository", [""; "https://github.com/x/foo"; ""; ""]);
                ("Labels", [""; "a, b"; ""])])).
  rewrite (proj2 (sections_of_issue "" eq_refl)); reflexivity.
Defined.
